(** * bipy.core.distance: the labelled distance matrix and its text codec

    A shallow embedding of [bipy/core/distance.py].  The Python class
    [DistanceMatrix] becomes a record, its methods become functions on that
    record, exceptions become the [Raise] branch of a result type, the
    file-like objects become the list of lines still to be read (reader) and
    the text written so far (writer), and the label index (a [dict]) becomes
    a [gmap]. *)

From Stdlib Require Import String Ascii ZArith List Bool Lia.
From Stdlib Require Import Floats.SpecFloat.
From Stdlib Require Import Decimal DecimalString DecimalNat.
From Stdlib Require DecimalFacts DecimalN.
From stdpp Require Import gmap strings list.

Local Open Scope Z_scope.
Local Open Scope nat_scope.

(** ** Python text primitives *)

Module Py.

Definition TAB : string := String "009"%char "".
Definition LF : string := String "010"%char "".

(** The characters removed by [str.strip()] without arguments. *)
Definition isspace (c : ascii) : bool :=
  let n := nat_of_ascii c in
  (n =? 32) || ((9 <=? n) && (n <=? 13)).

Fixpoint lstrip (s : string) : string :=
  match s with
  | String c rest => if isspace c then lstrip rest else s
  | EmptyString => EmptyString
  end.

Fixpoint rstrip (s : string) : string :=
  match s with
  | String c rest =>
      match rstrip rest with
      | EmptyString => if isspace c then EmptyString else String c EmptyString
      | r => String c r
      end
  | EmptyString => EmptyString
  end.

Definition strip (s : string) : string := rstrip (lstrip s).

(** Truth value of a string: [if line] holds for the nonempty ones. *)
Definition truthy (s : string) : bool :=
  match s with EmptyString => false | _ => true end.

Definition startswith (s p : string) : bool := String.prefix p s.

(** [s.split(sep)] for a nonempty [sep]: cut at each occurrence of [sep],
    leftmost first, occurrences not overlapping.  [skip] counts the
    characters of an occurrence still to be passed over. *)
Fixpoint split_from (sep : string) (skip : nat) (s : string) : list string :=
  match s with
  | EmptyString => [EmptyString]
  | String c rest =>
      match skip with
      | S k => split_from sep k rest
      | O =>
          if String.prefix sep s
          then EmptyString :: split_from sep (String.length sep - 1) rest
          else match split_from sep 0 rest with
               | field :: fields => String c field :: fields
               | [] => [String c EmptyString]
               end
      end
  end.

(** [sep.join(l)] *)
Definition join (sep : string) (l : list string) : string := String.concat sep l.

(** [str(n)] for a non-negative integer. *)
Definition str_of_nat (n : nat) : string := NilEmpty.string_of_uint (Nat.to_uint n).

(** Iterating a file-like object: the text cut after each line feed, every
    line keeping its terminator. *)
Fixpoint readlines (s : string) : list string :=
  match s with
  | EmptyString => []
  | String c rest =>
      if Ascii.eqb c "010"%char then String c EmptyString :: readlines rest
      else match readlines rest with
           | line :: lines => String c line :: lines
           | [] => [String c EmptyString]
           end
  end.

Definition lower (c : ascii) : ascii :=
  let n := nat_of_ascii c in
  if (65 <=? n) && (n <=? 90) then ascii_of_nat (n + 32) else c.

Fixpoint lowercase (s : string) : string :=
  match s with
  | String c rest => String (lower c) (lowercase rest)
  | EmptyString => EmptyString
  end.

End Py.

(** ** Exceptions and results *)

Inductive exn : Type :=
| DistanceMatrixError (msg : string)
| MissingSampleIDError (msg : string)
| DistanceMatrixFormatError (msg : string)
| SampleIDMismatchError
| MissingHeaderError
| MissingDataError (actual expected : nat)
| ValueError (msg : string)
| IndexError (msg : string)
| AttributeError (msg : string)
| OtherException (name : string).

(** The message an exception carries ([e.args[0]]). *)
Definition args (e : exn) : string :=
  match e with
  | DistanceMatrixError msg | MissingSampleIDError msg
  | DistanceMatrixFormatError msg | ValueError msg | IndexError msg
  | AttributeError msg | OtherException msg => msg
  | SampleIDMismatchError =>
      "Encountered mismatched sample IDs while parsing the " +:+
      "distance matrix file. Please ensure that the sample IDs " +:+
      "match between the distance matrix header (first row) " +:+
      "and the row labels (first column)."
  | MissingHeaderError =>
      "Could not find a header line containing sample IDs in " +:+
      "the distance matrix file. Please verify that the file " +:+
      "is not empty."
  | MissingDataError actual expected =>
      "Expected " +:+ Py.str_of_nat expected +:+ " row(s) of data, but found "
      +:+ Py.str_of_nat actual +:+ "."
  end.

Inductive result (A : Type) : Type :=
| Ok (a : A)
| Raise (e : exn).
Arguments Ok {A} a.
Arguments Raise {A} e.

#[global] Instance result_ret : MRet result := fun A a => Ok a.
#[global] Instance result_bind : MBind result := fun A B k r =>
  match r with
  | Ok a => k a
  | Raise e => Raise e
  end.

(** [s.split(sep)]; Python refuses an empty separator. *)
Definition split (s sep : string) : result (list string) :=
  match sep with
  | EmptyString => Raise (ValueError "empty separator")
  | _ => Ok (Py.split_from sep 0 s)
  end.

(** ** Double-precision values

    The buffer holds IEEE 754 binary64 numbers ([dtype='float']).  They are
    the values of [spec_float] at precision 53 and maximal exponent 1024;
    [==] is the IEEE comparison, under which a NaN differs from everything
    and the two zeros are equal. *)

Definition float : Type := spec_float.

Module F64.

Definition prec : Z := 53%Z.
Definition emax : Z := 1024%Z.

Definition zero : float := S754_zero false.
Definition one : float := S754_finite false 4503599627370496 (-52).
Definition inf : float := S754_infinity false.
Definition nan : float := S754_nan.

Definition eqb (x y : float) : bool := SFeqb x y.
Definition add (x y : float) : float := SFadd prec emax x y.

Definition is_nan (x : float) : bool :=
  match x with S754_nan => true | _ => false end.

Definition is_finite (x : float) : bool :=
  match x with S754_zero _ | S754_finite _ _ _ => true | _ => false end.

(** The double nearest to [(-1)^sign * m * 10^e], ties to even. *)
Definition of_decimal (sign : bool) (m : Z) (e : Z) : float :=
  match m with
  | Z0 => S754_zero sign
  | Zneg _ => S754_nan
  | Zpos p =>
      match e with
      | Zneg k =>
          let den := Z.pow_pos 10 k in
          let shift := Z.max 0 (55 + Z.log2 den - Z.log2 m)%Z in
          let num := Z.shiftl m shift in
          let q := (num / den)%Z in
          let r := (num mod den)%Z in
          let loc :=
            if (r =? 0)%Z then loc_Exact
            else loc_Inexact (Z.compare (2 * r) den) in
          binary_round_aux prec emax sign q (- shift) loc
      | _ => binary_round prec emax sign
               (Z.to_pos (m * Z.pow 10 e)) 0
      end
  end.

Definition digit_of (c : ascii) : option Z :=
  let n := nat_of_ascii c in
  if (48 <=? n) && (n <=? 57) then Some (Z.of_nat (n - 48)) else None.

(** Reads a run of decimal digits: the number read so far, how many
    digits were consumed, and the rest of the text. *)
Fixpoint read_digits (s : string) (acc : Z) (count : nat)
  : Z * nat * string :=
  match s with
  | String c rest =>
      match digit_of c with
      | Some d => read_digits rest (10 * acc + d)%Z (S count)
      | None => (acc, count, s)
      end
  | EmptyString => (acc, count, EmptyString)
  end.

Definition read_sign (s : string) : bool * string :=
  match s with
  | String "-"%char rest => (true, rest)
  | String "+"%char rest => (false, rest)
  | _ => (false, s)
  end.

Definition read_exponent (s : string) : option Z :=
  match s with
  | EmptyString => Some 0%Z
  | String c rest =>
      if Ascii.eqb (Py.lower c) "e"%char then
        let '(neg, rest) := read_sign rest in
        match read_digits rest 0 0 with
        | (_, O, _) => None
        | (n, _, EmptyString) => Some (if neg then (- n)%Z else n)
        | _ => None
        end
      else None
  end.

(** Text to double, as [float(s)] does: surrounding white space is
    dropped, then an optional sign and either [inf], [infinity], [nan]
    (in any case) or a decimal literal with an optional exponent. *)
Definition of_string (s : string) : option float :=
  let '(sign, body) := read_sign (Py.strip s) in
  let word := Py.lowercase body in
  if String.eqb word "inf" || String.eqb word "infinity"
  then Some (S754_infinity sign)
  else if String.eqb word "nan" then Some S754_nan
  else
    let '(ip, ni, rest) := read_digits body 0 0 in
    let '(m, nf, rest) :=
      match rest with
      | String "."%char rest' => read_digits rest' ip 0
      | _ => (ip, O, rest)
      end in
    match ni + nf with
    | O => None
    | _ =>
        match read_exponent rest with
        | Some e => Some (of_decimal sign m (e - Z.of_nat nf))
        | None => None
        end
    end.

(** [str(n)] for a non-negative integer. *)
Definition digits (n : Z) : string :=
  NilZero.string_of_uint (N.to_uint (Z.to_N n)).

(** [s.rstrip('0')] *)
Fixpoint drop_zeros (s : string) : string :=
  match s with
  | String c rest =>
      match drop_zeros rest with
      | EmptyString => if Ascii.eqb c "0"%char then EmptyString
                       else String c EmptyString
      | r => String c r
      end
  | EmptyString => EmptyString
  end.

Fixpoint zeros (n : nat) : string :=
  match n with
  | O => EmptyString
  | S k => String "0"%char (zeros k)
  end.

(** One text of a double that [of_string] reads back as the same double:
    its exact decimal expansion.  numpy chooses the text of a double its own
    way (see [astype_str] below); this one stands in for it in examples. *)
Definition to_decimal (x : float) : string :=
  let minus (s : bool) : string := if s then "-" else EmptyString in
  match x with
  | S754_zero s => minus s +:+ "0.0"
  | S754_infinity s => minus s +:+ "inf"
  | S754_nan => "nan"
  | S754_finite s m e =>
      match e with
      | Zneg k =>
          let scaled := (Zpos m * Z.pow_pos 5 k)%Z in
          let unit := Z.pow_pos 10 k in
          let frac := digits (scaled mod unit) in
          let frac :=
            zeros (Pos.to_nat k - String.length frac) +:+ frac in
          let frac :=
            match drop_zeros frac with
            | EmptyString => "0"
            | r => r
            end in
          minus s +:+ digits (scaled / unit) +:+ "." +:+ frac
      | _ => minus s +:+ digits (Zpos m * Z.pow 2 e) +:+ ".0"
      end
  end.

End F64.

(** [np.asarray(tokens, dtype='float')] on a list of strings. *)
Fixpoint asarray_float (tokens : list string) : result (list float) :=
  match tokens with
  | [] => Ok []
  | t :: ts =>
      match F64.of_string t with
      | Some x => xs ← asarray_float ts; Ok (x :: xs)
      | None => Raise (ValueError ("could not convert string to float: " +:+ t))
      end
  end.

(** ** The matrix buffer

    A numpy [ndarray] of doubles: its shape and its elements in row-major
    (C) order.  [DistanceMatrix.__init__] first coerces its argument with
    [np.asarray(data, dtype='float')]; the values of this type are the
    results of that coercion. *)

Record ndarray : Type := { shape : list nat; flat : list float }.

Module Np.

Definition product (dims : list nat) : nat := fold_right Nat.mul 1 dims.

(** Every array numpy builds has as many elements as its shape says. *)
Definition well_formed (a : ndarray) : Prop :=
  length (flat a) = product (shape a).

(** [a[i, j]] of a two-dimensional array with [cols] columns. *)
Definition item (a : ndarray) (cols i j : nat) : float :=
  default F64.nan (flat a !! (i * cols + j)).

(** The two-dimensional array whose element [(i, j)] is [f i j]. *)
Definition tabulate (rows cols : nat) (f : nat -> nat -> float) : ndarray :=
  {| shape := [rows; cols];
     flat := concat ((fun i => f i <$> seq 0 cols) <$> seq 0 rows) |}.

(** [np.empty(shape, dtype='float')].  numpy leaves the elements
    unspecified; [from_file] overwrites every row before the array is
    read, and the model fills it with zeros. *)
Definition empty (dims : list nat) : ndarray :=
  {| shape := dims; flat := replicate (product dims) F64.zero |}.

(** [a[i, :] = vals] on a two-dimensional array, for [vals] of the row
    length (which [from_file] has checked before it assigns). *)
Definition set_row (a : ndarray) (i : nat) (vals : list float) : ndarray :=
  match shape a with
  | [_; cols] =>
      {| shape := shape a;
         flat := take (i * cols) (flat a) ++ vals
                 ++ drop (i * cols + cols) (flat a) |}
  | _ => a
  end.

Fixpoint chunks (count size : nat) (l : list float) : list (list float) :=
  match count with
  | O => []
  | S k => take size l :: chunks k size (drop size l)
  end.

(** Iterating an array yields its sub-arrays along the first axis; for a
    two-dimensional array these are its rows. *)
Definition iter (a : ndarray) : list (list float) :=
  match shape a with
  | [] => []
  | n :: dims => chunks n (product dims) (flat a)
  end.

Fixpoint all_eqb (xs ys : list float) : bool :=
  match xs, ys with
  | [], [] => true
  | x :: xs', y :: ys' => F64.eqb x y && all_eqb xs' ys'
  | _, _ => false
  end.

(** [np.array_equal(a, b)]: same shape and all elements equal under [==]. *)
Definition array_equal (a b : ndarray) : bool :=
  bool_decide (shape a = shape b) && all_eqb (flat a) (flat b).

(** [np.tril(a, -1)]: the part strictly below the diagonal, zero elsewhere. *)
Definition tril_below (a : ndarray) : ndarray :=
  match shape a with
  | [rows; cols] =>
      tabulate rows cols
        (fun i j => if j <? i then item a cols i j else F64.zero)
  | _ => a
  end.

(** [a.T] of a two-dimensional array. *)
Definition transpose (a : ndarray) : ndarray :=
  match shape a with
  | [rows; cols] => tabulate cols rows (fun i j => item a cols j i)
  | _ => a
  end.

(** [a += b] for arrays of one shape: the sums element by element, [b]
    read as it is when the statement starts. *)
Definition iadd (a b : ndarray) : ndarray :=
  {| shape := shape a; flat := zip_with F64.add (flat a) (flat b) |}.

(** The length two axes broadcast to: the lengths are equal, or one of
    them is 1; otherwise the arrays do not broadcast. *)
Definition broadcast (a b : nat) : option nat :=
  if a =? b then Some a
  else if a =? 1 then Some b
  else if b =? 1 then Some a
  else None.

(** [(D == D.T).all()] for [D] of shape [(rows, cols)].  [D.T] has shape
    [(cols, rows)]; [==] broadcasts the two arrays to one shape, an axis of
    length 1 being read at index 0 all along.  [None] stands for the
    exception met when the shapes do not broadcast. *)
Definition symmetric (D : ndarray) (rows cols : nat) : option bool :=
  match broadcast rows cols, broadcast cols rows with
  | Some m, Some n =>
      let row i := if rows =? 1 then 0 else i in
      let col j := if cols =? 1 then 0 else j in
      Some (forallb (fun i =>
              forallb (fun j =>
                F64.eqb (item D cols (row i) (col j))
                        (item D cols (row j) (col i)))
                (seq 0 n))
              (seq 0 m))
  | _, _ => None
  end.

(** [(D[xrange(0, s[0]), xrange(0, s[0])] == 0).all()] for [D] of shape
    [s = (rows, cols)]: the entries [D[i, i]] for [i < rows].  [None] stands
    for the [IndexError] raised when one of them lies outside the array. *)
Definition hollow (D : ndarray) (rows cols : nat) : option bool :=
  if rows <=? cols
  then Some (forallb (fun i => F64.eqb (item D cols i i) F64.zero) (seq 0 rows))
  else None.

(** [scipy.spatial.distance.is_valid_dm(D)] with its default zero
    tolerance: the array holds doubles (every [ndarray] here does) and has
    two dimensions, [D == D.T] holds everywhere and the entries [D[i, i]],
    [i < D.shape[0]], are zero.  The function answers [False] when one of
    these tests fails and when one of them raises an exception. *)
Definition is_valid_dm (D : ndarray) : bool :=
  match shape D with
  | [rows; cols] =>
      match symmetric D rows cols with
      | Some true =>
          match hollow D rows cols with
          | Some true => true
          | _ => false
          end
      | _ => false
      end
  | _ => false
  end.

End Np.

(** ** DistanceMatrix *)

Record DistanceMatrix : Type := {
  _data : ndarray;
  _sample_ids : list string;
  _sample_index : gmap string nat
}.

Definition size_message : string := "Data must be at least 1x1 in size.".
Definition unique_message : string := "Sample IDs must be unique.".
Definition structure_message : string :=
  "Data must be an array that is " +:+
  "2-dimensional, square, symmetric, " +:+
  "hollow, and contains only floating " +:+
  "point values.".
Definition count_message : string :=
  "The number of sample IDs must match " +:+
  "the number of rows/columns in the " +:+
  "data.".

(** [len(set(sample_ids))] *)
Definition len_set (sample_ids : list string) : nat :=
  size (list_to_set sample_ids : gset string).

Definition _validate (data : ndarray) (sample_ids : list string) : result unit :=
  let num_sids := length sample_ids in
  if bool_decide (0 ∈ shape data) then
    Raise (DistanceMatrixError size_message)
  else if negb (num_sids =? len_set sample_ids) then
    Raise (DistanceMatrixError unique_message)
  else if negb (Np.is_valid_dm data) then
    Raise (DistanceMatrixError structure_message)
  else
    match shape data !! 0 with
    | None => Raise (IndexError "tuple index out of range")
    | Some rows =>
        if negb (num_sids =? rows) then
          Raise (DistanceMatrixError count_message)
        else Ok tt
    end.

(** [{id_: idx for idx, id_ in enumerate(list_)}]: a later occurrence of a
    label replaces an earlier one. *)
Definition _index_list (list_ : list string) : gmap string nat :=
  fold_left (fun index '(idx, id_) => <[id_ := idx]> index)
            (imap (fun idx id_ => (idx, id_)) list_) ∅.

Definition __init__ (data : ndarray) (sample_ids : list string)
  : result DistanceMatrix :=
  _ ← _validate data sample_ids;
  Ok {| _data := data;
        _sample_ids := sample_ids;
        _sample_index := _index_list sample_ids |}.

Definition data (self : DistanceMatrix) : ndarray := _data self.
Definition sample_ids (self : DistanceMatrix) : list string := _sample_ids self.
Definition dm_shape (self : DistanceMatrix) : list nat := shape (data self).
Definition num_samples (self : DistanceMatrix) : nat := length (sample_ids self).
Definition transpose (self : DistanceMatrix) : DistanceMatrix := self.
Definition redundant_form (self : DistanceMatrix) : ndarray := data self.

(** The [sample_ids] setter.  The object is mutable: the function returns
    the state of the instance after the call together with the exception
    that left it, if any. *)
Definition set_sample_ids (self : DistanceMatrix) (sample_ids_ : list string)
  : DistanceMatrix * option exn :=
  match _validate (data self) sample_ids_ with
  | Raise e => (self, Some e)
  | Ok _ =>
      let self := {| _data := _data self;
                     _sample_ids := sample_ids_;
                     _sample_index := _sample_index self |} in
      let self := {| _data := _data self;
                     _sample_ids := _sample_ids self;
                     _sample_index := _index_list (_sample_ids self) |} in
      (self, None)
  end.

(** *** Equality

    [__eq__] reads three attributes of [other], which may be any object, and
    compares them with its own.  Reading an attribute returns its value or
    raises: [AttributeError] when the object has no such attribute, or
    whatever a property of the object raises.  The value is of the kind the
    class itself holds there (a tuple of integers for [shape], a tuple of
    strings for [sample_ids], an array of doubles for [data]) or it is some
    other object: a list, an array in place of a tuple, an instance of any
    class.  Comparing with another object is up to that object; all the
    method sees of it is what the comparison comes to where it is used, the
    truth value of [mine != theirs] (of [not np.array_equal(mine, theirs)]
    for [data]) or the exception raised on the way, which may depend on
    [mine]. *)

Inductive pyvalue (A : Type) : Type :=
| Native (value : A)
| Foreign (differs : A -> result bool).
Arguments Native {A} value.
Arguments Foreign {A} differs.

Record pyobject : Type := {
  getattr_shape : result (pyvalue (list nat));
  getattr_sample_ids : result (pyvalue (list string));
  getattr_data : result (pyvalue ndarray)
}.

(** A [DistanceMatrix] seen as the object on the right of [==]. *)
Definition as_object (dm : DistanceMatrix) : pyobject :=
  {| getattr_shape := Ok (Native (dm_shape dm));
     getattr_sample_ids := Ok (Native (sample_ids dm));
     getattr_data := Ok (Native (data dm)) |}.

(** [mine != theirs] where an [if] reads it; between two tuples it is the
    comparison of their items in order. *)
Definition ne {A : Type} `{EqDecision A} (mine : A) (theirs : pyvalue A)
  : result bool :=
  match theirs with
  | Native value => Ok (negb (bool_decide (mine = value)))
  | Foreign differs => differs mine
  end.

(** [not np.array_equal(mine, theirs)] *)
Definition not_array_equal (mine : ndarray) (theirs : pyvalue ndarray)
  : result bool :=
  match theirs with
  | Native value => Ok (negb (Np.array_equal mine value))
  | Foreign differs => differs mine
  end.

Definition __eq__ (self : DistanceMatrix) (other : pyobject) : result bool :=
  let equal := true in
  let attempt : result bool :=
    other_shape ← getattr_shape other;
    shapes_differ ← ne (dm_shape self) other_shape;
    if shapes_differ : bool then Ok false
    else
      other_ids ← getattr_sample_ids other;
      ids_differ ← ne (sample_ids self) other_ids;
      if ids_differ : bool then Ok false
      else
        other_data ← getattr_data other;
        data_differ ← not_array_equal (data self) other_data;
        if data_differ : bool then Ok false
        else Ok equal in
  match attempt with
  | Raise (AttributeError _) => Ok false
  | outcome => outcome
  end.

Definition __ne__ (self : DistanceMatrix) (other : pyobject) : result bool :=
  equal ← __eq__ self other; Ok (negb equal).

(** *** Indexing *)

Inductive pyindex : Type :=
| IndexStr (s : string)
| IndexInt (i : Z)
| IndexSlice (start stop : option Z)
| IndexPair (row col : pyindex).

Definition missing_id_message (index : string) : string :=
  "The sample ID '" +:+ index +:+ "' is not in the " +:+
  "distance matrix.".

Section Buffer.

(** What numpy provides and the module only calls: the indexing of the
    buffer ([ndarray.__getitem__], whose results are values of [view]) and
    the text of a double ([np.asarray(vals, dtype=np.str)], element by
    element). *)
Variable view : Type.
Variable ndarray_getitem : ndarray -> pyindex -> result view.
Variable astype_str : float -> string.

Definition __getitem__ (self : DistanceMatrix) (index : pyindex)
  : result view :=
  match index with
  | IndexStr label =>
      match _sample_index self !! label with
      | Some idx => ndarray_getitem (data self) (IndexInt (Z.of_nat idx))
      | None => Raise (MissingSampleIDError (missing_id_message label))
      end
  | _ => ndarray_getitem (data self) index
  end.

Definition __getslice__ (self : DistanceMatrix) (start stop : Z)
  : result view :=
  __getitem__ self (IndexSlice (Some start) (Some stop)).

Definition _format_sample_ids (self : DistanceMatrix) (delimiter : string)
  : string :=
  Py.join delimiter (EmptyString :: sample_ids self).

(** [to_file]: [out_f] is the text written to the stream so far, the
    result is the text after the call. *)
Definition to_file (self : DistanceMatrix) (out_f : string)
           (delimiter : string) : string :=
  let formatted_sids := _format_sample_ids self delimiter in
  let out_f := out_f +:+ formatted_sids in
  let out_f := out_f +:+ Py.LF in
  fold_left
    (fun out_f '(sid, vals) =>
       let out_f := out_f +:+ sid in
       let out_f := out_f +:+ delimiter in
       let out_f := out_f +:+ Py.join delimiter (astype_str <$> vals) in
       out_f +:+ Py.LF)
    (zip (sample_ids self) (Np.iter (data self)))
    out_f.

End Buffer.

(** *** Reading

    [dm_f] is the list of lines the stream still holds; a function that
    reads from it returns the lines it has left behind. *)

Fixpoint find_header (dm_f : list string) : option string * list string :=
  match dm_f with
  | [] => (None, [])
  | line :: dm_f =>
      let line := Py.strip line in
      if Py.truthy line && negb (Py.startswith line "#")
      then (Some line, dm_f)
      else find_header dm_f
  end.

Definition _parse_sample_ids (dm_f : list string) (delimiter : string)
  : result (list string * list string) :=
  match find_header dm_f with
  | (None, _) => Raise MissingHeaderError
  | (Some header_line, dm_f) =>
      sids ← split header_line delimiter; Ok (sids, dm_f)
  end.

Definition extra_rows_message : string :=
  "Encountered extra rows without corresponding sample IDs " +:+
  "in the header.".

Definition row_length_message (row_number : nat) : string :=
  "The number of values in row number " +:+ Py.str_of_nat row_number +:+
  " is not equal to " +:+
  "the number of sample IDs in the header.".

(** One turn of the loop of [from_file] on a line that is not blank: from
    the buffer and the row counter to their values after the line. *)
Definition from_file_row (sids : list string) (delimiter : string)
           (line : string) (data : ndarray) (curr_row_idx : nat)
  : result (ndarray * nat) :=
  let num_sids := length sids in
  if num_sids <=? curr_row_idx then
    Raise (DistanceMatrixFormatError extra_rows_message)
  else
    tokens ← split line delimiter;
    if negb (length tokens =? num_sids + 1) then
      Raise (DistanceMatrixFormatError (row_length_message (curr_row_idx + 1)))
    else
      match tokens !! 0, sids !! curr_row_idx with
      | Some label, Some sid =>
          if String.eqb label sid then
            vals ← asarray_float (tail tokens);
            Ok (Np.set_row data curr_row_idx vals, curr_row_idx + 1)
          else Raise SampleIDMismatchError
      | _, _ => Raise (IndexError "list index out of range")
      end.

Fixpoint from_file_rows (sids : list string) (delimiter : string)
         (dm_f : list string) (data : ndarray) (curr_row_idx : nat)
  : result (ndarray * nat) :=
  match dm_f with
  | [] => Ok (data, curr_row_idx)
  | line :: dm_f =>
      let line := Py.strip line in
      if negb (Py.truthy line) then
        from_file_rows sids delimiter dm_f data curr_row_idx
      else
        '(data, curr_row_idx) ←
          from_file_row sids delimiter line data curr_row_idx;
        from_file_rows sids delimiter dm_f data curr_row_idx
  end.

Definition from_file (dm_f : list string) (delimiter : string)
  : result DistanceMatrix :=
  '(sids, dm_f) ← _parse_sample_ids dm_f delimiter;
  let num_sids := length sids in
  let data := Np.empty [num_sids; num_sids] in
  '(data, curr_row_idx) ← from_file_rows sids delimiter dm_f data 0;
  if negb (curr_row_idx =? num_sids) then
    Raise (MissingDataError curr_row_idx num_sids)
  else __init__ data sids.

(** *** Random matrices

    [rand] is the array that [np.random.rand(num_samples, num_samples)]
    draws: the randomness is an argument.  [sample_ids] is [None] when the
    caller leaves it out. *)
Definition random_distance_matrix (rand : ndarray) (num_samples : nat)
           (sample_ids : option (list string)) : result DistanceMatrix :=
  let data := Np.tril_below rand in
  let data := Np.iadd data (Np.transpose data) in
  let sample_ids :=
    match sample_ids with
    | None | Some [] => Py.str_of_nat <$> seq 1 num_samples
    | Some ids => ids
    end in
  __init__ data sample_ids.

(** *** Size, transposition, copies

    [ndarray.size] is the number of elements of the array, the product of
    its shape.  [ndarray.copy()] returns a new array with the shape and the
    elements of the old one; [deepcopy] of a tuple of strings returns a tuple
    equal to it. *)

Definition ndarray_size (a : ndarray) : nat := Np.product (shape a).

Definition ndarray_copy (a : ndarray) : ndarray :=
  {| shape := shape a; flat := flat a |}.

Definition deepcopy (sample_ids : list string) : list string := sample_ids.

Definition size (self : DistanceMatrix) : nat := ndarray_size (data self).

Definition T (self : DistanceMatrix) : DistanceMatrix := transpose self.

Definition copy (self : DistanceMatrix) : result DistanceMatrix :=
  __init__ (ndarray_copy (data self)) (deepcopy (sample_ids self)).

(** *** Printing *)

(** [s[:stop]]: a negative [stop] counts from the end. *)
Definition slice_to (s : string) (stop : Z) : string :=
  let stop :=
    if (stop <? 0)%Z then Z.max 0 (stop + Z.of_nat (String.length s)) else stop in
  String.substring 0 (Z.to_nat stop) s.

(** The defaults of [_pprint_sample_ids] are [max_chars=80],
    [delimiter=', '] and [suffix='...']; [l[0:-1]] is [removelast l]. *)
Definition _pprint_sample_ids (self : DistanceMatrix) (max_chars : Z)
           (delimiter suffix : string) : result string :=
  let sids_str := Py.join delimiter (sample_ids self) in
  if (max_chars <? Z.of_nat (String.length sids_str))%Z then
    pieces ← split (slice_to sids_str (max_chars + 1)) delimiter;
    let truncated := removelast pieces in
    let sids_str := Py.join delimiter truncated +:+ delimiter +:+ suffix in
    Ok sids_str
  else Ok sids_str.

Section Printing.

(** [str(self.data)], numpy's text of an array. *)
Variable ndarray_str : ndarray -> string.

Definition __str__ (self : DistanceMatrix) : result string :=
  match dm_shape self !! 0, dm_shape self !! 1 with
  | Some rows, Some cols =>
      sids ← _pprint_sample_ids self 80 ", " "...";
      Ok (Py.str_of_nat rows +:+ "x" +:+ Py.str_of_nat cols
          +:+ " distance matrix" +:+ Py.LF +:+ "Sample IDs:" +:+ Py.LF
          +:+ sids +:+ Py.LF +:+ "Data:" +:+ Py.LF
          +:+ ndarray_str (data self))
  | _, _ => Raise (IndexError "tuple index out of range")
  end.

End Printing.

(** ** Specification vocabulary *)

(** What [is_valid_dm] decides on an array without an axis of length 0,
    spelled out.  The array is square, symmetric and hollow under [==]; or
    it is a single row, which the comparison with its transpose sets
    against a column, so that all its entries are [==] to one another, and
    whose first entry is zero. *)
Definition distance_structure (D : ndarray) : Prop :=
  (exists n, shape D = [n; n]
     /\ (forall i j, i < n -> j < n ->
           F64.eqb (Np.item D n i j) (Np.item D n j i) = true)
     /\ (forall i, i < n -> F64.eqb (Np.item D n i i) F64.zero = true))
  \/ (exists cols, shape D = [1; cols]
        /\ (forall i j, i < cols -> j < cols ->
              F64.eqb (Np.item D cols 0 j) (Np.item D cols 0 i) = true)
        /\ F64.eqb (Np.item D cols 0 0) F64.zero = true).

(** The instances that exist: those a call of the constructor returned. *)
Definition constructed (dm : DistanceMatrix) : Prop :=
  exists data ids, __init__ data ids = Ok dm.

(** Lines the reader passes over: blank ones anywhere, comments before
    the header. *)
Definition blank (line : string) : Prop := Py.strip line = EmptyString.
Definition comment (line : string) : Prop :=
  Py.startswith (Py.strip line) "#" = true.
Definition nonblank (line : string) : bool := Py.truthy (Py.strip line).

(** What [np.random.rand] draws from: the doubles of [[0, 1)]. *)
Definition unit_interval (x : float) : Prop :=
  SFleb F64.zero x = true /\ SFltb x F64.one = true.

(** The array the generator hands to the constructor, entry by entry. *)
Definition mirrored (rand : ndarray) (n : nat) (i j : nat) : float :=
  F64.add (if j <? i then Np.item rand n i j else F64.zero)
          (if i <? j then Np.item rand n j i else F64.zero).

(** *** The text format *)

(** [c in s], for a character. *)
Fixpoint occurs (c : ascii) (s : string) : bool :=
  match s with
  | EmptyString => false
  | String x rest => Ascii.eqb x c || occurs c rest
  end.

(** [sub in s] *)
Fixpoint contains (sub s : string) : bool :=
  String.prefix sub s
  || match s with
     | EmptyString => false
     | String _ rest => contains sub rest
     end.

(** All the characters of [s], if any, are white space. *)
Fixpoint all_space (s : string) : bool :=
  match s with
  | EmptyString => true
  | String c rest => Py.isspace c && all_space rest
  end.

(** A delimiter that [strip] removes from the front of the header: one or
    more white-space characters, the line feed not among them. *)
Definition white_delimiter (delimiter : string) : Prop :=
  delimiter <> EmptyString /\ all_space delimiter = true
  /\ occurs "010"%char delimiter = false.

(** A piece of text the format can carry between two delimiters: not empty,
    no white space at either end, no delimiter and no line feed inside. *)
Definition field (delimiter : string) (s : string) : Prop :=
  s <> EmptyString /\ Py.strip s = s
  /\ contains delimiter s = false /\ occurs "010"%char s = false.

(** The text of a stream holding the given lines, each ended by a line feed. *)
Definition text_of (lines : list string) : string :=
  fold_right (fun line text => line +:+ Py.LF +:+ text) EmptyString lines.

(** An entry the text carries: written as a field that reads back as the
    same double. *)
Definition faithful (astype_str : float -> string) (delimiter : string)
           (x : float) : Prop :=
  field delimiter (astype_str x) /\ F64.of_string (astype_str x) = Some x.

(** A finite double: a zero, or a mantissa and an exponent in the ranges
    of the format. *)
Definition finite_double (x : float) : Prop :=
  F64.is_finite x = true /\ valid_binary F64.prec F64.emax x = true.

(** A run of decimal digits, and the number it continues after [acc]. *)
Fixpoint all_digits (s : string) : bool :=
  match s with
  | String c rest =>
      match F64.digit_of c with
      | Some _ => all_digits rest
      | None => false
      end
  | EmptyString => true
  end.

Fixpoint decimal_value (s : string) (acc : Z) : Z :=
  match s with
  | String c rest =>
      match F64.digit_of c with
      | Some d => decimal_value rest (10 * acc + d)
      | None => acc
      end
  | EmptyString => acc
  end.

(** Text without white space. *)
Fixpoint plain (s : string) : bool :=
  match s with
  | String c rest => negb (Py.isspace c) && plain rest
  | EmptyString => true
  end.

(** The line [to_file] writes for a label and its row, without the line
    feed. *)
Definition row_text (astype_str : float -> string) (delimiter : string)
           (row : string * list float) : string :=
  row.1 +:+ delimiter +:+ Py.join delimiter (astype_str <$> row.2).

(** The buffer after rows [k], [k + 1], ... have been assigned. *)
Fixpoint fill (data : ndarray) (k : nat) (rows : list (list float)) : ndarray :=
  match rows with
  | [] => data
  | vals :: rows => fill (Np.set_row data k vals) (k + 1) rows
  end.

(** [_index_list] started at position [k] over an index already holding [m]. *)
Definition index_from (k : nat) (l : list string) (m : gmap string nat) : gmap string nat :=
  fold_left (fun index '(idx, id_) => <[id_ := idx]> index)
            (imap (fun idx id_ => (k + idx, id_)) l) m.

(** *** Equality: what an attribute of the other object may do *)

(** What [__eq__] learns of an attribute: the outcome of reading it and of
    comparing with its value, [Ok true] when the two differ. *)
Definition shape_test (self : DistanceMatrix) (other : pyobject) : result bool :=
  value ← getattr_shape other; ne (dm_shape self) value.

Definition sample_ids_test (self : DistanceMatrix) (other : pyobject)
  : result bool :=
  value ← getattr_sample_ids other; ne (sample_ids self) value.

Definition data_test (self : DistanceMatrix) (other : pyobject) : result bool :=
  value ← getattr_data other; not_array_equal (data self) value.

(** The step succeeds or meets an [AttributeError]; it raises nothing
    else. *)
Definition quiet {A : Type} (r : result A) : Prop :=
  match r with
  | Ok _ | Raise (AttributeError _) => True
  | Raise _ => False
  end.

Definition missing {A : Type} (r : result A) : Prop :=
  exists msg, r = Raise (AttributeError msg).

(** What the [except AttributeError] clause makes of an exception. *)
Definition caught (e : exn) : result bool :=
  match e with
  | AttributeError _ => Ok false
  | _ => Raise e
  end.

(** The exceptions that come out of [from_file]. *)
Definition raised_by_reader (e : exn) : Prop :=
  match e with
  | MissingHeaderError | SampleIDMismatchError => True
  | ValueError msg =>
      msg = "empty separator"
      \/ exists token, msg = "could not convert string to float: " +:+ token
  | DistanceMatrixFormatError msg =>
      msg = extra_rows_message
      \/ exists row_number, 1 <= row_number /\ msg = row_length_message row_number
  | MissingDataError actual expected => actual < expected
  | DistanceMatrixError msg =>
      msg = unique_message \/ msg = structure_message
  | _ => False
  end.

(** *** Examples *)

Definition unit_buffer : ndarray := {| shape := [1; 1]; flat := [F64.zero] |}.

Definition unit_matrix : DistanceMatrix :=
  {| _data := unit_buffer; _sample_ids := ["a"];
     _sample_index := _index_list ["a"] |}.

Definition half : float := S754_finite false 4503599627370496 (-53).

(** The file of the docstring of [from_file]: two samples, [a] and [b], at
    distance 1. *)
Definition example_text : string :=
  Py.TAB +:+ "a" +:+ Py.TAB +:+ "b" +:+ Py.LF +:+
  "a" +:+ Py.TAB +:+ "0.0" +:+ Py.TAB +:+ "1.0" +:+ Py.LF +:+
  "b" +:+ Py.TAB +:+ "1.0" +:+ Py.TAB +:+ "0.0" +:+ Py.LF.

Definition example_buffer : ndarray :=
  {| shape := [2; 2]; flat := [F64.zero; F64.one; F64.one; F64.zero] |}.

Definition example_matrix : DistanceMatrix :=
  {| _data := example_buffer; _sample_ids := ["a"; "b"];
     _sample_index := _index_list ["a"; "b"] |}.

(** Three samples at distances 0.1, 1/3 and 2.5e21, as the doubles nearest
    to these numbers. *)
Definition tenth : float := Eval vm_compute in F64.of_decimal false 1 (-1).
Definition third : float :=
  Eval vm_compute in F64.of_decimal false 3333333333333333 (-16).
Definition far : float := Eval vm_compute in F64.of_decimal false 25 20.

Definition decimal_buffer : ndarray :=
  {| shape := [3; 3];
     flat := [F64.zero; tenth; third;
              tenth; F64.zero; far;
              third; far; F64.zero] |}.

Definition decimal_matrix : DistanceMatrix :=
  {| _data := decimal_buffer; _sample_ids := ["a"; "b"; "c"];
     _sample_index := _index_list ["a"; "b"; "c"] |}.

(** A 1 by 1 matrix whose label begins with a space. *)
Definition spaced_matrix : DistanceMatrix :=
  {| _data := unit_buffer; _sample_ids := [" a"];
     _sample_index := _index_list [" a"] |}.

(** A 1 by 1 matrix whose label begins like a comment. *)
Definition hashed_matrix : DistanceMatrix :=
  {| _data := unit_buffer; _sample_ids := ["#a"];
     _sample_index := _index_list ["#a"] |}.

Definition nan_buffer : ndarray :=
  {| shape := [2; 2]; flat := [F64.zero; F64.nan; F64.nan; F64.zero] |}.

Definition rand_example : ndarray :=
  {| shape := [2; 2]; flat := [half; F64.zero; half; half] |}.

(** Indexing by one integer, the case [__getitem__] itself asks of the
    buffer; it instantiates [ndarray_getitem] in examples. *)
Definition row_getitem (a : ndarray) (index : pyindex) : result (list float) :=
  match index with
  | IndexInt i =>
      let rows := Np.iter a in
      let i := if (i <? 0)%Z then (i + Z.of_nat (length rows))%Z else i in
      match (if (i <? 0)%Z then None else rows !! Z.to_nat i) with
      | Some row => Ok row
      | None => Raise (IndexError "index out of bounds")
      end
  | _ => Raise (IndexError "unsupported index")
  end.

(** A symmetric pair of infinite distances. *)
Definition infinite_buffer : ndarray :=
  {| shape := [2; 2]; flat := [F64.zero; F64.inf; F64.inf; F64.zero] |}.

(** An object whose [shape] is a property that raises. *)
Definition unreadable : pyobject :=
  {| getattr_shape := Raise (ValueError "closed");
     getattr_sample_ids := Raise (AttributeError "sample_ids");
     getattr_data := Raise (AttributeError "data") |}.

(** The example with its shape held in an array, [np.array([2, 2])]:
    [(2, 2) != np.array([2, 2])] is an array of two truth values, which an
    [if] refuses. *)
Definition array_shaped : pyobject :=
  {| getattr_shape :=
       Ok (Foreign (fun _ =>
             Raise (ValueError
                      ("The truth value of an array with more than one " +:+
                       "element is ambiguous. Use a.any() or a.all()"))));
     getattr_sample_ids := Ok (Native ["a"; "b"]);
     getattr_data := Ok (Native example_buffer) |}.

(** The example with its labels held in a list, [['a', 'b']]: a tuple and
    a list are never equal. *)
Definition list_labelled : pyobject :=
  {| getattr_shape := Ok (Native [2; 2]);
     getattr_sample_ids := Ok (Foreign (fun _ => Ok true));
     getattr_data := Ok (Native example_buffer) |}.

(** A single row of two zeros, [[[0.0, 0.0]]], and the instance the
    constructor makes of it. *)
Definition single_row_buffer : ndarray :=
  {| shape := [1; 2]; flat := [F64.zero; F64.zero] |}.

Definition single_row_matrix : DistanceMatrix :=
  {| _data := single_row_buffer; _sample_ids := ["a"];
     _sample_index := _index_list ["a"] |}.

(** A stream with a comment and a blank line before the header of the
    example. *)
Definition commented_lines : list string :=
  ["# distances" +:+ Py.LF; Py.LF;
   Py.TAB +:+ "a" +:+ Py.TAB +:+ "b" +:+ Py.LF;
   "a" +:+ Py.TAB +:+ "0.0" +:+ Py.TAB +:+ "1.0" +:+ Py.LF;
   "b" +:+ Py.TAB +:+ "1.0" +:+ Py.TAB +:+ "0.0" +:+ Py.LF].

(** The example with a comment between its two rows. *)
Definition interrupted_lines : list string :=
  [Py.TAB +:+ "a" +:+ Py.TAB +:+ "b" +:+ Py.LF;
   "a" +:+ Py.TAB +:+ "0.0" +:+ Py.TAB +:+ "1.0" +:+ Py.LF;
   "# note" +:+ Py.LF;
   "b" +:+ Py.TAB +:+ "1.0" +:+ Py.TAB +:+ "0.0" +:+ Py.LF].

(** The example without its second row. *)
Definition short_lines : list string :=
  [Py.TAB +:+ "a" +:+ Py.TAB +:+ "b" +:+ Py.LF;
   "a" +:+ Py.TAB +:+ "0.0" +:+ Py.TAB +:+ "1.0" +:+ Py.LF].

(** An array with no element, as [np.random.rand(0, 0)] returns. *)
Definition empty_buffer : ndarray := {| shape := [0; 0]; flat := [] |}.

(** [short_lines] with white space added at the ends of its lines. *)
Definition padded_lines : list string :=
  ["  " +:+ Py.TAB +:+ "a" +:+ Py.TAB +:+ "b" +:+ " " +:+ Py.LF;
   " a" +:+ Py.TAB +:+ "0.0" +:+ Py.TAB +:+ "1.0" +:+ Py.TAB +:+ Py.LF].

(** ** Labels: distinctness and the index *)

Lemma len_set_cons_in (x : string) (l : list string) :
  x ∈ l -> len_set (x :: l) = len_set l.
Proof.
  intros Hin. unfold len_set. rewrite list_to_set_cons. f_equal.
  apply subseteq_union_1_L, singleton_subseteq_l.
  now apply elem_of_list_to_set.
Qed.

Lemma len_set_cons_notin (x : string) (l : list string) :
  x ∉ l -> len_set (x :: l) = S (len_set l).
Proof.
  intros Hnin. unfold len_set. rewrite list_to_set_cons.
  rewrite size_union, size_singleton; [reflexivity|].
  apply disjoint_singleton_l. now rewrite elem_of_list_to_set.
Qed.

Lemma len_set_le (l : list string) : len_set l <= length l.
Proof.
  induction l as [|x l IH]; [reflexivity|].
  destruct (decide (x ∈ l)) as [Hin|Hnin].
  - rewrite len_set_cons_in by assumption. simpl. lia.
  - rewrite len_set_cons_notin by assumption. simpl. lia.
Qed.

Lemma len_set_NoDup (l : list string) : length l = len_set l <-> NoDup l.
Proof.
  induction l as [|x l IH]; [split; [constructor | reflexivity]|].
  rewrite NoDup_cons. pose proof (len_set_le l) as Hle.
  destruct (decide (x ∈ l)) as [Hin|Hnin].
  - rewrite len_set_cons_in by assumption. simpl. split; [lia | tauto].
  - rewrite len_set_cons_notin by assumption. simpl.
    rewrite <- IH. split; [intros [= ->]; auto | intros [_ ->]; reflexivity].
Qed.

Lemma index_from_cons k y l m :
  index_from k (y :: l) m = index_from (S k) l (<[y := k]> m).
Proof.
  unfold index_from. simpl. rewrite Nat.add_0_r. f_equal.
  apply imap_ext. intros i x _. simpl. f_equal. lia.
Qed.

Lemma index_from_notin k l m (x : string) :
  x ∉ l -> index_from k l m !! x = m !! x.
Proof.
  revert k m. induction l as [|y l IH]; intros k m Hx; [reflexivity|].
  rewrite index_from_cons. apply not_elem_of_cons in Hx as [Hxy Hx].
  rewrite IH by assumption. now apply lookup_insert_ne.
Qed.

Lemma index_from_lookup k l m i (x : string) :
  NoDup l -> l !! i = Some x -> index_from k l m !! x = Some (k + i).
Proof.
  revert k m i. induction l as [|y l IH]; intros k m i Hnd Hi; [discriminate|].
  rewrite index_from_cons. apply NoDup_cons in Hnd as [Hy Hnd].
  destruct i as [|i]; simpl in Hi.
  - injection Hi as ->. rewrite index_from_notin by assumption.
    rewrite lookup_insert_eq. f_equal. lia.
  - rewrite (IH (S k) _ i) by assumption. f_equal. lia.
Qed.

Lemma index_list_lookup (l : list string) i x :
  NoDup l -> l !! i = Some x -> _index_list l !! x = Some i.
Proof. intros Hnd Hi. apply (index_from_lookup 0 l ∅ i x Hnd Hi). Qed.

Lemma index_list_notin (l : list string) x :
  x ∉ l -> _index_list l !! x = None.
Proof.
  intros Hx. change (_index_list l) with (index_from 0 l ∅).
  rewrite index_from_notin by assumption. apply lookup_empty.
Qed.

Lemma forallb_seq (f : nat -> bool) (n : nat) :
  forallb f (seq 0 n) = true <-> forall i, i < n -> f i = true.
Proof.
  rewrite forallb_forall. split.
  - intros H i Hi. apply H, in_seq. lia.
  - intros H i Hi. apply H. apply in_seq in Hi. lia.
Qed.

Lemma symmetric_square D n :
  Np.symmetric D n n = Some true <->
  forall i j, i < n -> j < n -> F64.eqb (Np.item D n i j) (Np.item D n j i) = true.
Proof.
  unfold Np.symmetric, Np.broadcast. rewrite Nat.eqb_refl.
  assert (Hx : forall i, i < n -> (if n =? 1 then 0 else i) = i).
  { intros i Hi. destruct (n =? 1) eqn:E; [|reflexivity].
    apply Nat.eqb_eq in E. lia. }
  split.
  - intros [= H] i j Hi Hj. rewrite forallb_seq in H. specialize (H i Hi).
    rewrite forallb_seq in H. specialize (H j Hj).
    now rewrite !Hx in H by assumption.
  - intros H. f_equal. apply forallb_seq. intros i Hi.
    apply forallb_seq. intros j Hj. rewrite !Hx by assumption. auto.
Qed.

Lemma symmetric_row D cols :
  cols <> 1 ->
  Np.symmetric D 1 cols = Some true <->
  forall i j, i < cols -> j < cols ->
    F64.eqb (Np.item D cols 0 j) (Np.item D cols 0 i) = true.
Proof.
  intros Hc. unfold Np.symmetric, Np.broadcast.
  assert (E1 : (1 =? cols) = false) by (apply Nat.eqb_neq; lia).
  assert (E2 : (cols =? 1) = false) by (apply Nat.eqb_neq; lia).
  rewrite E1, E2. cbn [Nat.eqb]. split.
  - intros [= H] i j Hi Hj. rewrite forallb_seq in H. specialize (H i Hi).
    rewrite forallb_seq in H. exact (H j Hj).
  - intros H. f_equal. apply forallb_seq. intros i Hi.
    apply forallb_seq. intros j Hj. auto.
Qed.

Lemma symmetric_neither D rows cols b :
  rows <> cols -> rows <> 1 -> Np.symmetric D rows cols = Some b ->
  cols = 1 /\ 1 < rows \/ rows = 0.
Proof.
  intros Hne H1. unfold Np.symmetric, Np.broadcast.
  destruct (rows =? cols) eqn:E; [apply Nat.eqb_eq in E; lia|].
  destruct (rows =? 1) eqn:E1; [apply Nat.eqb_eq in E1; lia|].
  destruct (cols =? 1) eqn:E2; [|discriminate].
  apply Nat.eqb_eq in E2. intros _. lia.
Qed.

Lemma hollow_spec D rows cols :
  Np.hollow D rows cols = Some true <->
  rows <= cols
  /\ forall i, i < rows -> F64.eqb (Np.item D cols i i) F64.zero = true.
Proof.
  unfold Np.hollow. destruct (rows <=? cols) eqn:E.
  - apply Nat.leb_le in E. rewrite <- forallb_seq. split.
    + intros [= ->]. auto.
    + intros [_ ->]. reflexivity.
  - apply Nat.leb_gt in E. split; [discriminate | intros [? _]; lia].
Qed.

Lemma is_valid_dm_spec D :
  (0 ∉ shape D) -> Np.is_valid_dm D = true <-> distance_structure D.
Proof.
  intros H0. unfold Np.is_valid_dm, distance_structure. split.
  - destruct (shape D) as [|rows [|cols [|? ?]]] eqn:Hshape; try discriminate.
    destruct (Np.symmetric D rows cols) as [[]|] eqn:Hs; try discriminate.
    destruct (Np.hollow D rows cols) as [[]|] eqn:Hh; try discriminate.
    intros _. apply hollow_spec in Hh as [Hle Hh].
    destruct (decide (rows = cols)) as [->|Hne].
    { left. exists cols. pose proof (proj1 (symmetric_square D cols) Hs). auto. }
    destruct (decide (rows = 1)) as [->|H1].
    { right. exists cols.
      pose proof (proj1 (symmetric_row D cols ltac:(lia)) Hs).
      repeat split; [assumption | apply Hh; lia]. }
    exfalso.
    destruct (symmetric_neither D rows cols true Hne H1 Hs) as [[-> ?]| ->];
      [lia|].
    apply H0. constructor.
  - intros [(n & Hshape & Hs & Hh)|(cols & Hshape & Hs & Hh)];
      rewrite Hshape in *.
    + apply (proj2 (symmetric_square D n)) in Hs. rewrite Hs.
      assert (Hh' : Np.hollow D n n = Some true) by (apply hollow_spec; auto).
      now rewrite Hh'.
    + assert (Hc : 1 <= cols).
      { destruct cols; [|lia]. exfalso. apply H0.
        apply elem_of_cons. right. apply elem_of_cons. now left. }
      assert (Hh' : Np.hollow D 1 cols = Some true).
      { apply hollow_spec. split; [lia|]. intros i Hi.
        replace i with 0 by lia. exact Hh. }
      destruct (decide (cols = 1)) as [->|Hne].
      * assert (Hs' : Np.symmetric D 1 1 = Some true).
        { apply symmetric_square. intros i j Hi Hj.
          replace i with 0 by lia. replace j with 0 by lia. apply Hs; lia. }
        now rewrite Hs', Hh'.
      * apply (proj2 (symmetric_row D cols Hne)) in Hs. now rewrite Hs, Hh'.
Qed.

Lemma is_valid_dm_false D :
  (0 ∉ shape D) -> Np.is_valid_dm D = false <-> ~ distance_structure D.
Proof.
  intros H0. rewrite <- is_valid_dm_spec by assumption.
  destruct (Np.is_valid_dm D); split; congruence.
Qed.

(** The first axis of an array with the structure, and the second. *)
Lemma structure_shape D rows :
  distance_structure D -> shape D !! 0 = Some rows ->
  exists cols, shape D = [rows; cols] /\ (cols = rows \/ rows = 1).
Proof.
  intros [(n & Hshape & _)|(cols & Hshape & _)] Hrows;
    rewrite Hshape in Hrows; injection Hrows as <-; eauto.
Qed.

Lemma validate_ok data ids :
  _validate data ids = Ok tt <->
    (0 ∉ shape data) /\ NoDup ids /\ distance_structure data
    /\ shape data !! 0 = Some (length ids).
Proof.
  unfold _validate. case_bool_decide as H0.
  { split; [discriminate | tauto]. }
  destruct (length ids =? len_set ids) eqn:Hu; simpl.
  2:{ apply Nat.eqb_neq in Hu. rewrite len_set_NoDup in Hu.
      split; [discriminate | tauto]. }
  apply Nat.eqb_eq in Hu. rewrite len_set_NoDup in Hu.
  destruct (Np.is_valid_dm data) eqn:Hv; simpl.
  2:{ apply is_valid_dm_false in Hv; [|assumption].
      split; [discriminate | tauto]. }
  apply is_valid_dm_spec in Hv; [|assumption].
  destruct (shape data !! 0) as [rows|] eqn:Hr.
  2:{ split; [discriminate | intros (_ & _ & _ & ?); discriminate]. }
  destruct (length ids =? rows) eqn:Hc; simpl.
  - apply Nat.eqb_eq in Hc. subst rows. tauto.
  - apply Nat.eqb_neq in Hc. split; [discriminate|].
    intros (_ & _ & _ & [= ?]). congruence.
Qed.

(** ** Construction *)

Lemma init_ok data ids dm :
  __init__ data ids = Ok dm <->
    _validate data ids = Ok tt /\
    dm = {| _data := data; _sample_ids := ids; _sample_index := _index_list ids |}.
Proof.
  unfold __init__. destruct (_validate data ids) as [[]|e]; simpl.
  - split; [intros [= <-]; auto | intros [_ ->]; reflexivity].
  - split; [discriminate | intros [? _]; discriminate].
Qed.

Lemma init_raise data ids e :
  __init__ data ids = Raise e <-> _validate data ids = Raise e.
Proof.
  unfold __init__. destruct (_validate data ids) as [[]|e']; simpl.
  - split; discriminate.
  - split; intros [= ->]; reflexivity.
Qed.

Lemma validate_raises data ids :
  _validate data ids = Ok tt \/
  exists msg, _validate data ids = Raise (DistanceMatrixError msg).
Proof.
  unfold _validate. case_bool_decide as H0; [eauto|].
  destruct (negb _); [eauto|].
  destruct (Np.is_valid_dm data) eqn:Hv; simpl; [|eauto].
  apply is_valid_dm_spec in Hv; [|assumption].
  destruct Hv as [(n & -> & _)|(cols & -> & _)]; simpl;
    destruct (negb _); eauto.
Qed.

Lemma validate_size data ids :
  0 ∈ shape data ->
  _validate data ids = Raise (DistanceMatrixError size_message).
Proof.
  intros H0. unfold _validate. now rewrite bool_decide_eq_true_2.
Qed.

Lemma validate_unique data ids :
  (0 ∉ shape data) -> ~ NoDup ids ->
  _validate data ids = Raise (DistanceMatrixError unique_message).
Proof.
  intros H0 Hdup. unfold _validate.
  rewrite bool_decide_eq_false_2 by assumption.
  rewrite <- len_set_NoDup in Hdup. apply Nat.eqb_neq in Hdup.
  now rewrite Hdup.
Qed.

Lemma validate_structure data ids :
  (0 ∉ shape data) -> NoDup ids -> ~ distance_structure data ->
  _validate data ids = Raise (DistanceMatrixError structure_message).
Proof.
  intros H0 Hnd Hs. unfold _validate.
  rewrite bool_decide_eq_false_2 by assumption.
  apply len_set_NoDup, Nat.eqb_eq in Hnd. rewrite Hnd. simpl.
  apply is_valid_dm_false in Hs; [|assumption]. now rewrite Hs.
Qed.

Lemma validate_count data ids :
  (0 ∉ shape data) -> NoDup ids -> distance_structure data ->
  shape data !! 0 <> Some (length ids) ->
  _validate data ids = Raise (DistanceMatrixError count_message).
Proof.
  intros H0 Hnd Hs Hc. unfold _validate.
  rewrite bool_decide_eq_false_2 by assumption.
  apply len_set_NoDup, Nat.eqb_eq in Hnd. rewrite Hnd. simpl.
  apply is_valid_dm_spec in Hs; [|assumption]. rewrite Hs. simpl.
  destruct (shape data !! 0) as [rows|] eqn:Hrows.
  2:{ exfalso. unfold Np.is_valid_dm in Hs.
      destruct (shape data); discriminate. }
  destruct (length ids =? rows) eqn:E; [|reflexivity].
  apply Nat.eqb_eq in E. congruence.
Qed.

Lemma messages_distinct :
  NoDup [size_message; unique_message; structure_message; count_message].
Proof.
  apply NoDup_ListNoDup. vm_compute.
  repeat constructor; simpl; intuition discriminate.
Qed.

(** X21.  The constructor runs its checks in the order size, uniqueness,
    structure (what [is_valid_dm] decides), label count; the first check
    that fails decides the single error raised, each with its own message;
    the instance exists, with its buffer, labels and index, exactly when all
    four pass, and a failed call returns no instance. *)
Theorem init_checks_in_order (data : ndarray) (ids : list string) :
  (0 ∈ shape data ->
     __init__ data ids = Raise (DistanceMatrixError size_message))
  /\ ((0 ∉ shape data) -> ~ NoDup ids ->
     __init__ data ids = Raise (DistanceMatrixError unique_message))
  /\ ((0 ∉ shape data) -> NoDup ids -> ~ distance_structure data ->
     __init__ data ids = Raise (DistanceMatrixError structure_message))
  /\ ((0 ∉ shape data) -> NoDup ids -> distance_structure data ->
     shape data !! 0 <> Some (length ids) ->
     __init__ data ids = Raise (DistanceMatrixError count_message))
  /\ ((0 ∉ shape data) -> NoDup ids -> distance_structure data ->
     shape data !! 0 = Some (length ids) ->
     __init__ data ids =
       Ok {| _data := data; _sample_ids := ids;
             _sample_index := _index_list ids |})
  /\ (forall dm, __init__ data ids = Ok dm ->
       (0 ∉ shape data) /\ NoDup ids /\ distance_structure data
       /\ shape data !! 0 = Some (length ids)
       /\ _data dm = data /\ _sample_ids dm = ids
       /\ _sample_index dm = _index_list ids)
  /\ NoDup [size_message; unique_message; structure_message; count_message].
Proof.
  split; [intros; now apply init_raise, validate_size|].
  split; [intros; now apply init_raise, validate_unique|].
  split; [intros; now apply init_raise, validate_structure|].
  split; [intros; now apply init_raise, validate_count|].
  split.
  { intros H0 Hnd Hs Hc. apply init_ok. split; [|reflexivity].
    apply validate_ok. auto. }
  split; [|apply messages_distinct].
  intros dm Hinit. apply init_ok in Hinit as [Hv ->].
  apply validate_ok in Hv as (H0 & Hnd & Hs & Hc). simpl. auto 10.
Qed.

(** C2.  The structure check lets a buffer through that is not square: a
    single row of zeros, [[[0.0, 0.0]]], with one label.  No error is raised
    and the instance exists, with shape [(1, 2)] and one sample, against the
    message of the check itself, which asks for a square array. *)
Theorem init_accepts_single_row :
  __init__ single_row_buffer ["a"] = Ok single_row_matrix
  /\ dm_shape single_row_matrix = [1; 2]
  /\ num_samples single_row_matrix = 1
  /\ Np.is_valid_dm single_row_buffer = true.
Proof. repeat split; vm_compute; reflexivity. Qed.

Lemma constructed_valid dm :
  constructed dm ->
  _validate (data dm) (sample_ids dm) = Ok tt
  /\ _sample_index dm = _index_list (sample_ids dm).
Proof.
  intros (buffer & ids & Hinit). apply init_ok in Hinit as [Hv ->]. auto.
Qed.

Lemma constructed_facts dm :
  constructed dm ->
  NoDup (sample_ids dm)
  /\ (exists cols, shape (data dm) = [length (sample_ids dm); cols]
        /\ 0 < cols /\ (cols = length (sample_ids dm) \/ length (sample_ids dm) = 1))
  /\ distance_structure (data dm)
  /\ 0 < length (sample_ids dm).
Proof.
  intros Hc. apply constructed_valid in Hc as [Hv _].
  apply validate_ok in Hv as (H0 & Hnd & Hs & Hrows).
  destruct (structure_shape _ _ Hs Hrows) as (cols & Hshape & Hcols).
  rewrite Hshape in H0.
  assert (0 < length (sample_ids dm)).
  { destruct (length (sample_ids dm)); [|lia]. exfalso. apply H0. constructor. }
  assert (0 < cols).
  { destruct cols; [|lia]. exfalso. apply H0.
    apply elem_of_cons. right. apply elem_of_cons. now left. }
  repeat split; eauto.
Qed.

(** An instance with two labels or more is square. *)
Lemma constructed_square dm :
  constructed dm -> 2 <= length (sample_ids dm) ->
  shape (data dm) = [length (sample_ids dm); length (sample_ids dm)].
Proof.
  intros Hc Hn.
  destruct (constructed_facts dm Hc) as (_ & (cols & Hshape & _ & [->|H1]) & _);
    [exact Hshape | lia].
Qed.

(** ** Replacing the labels *)

(** C9.  On an existing instance the setter is all or nothing: labels with
    a duplicate, or not as many as the buffer has rows, raise
    [DistanceMatrixError] and leave the labels, the index and the buffer as
    they were; otherwise the new labels are stored, the index is rebuilt
    from them and the buffer is the same. *)
Theorem set_sample_ids_atomic (dm : DistanceMatrix) (ids' : list string) :
  constructed dm ->
  (~ NoDup ids' ->
     set_sample_ids dm ids' = (dm, Some (DistanceMatrixError unique_message)))
  /\ (NoDup ids' -> shape (data dm) !! 0 <> Some (length ids') ->
     set_sample_ids dm ids' = (dm, Some (DistanceMatrixError count_message)))
  /\ (NoDup ids' -> shape (data dm) !! 0 = Some (length ids') ->
     set_sample_ids dm ids' =
       ({| _data := _data dm; _sample_ids := ids';
           _sample_index := _index_list ids' |}, None)).
Proof.
  intros Hc. apply constructed_valid in Hc as [Hv _].
  apply validate_ok in Hv as (H0 & _ & Hs & _).
  unfold set_sample_ids. split; [|split].
  - intros Hdup. now rewrite validate_unique.
  - intros Hnd Hne. now rewrite validate_count.
  - intros Hnd Hrows.
    assert (Hv : _validate (data dm) ids' = Ok tt)
      by (apply validate_ok; auto).
    now rewrite Hv.
Qed.

(** The setter keeps the instance one the constructor could have returned. *)
Lemma set_sample_ids_constructed dm ids' :
  constructed dm -> constructed (set_sample_ids dm ids').1.
Proof.
  intros Hc. unfold set_sample_ids.
  destruct (_validate (data dm) ids') as [[]|e] eqn:Hv; [|exact Hc].
  exists (data dm), ids'. apply init_ok. auto.
Qed.

(** The setter never touches the buffer, whatever it is given. *)
Lemma set_sample_ids_data dm ids' : data (set_sample_ids dm ids').1 = data dm.
Proof.
  unfold set_sample_ids. destruct (_validate (data dm) ids'); reflexivity.
Qed.

(** ** The values a buffer may hold *)

Lemma eqb_not_nan x y :
  F64.eqb x y = true -> F64.is_nan x = false /\ F64.is_nan y = false.
Proof. destruct x, y; simpl; try discriminate; auto. Qed.

Lemma item_flat (D : ndarray) (n k : nat) (x : float) :
  flat D !! k = Some x -> k < n * n ->
  exists i j, i < n /\ j < n /\ Np.item D n i j = x.
Proof.
  intros Hk Hlt. assert (Hn : n <> 0) by lia.
  exists (k / n), (k mod n). repeat split.
  - apply Nat.Div0.div_lt_upper_bound; lia.
  - now apply Nat.mod_upper_bound.
  - unfold Np.item.
    replace (k / n * n + k mod n) with k; [now rewrite Hk|].
    rewrite (Nat.div_mod_eq k n) at 1. lia.
Qed.

Lemma structure_excludes_nan (D : ndarray) :
  Np.well_formed D -> distance_structure D ->
  Forall (fun x => F64.is_nan x = false) (flat D).
Proof.
  intros Hwf [(n & Hshape & Hsym & _)|(cols & Hshape & Hsym & _)];
    apply Forall_forall; intros x Hx;
    apply list_elem_of_lookup in Hx as [k Hk].
  - assert (Hlt : k < n * n).
    { apply lookup_lt_Some in Hk. unfold Np.well_formed in Hwf.
      rewrite Hshape in Hwf. simpl in Hwf. lia. }
    destruct (item_flat D n k x Hk Hlt) as (i & j & Hi & Hj & <-).
    exact (proj1 (eqb_not_nan _ _ (Hsym i j Hi Hj))).
  - assert (Hlt : k < cols).
    { apply lookup_lt_Some in Hk. unfold Np.well_formed in Hwf.
      rewrite Hshape in Hwf. simpl in Hwf. lia. }
    assert (Hx : Np.item D cols 0 k = x) by (unfold Np.item; simpl; now rewrite Hk).
    rewrite <- Hx. apply (eqb_not_nan _ _ (Hsym k k Hlt Hlt)).
Qed.

(** C3, as stated, fails: a buffer holding infinite entries is accepted. *)
Lemma infinite_entries_accepted :
  exists dm, __init__ infinite_buffer ["a"; "b"] = Ok dm
    /\ existsb (fun x => negb (F64.is_finite x)) (flat (data dm)) = true.
Proof. eexists. split; [vm_compute; reflexivity | reflexivity]. Qed.

(** C3, amended.  The constructor fails with [DistanceMatrixError] whenever
    an entry of the coerced buffer is a NaN; so no instance holds a NaN, and
    since no operation writes to the buffer (the setter of the labels, the
    one mutator, leaves it alone) this stays true.  Infinite entries are not
    rejected. *)
Theorem init_rejects_nan (buffer : ndarray) (ids : list string) :
  Np.well_formed buffer ->
  ((exists x, x ∈ flat buffer /\ F64.is_nan x = true) ->
     exists msg, __init__ buffer ids = Raise (DistanceMatrixError msg))
  /\ (forall dm, __init__ buffer ids = Ok dm ->
       Forall (fun x => F64.is_nan x = false) (flat (data dm))
       /\ forall ids', data (set_sample_ids dm ids').1 = data dm).
Proof.
  intros Hwf. split.
  - intros (x & Hx & Hnan).
    destruct (validate_raises buffer ids) as [Hok | [msg Hmsg]].
    + exfalso. apply validate_ok in Hok as (_ & _ & Hs & _).
      pose proof (structure_excludes_nan buffer Hwf Hs) as Hall.
      rewrite Forall_forall in Hall. specialize (Hall x Hx). congruence.
    + exists msg. now apply init_raise.
  - intros dm Hinit. apply init_ok in Hinit as [Hv ->]. split.
    + apply validate_ok in Hv as (_ & _ & Hs & _).
      now apply structure_excludes_nan.
    + intros ids'. apply set_sample_ids_data.
Qed.

(** ** Equality *)

Lemma unit_matrix_constructed : constructed unit_matrix.
Proof. exists unit_buffer, ["a"]. vm_compute. reflexivity. Qed.

Lemma single_row_constructed : constructed single_row_matrix.
Proof. exists single_row_buffer, ["a"]. vm_compute. reflexivity. Qed.

Lemma all_eqb_Forall2 xs ys :
  Np.all_eqb xs ys = true <-> Forall2 (fun x y => F64.eqb x y = true) xs ys.
Proof.
  revert ys. induction xs as [|x xs IH]; intros [|y ys]; simpl.
  - split; [constructor | reflexivity].
  - split; [discriminate | intros H; inversion H].
  - split; [discriminate | intros H; inversion H].
  - rewrite andb_true_iff, IH. split.
    + intros [Hx Hxs]. now constructor.
    + intros H. inversion H; subst. auto.
Qed.

Lemma array_equal_spec a b :
  Np.array_equal a b = true <->
  shape a = shape b /\ Forall2 (fun x y => F64.eqb x y = true) (flat a) (flat b).
Proof.
  unfold Np.array_equal.
  rewrite andb_true_iff, bool_decide_eq_true, all_eqb_Forall2. reflexivity.
Qed.

Lemma eq_unfold self other :
  __eq__ self other =
  match shape_test self other with
  | Raise e => caught e
  | Ok true => Ok false
  | Ok false =>
      match sample_ids_test self other with
      | Raise e => caught e
      | Ok true => Ok false
      | Ok false =>
          match data_test self other with
          | Raise e => caught e
          | Ok differ => Ok (negb differ)
          end
      end
  end.
Proof.
  unfold __eq__, caught, shape_test, sample_ids_test, data_test.
  destruct (getattr_shape other) as [s|e]; simpl; [|now destruct e].
  destruct (ne (dm_shape self) s) as [[]|e]; simpl;
    [reflexivity | | now destruct e].
  destruct (getattr_sample_ids other) as [ids|e]; simpl; [|now destruct e].
  destruct (ne (sample_ids self) ids) as [[]|e]; simpl;
    [reflexivity | | now destruct e].
  destruct (getattr_data other) as [buffer|e]; simpl; [|now destruct e].
  destruct (not_array_equal (data self) buffer) as [[]|e]; simpl;
    [reflexivity | reflexivity | now destruct e].
Qed.

Lemma caught_true e : caught e <> Ok true.
Proof. destruct e; discriminate. Qed.

Lemma caught_quiet {A} e : quiet (@Raise A e) -> caught e = Ok false.
Proof. destruct e; simpl; intros H; try contradiction; reflexivity. Qed.

Lemma caught_raise e e' :
  caught e = Raise e' -> e = e' /\ forall msg, e' <> AttributeError msg.
Proof. destruct e; simpl; intros [= <-]; split; try reflexivity; discriminate. Qed.

Lemma eq_true_iff self other :
  __eq__ self other = Ok true <->
     shape_test self other = Ok false
     /\ sample_ids_test self other = Ok false
     /\ data_test self other = Ok false.
Proof.
  rewrite eq_unfold. split.
  - destruct (shape_test self other) as [[]|e];
      [discriminate | | intros H; now apply caught_true in H].
    destruct (sample_ids_test self other) as [[]|e];
      [discriminate | | intros H; now apply caught_true in H].
    destruct (data_test self other) as [[]|e];
      [discriminate | auto | intros H; now apply caught_true in H].
  - intros (-> & -> & ->). reflexivity.
Qed.

(** Between values of the kinds the class holds, the three tests are the
    comparisons of tuples and of arrays. *)
Lemma eq_native_iff self other shape' ids' buffer :
  getattr_shape other = Ok (Native shape') ->
  getattr_sample_ids other = Ok (Native ids') ->
  getattr_data other = Ok (Native buffer) ->
  __eq__ self other = Ok true <->
     dm_shape self = shape' /\ sample_ids self = ids'
     /\ shape (data self) = shape buffer
     /\ Forall2 (fun x y => F64.eqb x y = true) (flat (data self)) (flat buffer).
Proof.
  intros Hs Hi Hd. rewrite eq_true_iff.
  unfold shape_test, sample_ids_test, data_test. rewrite Hs, Hi, Hd. simpl.
  rewrite <- array_equal_spec. split.
  - intros (Hshape & Hids & Hdata).
    injection Hshape as Hshape. injection Hids as Hids.
    injection Hdata as Hdata.
    apply negb_false_iff in Hshape, Hids, Hdata.
    apply bool_decide_eq_true in Hshape, Hids. auto.
  - intros (Hshape & Hids & Hdata).
    rewrite !bool_decide_eq_true_2 by assumption. now rewrite Hdata.
Qed.

(** A missing attribute makes its test raise the [AttributeError]. *)
Lemma missing_test {A B} (r : result A) (k : A -> result B) :
  missing r -> missing (r ≫= k).
Proof. intros [msg ->]. now exists msg. Qed.


Lemma eq_quiet self other :
  quiet (shape_test self other) -> quiet (sample_ids_test self other) ->
  quiet (data_test self other) ->
  (exists equal, __eq__ self other = Ok equal)
  /\ (missing (getattr_shape other) \/ missing (getattr_sample_ids other)
      \/ missing (getattr_data other) -> __eq__ self other = Ok false).
Proof.
  rewrite eq_unfold. intros Hs Hi Hd.
  assert (Ms : missing (getattr_shape other) -> missing (shape_test self other))
    by apply missing_test.
  assert (Mi : missing (getattr_sample_ids other) ->
               missing (sample_ids_test self other)) by apply missing_test.
  assert (Md : missing (getattr_data other) -> missing (data_test self other))
    by apply missing_test.
  destruct (shape_test self other) as [[]|e];
    [eauto | | rewrite (caught_quiet e Hs); eauto].
  destruct (sample_ids_test self other) as [[]|e];
    [eauto | | rewrite (caught_quiet e Hi); eauto].
  destruct (data_test self other) as [differ|e];
    [|rewrite (caught_quiet e Hd); eauto].
  split; [eauto|].
  intros [Hm|[Hm|Hm]];
    [apply Ms in Hm | apply Mi in Hm | apply Md in Hm];
    destruct Hm as [msg [=]].
Qed.

Lemma eq_raise self other e :
  __eq__ self other = Raise e ->
  (forall msg, e <> AttributeError msg)
  /\ (shape_test self other = Raise e \/ sample_ids_test self other = Raise e
      \/ data_test self other = Raise e).
Proof.
  rewrite eq_unfold.
  destruct (shape_test self other) as [[]|e1];
    [discriminate | | intros Hc; apply caught_raise in Hc as [-> Hc]; auto].
  destruct (sample_ids_test self other) as [[]|e1];
    [discriminate | | intros Hc; apply caught_raise in Hc as [-> Hc]; auto].
  destruct (data_test self other) as [differ|e1];
    [discriminate|intros Hc; apply caught_raise in Hc as [-> Hc]; auto].
Qed.

(** C4, as stated, fails: comparing with an object one of whose attributes
    raises something other than [AttributeError] raises that exception. *)
Lemma eq_lets_other_exceptions_through :
  __eq__ unit_matrix unreadable = Raise (ValueError "closed").
Proof. reflexivity. Qed.

(** So does comparing with an object that keeps its shape in an array: the
    comparison of the shapes has no truth value. *)
Lemma eq_array_shaped :
  exists msg, __eq__ example_matrix array_shaped = Raise (ValueError msg).
Proof. eexists. reflexivity. Qed.

(** An object that keeps the same labels in a list is not equal. *)
Lemma eq_list_labelled : __eq__ example_matrix list_labelled = Ok false.
Proof. reflexivity. Qed.

(** C4, amended.  [a == b] is true exactly when none of the three tests the
    method makes finds a difference: [a.shape != b.shape],
    [a.sample_ids != b.sample_ids] and
    [not np.array_equal(a.data, b.data)] are all false.  When [b] holds a
    tuple of integers, a tuple of strings and an array, as an instance does,
    this is: the same shape, the same labels in the same order, buffers of
    one shape equal element by element.  When the tests raise nothing but
    [AttributeError] the comparison returns, and returns false when [b]
    lacks [shape], [sample_ids] or [data].  And [a == b] raises only an
    exception, other than [AttributeError], that reading an attribute of
    [b] or comparing with its value raised. *)
Theorem eq_characterization (self : DistanceMatrix) (other : pyobject) :
  (__eq__ self other = Ok true <->
     shape_test self other = Ok false
     /\ sample_ids_test self other = Ok false
     /\ data_test self other = Ok false)
  /\ (forall shape' ids' buffer,
      getattr_shape other = Ok (Native shape') ->
      getattr_sample_ids other = Ok (Native ids') ->
      getattr_data other = Ok (Native buffer) ->
      (__eq__ self other = Ok true <->
         dm_shape self = shape' /\ sample_ids self = ids'
         /\ shape (data self) = shape buffer
         /\ Forall2 (fun x y => F64.eqb x y = true)
                    (flat (data self)) (flat buffer)))
  /\ (quiet (shape_test self other) -> quiet (sample_ids_test self other) ->
      quiet (data_test self other) ->
      (exists equal, __eq__ self other = Ok equal)
      /\ (missing (getattr_shape other) \/ missing (getattr_sample_ids other)
          \/ missing (getattr_data other) -> __eq__ self other = Ok false))
  /\ (forall e, __eq__ self other = Raise e ->
      (forall msg, e <> AttributeError msg)
      /\ (shape_test self other = Raise e
          \/ sample_ids_test self other = Raise e
          \/ data_test self other = Raise e)).
Proof.
  split; [apply eq_true_iff|].
  split; [intros shape' ids' buffer; apply eq_native_iff|].
  split; [apply eq_quiet|].
  intros e. apply eq_raise.
Qed.

(** ** Indexing *)

(** C8.  For a label of the matrix, [M[label]] is what the buffer returns
    at the position of the label, that is [M.redundant_form()[i]] where
    [sample_ids[i]] is the label; for a string that is no label it raises
    [MissingSampleIDError] with a message quoting the string; any index that
    is not a string goes to the buffer's own indexing as it is. *)
Theorem getitem_dispatch {view : Type}
        (ndarray_getitem : ndarray -> pyindex -> result view)
        (self : DistanceMatrix) :
  constructed self ->
  (forall i label, sample_ids self !! i = Some label ->
     __getitem__ view ndarray_getitem self (IndexStr label) =
     ndarray_getitem (redundant_form self) (IndexInt (Z.of_nat i)))
  /\ (forall label, label ∉ sample_ids self ->
     __getitem__ view ndarray_getitem self (IndexStr label) =
     Raise (MissingSampleIDError
              ("The sample ID '" +:+ label +:+ "' is not in the distance matrix.")))
  /\ (forall index, (forall s, index <> IndexStr s) ->
     __getitem__ view ndarray_getitem self index =
     ndarray_getitem (data self) index).
Proof.
  intros Hc. pose proof (constructed_facts self Hc) as (Hnd & _).
  apply constructed_valid in Hc as [_ Hindex].
  unfold __getitem__. rewrite Hindex. split; [|split].
  - intros i label Hi. now rewrite (index_list_lookup _ i label Hnd Hi).
  - intros label Hlabel. now rewrite (index_list_notin _ label Hlabel).
  - intros index Hindex'. destruct index; try reflexivity.
    now contradiction (Hindex' s).
Qed.

(** ** Reading a matrix *)

Lemma truthy_false s : Py.truthy s = false <-> s = EmptyString.
Proof. destruct s; simpl; split; congruence. Qed.

Lemma truthy_true s : Py.truthy s = true <-> s <> EmptyString.
Proof. destruct s; simpl; split; congruence. Qed.

Lemma split_from_length sep skip s : 1 <= length (Py.split_from sep skip s).
Proof.
  revert skip. induction s as [|c s IH]; intros skip; [reflexivity|].
  cbn [Py.split_from]. destruct skip; [|apply IH].
  destruct (String.prefix sep (String c s)); [cbn [length]; lia|].
  specialize (IH 0). destruct (Py.split_from sep 0 s); cbn [length] in *; lia.
Qed.

Lemma split_ok s sep :
  sep <> EmptyString -> split s sep = Ok (Py.split_from sep 0 s).
Proof. destruct sep; [congruence | reflexivity]. Qed.

Lemma split_ok_inv s sep tokens :
  split s sep = Ok tokens ->
  sep <> EmptyString /\ tokens = Py.split_from sep 0 s /\ 1 <= length tokens.
Proof.
  destruct sep; [discriminate|]. intros [= <-].
  split; [discriminate|]. split; [reflexivity | apply split_from_length].
Qed.

(** *** The header *)

Lemma find_header_none dm_f :
  Forall (fun line => blank line \/ comment line) dm_f ->
  find_header dm_f = (None, []).
Proof.
  induction 1 as [|line dm_f Hline _ IH]; [reflexivity|]. simpl.
  destruct Hline as [Hb | Hc].
  - unfold blank in Hb. rewrite Hb. simpl. exact IH.
  - unfold comment in Hc. rewrite Hc, andb_false_r. exact IH.
Qed.

Lemma find_header_filter dm_f :
  find_header (List.filter nonblank dm_f) =
  (fst (find_header dm_f), List.filter nonblank (snd (find_header dm_f))).
Proof.
  induction dm_f as [|line dm_f IH]; [reflexivity|]. simpl.
  destruct (nonblank line) eqn:Hnb; unfold nonblank in Hnb.
  - simpl. rewrite Hnb. simpl.
    destruct (negb (Py.startswith (Py.strip line) "#")); [reflexivity | exact IH].
  - rewrite Hnb. simpl. exact IH.
Qed.

(** *** The rows *)

Lemma from_file_rows_blank sids delimiter line dm_f data idx :
  blank line ->
  from_file_rows sids delimiter (line :: dm_f) data idx =
  from_file_rows sids delimiter dm_f data idx.
Proof. intros Hb. simpl. unfold blank in Hb. now rewrite Hb. Qed.

Lemma from_file_rows_nonblank sids delimiter line dm_f data idx :
  ~ blank line ->
  from_file_rows sids delimiter (line :: dm_f) data idx =
  from_file_row sids delimiter (Py.strip line) data idx ≫=
    (fun '(data, idx) => from_file_rows sids delimiter dm_f data idx).
Proof.
  intros Hb. simpl. apply truthy_true in Hb. rewrite Hb. reflexivity.
Qed.

Lemma from_file_rows_app sids delimiter l1 l2 data idx :
  from_file_rows sids delimiter (l1 ++ l2) data idx =
  from_file_rows sids delimiter l1 data idx ≫=
    (fun '(data, idx) => from_file_rows sids delimiter l2 data idx).
Proof.
  revert data idx. induction l1 as [|line l1 IH]; intros data idx; [reflexivity|].
  simpl. destruct (negb (Py.truthy (Py.strip line))); [apply IH|].
  destruct (from_file_row sids delimiter (Py.strip line) data idx)
    as [[data' idx']|e]; simpl; [apply IH | reflexivity].
Qed.

Lemma from_file_rows_all_blank sids delimiter dm_f data idx :
  Forall blank dm_f ->
  from_file_rows sids delimiter dm_f data idx = Ok (data, idx).
Proof.
  induction 1 as [|line dm_f Hb _ IH]; [reflexivity|].
  now rewrite from_file_rows_blank.
Qed.

Lemma from_file_rows_filter sids delimiter dm_f data idx :
  from_file_rows sids delimiter (List.filter nonblank dm_f) data idx =
  from_file_rows sids delimiter dm_f data idx.
Proof.
  revert data idx. induction dm_f as [|line dm_f IH]; intros data idx; [reflexivity|].
  simpl. unfold nonblank at 1. destruct (Py.truthy (Py.strip line)) eqn:Hnb; simpl.
  - rewrite Hnb. simpl.
    destruct (from_file_row sids delimiter (Py.strip line) data idx)
      as [[data' idx']|e]; simpl; [apply IH | reflexivity].
  - apply IH.
Qed.

Lemma from_file_row_extra sids delimiter line data idx :
  length sids <= idx ->
  from_file_row sids delimiter line data idx =
  Raise (DistanceMatrixFormatError extra_rows_message).
Proof.
  intros Hle. unfold from_file_row. apply Nat.leb_le in Hle. now rewrite Hle.
Qed.

Lemma from_file_unfold dm_f delimiter sids body :
  _parse_sample_ids dm_f delimiter = Ok (sids, body) ->
  from_file dm_f delimiter =
  from_file_rows sids delimiter body
    (Np.empty [length sids; length sids]) 0 ≫=
    (fun '(data, idx) =>
       if negb (idx =? length sids)
       then Raise (MissingDataError idx (length sids))
       else __init__ data sids).
Proof. intros Hp. unfold from_file. rewrite Hp. reflexivity. Qed.

Lemma from_file_filter dm_f delimiter :
  from_file (List.filter nonblank dm_f) delimiter = from_file dm_f delimiter.
Proof.
  unfold from_file, _parse_sample_ids. rewrite find_header_filter.
  destruct (find_header dm_f) as [[header|] body]; simpl; [|reflexivity].
  destruct (split header delimiter) as [sids|e]; simpl; [|reflexivity].
  now rewrite from_file_rows_filter.
Qed.

(** C5.  [from_file] raises [MissingHeaderError] when the stream holds
    only blank and comment lines; it raises the extra-rows error at a line
    that is not blank once as many rows as there are labels have been
    filled; it raises [MissingDataError], carrying the number of rows found
    and the number expected, when the stream ends before that (none found of
    [N] expected when only blank lines follow the header); and blank lines
    are passed over wherever they stand, without counting as rows. *)
Theorem from_file_stream_errors (delimiter : string) :
  (forall dm_f,
     Forall (fun line => blank line \/ comment line) dm_f ->
     from_file dm_f delimiter = Raise MissingHeaderError)
  /\ (forall dm_f sids filled line rest data,
     _parse_sample_ids dm_f delimiter = Ok (sids, filled ++ line :: rest) ->
     from_file_rows sids delimiter filled
       (Np.empty [length sids; length sids]) 0 = Ok (data, length sids) ->
     ~ blank line ->
     from_file dm_f delimiter =
     Raise (DistanceMatrixFormatError
              "Encountered extra rows without corresponding sample IDs in the header."))
  /\ (forall dm_f sids body data actual,
     _parse_sample_ids dm_f delimiter = Ok (sids, body) ->
     from_file_rows sids delimiter body
       (Np.empty [length sids; length sids]) 0 = Ok (data, actual) ->
     actual < length sids ->
     from_file dm_f delimiter = Raise (MissingDataError actual (length sids))
     /\ args (MissingDataError actual (length sids)) =
        "Expected " +:+ Py.str_of_nat (length sids) +:+
        " row(s) of data, but found " +:+ Py.str_of_nat actual +:+ ".")
  /\ (forall dm_f sids body,
     _parse_sample_ids dm_f delimiter = Ok (sids, body) ->
     Forall blank body ->
     0 < length sids
     /\ from_file dm_f delimiter = Raise (MissingDataError 0 (length sids)))
  /\ (forall dm_f,
     from_file (List.filter nonblank dm_f) delimiter = from_file dm_f delimiter)
  /\ (forall sids line dm_f data idx,
     blank line ->
     from_file_rows sids delimiter (line :: dm_f) data idx =
     from_file_rows sids delimiter dm_f data idx).
Proof.
  split.
  { intros dm_f Hall. unfold from_file, _parse_sample_ids.
    now rewrite find_header_none. }
  split.
  { intros dm_f sids filled line rest data Hp Hfilled Hline.
    rewrite (from_file_unfold _ _ _ _ Hp), from_file_rows_app, Hfilled. simpl.
    apply truthy_true in Hline. rewrite Hline. simpl.
    now rewrite from_file_row_extra. }
  split.
  { intros dm_f sids body data actual Hp Hrows Hlt.
    rewrite (from_file_unfold _ _ _ _ Hp), Hrows. simpl.
    split; [|reflexivity].
    destruct (actual =? length sids) eqn:E; [|reflexivity].
    apply Nat.eqb_eq in E. lia. }
  split.
  { intros dm_f sids body Hp Hblank.
    assert (Hlen : 0 < length sids).
    { unfold _parse_sample_ids in Hp.
      destruct (find_header dm_f) as [[header|] ?]; [|discriminate].
      destruct (split header delimiter) as [tokens|] eqn:Hs; [|discriminate].
      apply split_ok_inv in Hs as (_ & _ & Hlen). simpl in Hp.
      injection Hp as <- _. lia. }
    split; [assumption|].
    rewrite (from_file_unfold _ _ _ _ Hp), from_file_rows_all_blank by assumption.
    simpl. destruct (length sids); [lia | reflexivity]. }
  split; [intros dm_f; apply from_file_filter|].
  intros. now apply from_file_rows_blank.
Qed.

Lemma asarray_float_length tokens vals :
  asarray_float tokens = Ok vals -> length vals = length tokens.
Proof.
  revert vals. induction tokens as [|t ts IH]; intros vals; simpl.
  - now intros [= <-].
  - destruct (F64.of_string t); [|discriminate].
    destruct (asarray_float ts) as [xs|]; [|discriminate].
    simpl. intros [= <-]. simpl. f_equal. now apply IH.
Qed.

Lemma product_row (c : nat) : Np.product [c] = c.
Proof. unfold Np.product. simpl. lia. Qed.

Lemma chunks_lookup count size l i :
  i < count ->
  Np.chunks count size l !! i = Some (take size (drop (i * size) l)).
Proof.
  revert l i. induction count as [|count IH]; intros l i Hi; [lia|].
  destruct i as [|i]; simpl; [reflexivity|].
  rewrite IH by lia. now rewrite drop_drop.
Qed.

Lemma set_row_shape a i vals : shape (Np.set_row a i vals) = shape a.
Proof.
  unfold Np.set_row.
  destruct (shape a) as [|? [|? [|? ?]]] eqn:Hs; simpl; congruence.
Qed.

Lemma set_row_flat a r c i vals :
  shape a = [r; c] ->
  flat (Np.set_row a i vals) =
  take (i * c) (flat a) ++ vals ++ drop (i * c + c) (flat a).
Proof. intros Hs. unfold Np.set_row. now rewrite Hs. Qed.

Lemma set_row_well_formed a r c i vals :
  shape a = [r; c] -> Np.well_formed a -> i < r -> length vals = c ->
  Np.well_formed (Np.set_row a i vals).
Proof.
  unfold Np.well_formed. intros Hs Hwf Hi Hv.
  rewrite set_row_shape, (set_row_flat a r c) by assumption.
  rewrite Hs in *. rewrite !length_app, length_take, length_drop, Hv.
  unfold Np.product in *. simpl in *. nia.
Qed.

Lemma set_row_iter a r c i vals :
  shape a = [r; c] -> Np.well_formed a -> i < r -> length vals = c ->
  Np.iter (Np.set_row a i vals) !! i = Some vals.
Proof.
  unfold Np.well_formed. intros Hs Hwf Hi Hv. unfold Np.iter.
  rewrite set_row_shape, Hs, product_row.
  rewrite chunks_lookup by exact Hi.
  rewrite (set_row_flat a r c) by exact Hs. f_equal.
  rewrite Hs in Hwf. unfold Np.product in Hwf. simpl in Hwf.
  rewrite drop_app_length'; [|rewrite length_take; nia].
  rewrite take_app_length'; [reflexivity | lia].
Qed.

(** C6.  A line that is not blank, met while rows are still expected, is
    split on the delimiter.  If this does not give one field more than there
    are labels, the row-length error names the row, counted from 1.  If it
    does, and the first field is not the label expected at this row, the
    error is [SampleIDMismatchError]: the count is checked before the label.
    Only then are the other fields converted to doubles, and stored as the
    row. *)
Theorem from_file_row_checks (sids : list string) (delimiter raw : string)
        (dm_f : list string) (data : ndarray) (curr_row_idx : nat)
        (tokens : list string) :
  ~ blank raw ->
  curr_row_idx < length sids ->
  split (Py.strip raw) delimiter = Ok tokens ->
  (length tokens <> length sids + 1 ->
     from_file_rows sids delimiter (raw :: dm_f) data curr_row_idx =
     Raise (DistanceMatrixFormatError
              ("The number of values in row number "
               +:+ Py.str_of_nat (curr_row_idx + 1) +:+
               " is not equal to the number of sample IDs in the header.")))
  /\ (length tokens = length sids + 1 ->
      tokens !! 0 <> sids !! curr_row_idx ->
      from_file_rows sids delimiter (raw :: dm_f) data curr_row_idx =
      Raise SampleIDMismatchError)
  /\ (length tokens = length sids + 1 ->
      tokens !! 0 = sids !! curr_row_idx ->
      (forall e, asarray_float (tail tokens) = Raise e ->
         from_file_rows sids delimiter (raw :: dm_f) data curr_row_idx =
         Raise e)
      /\ (forall vals, asarray_float (tail tokens) = Ok vals ->
         length vals = length sids
         /\ from_file_rows sids delimiter (raw :: dm_f) data curr_row_idx =
            from_file_rows sids delimiter dm_f
              (Np.set_row data curr_row_idx vals) (curr_row_idx + 1)
         /\ (shape data = [length sids; length sids] ->
             Np.well_formed data ->
             Np.iter (Np.set_row data curr_row_idx vals) !! curr_row_idx
             = Some vals))).
Proof.
  intros Hraw Hidx Hsplit.
  rewrite from_file_rows_nonblank by assumption.
  unfold from_file_row. rewrite Hsplit.
  apply Nat.leb_gt in Hidx as Hleb. rewrite Hleb. simpl.
  destruct (lookup_lt_is_Some_2 sids curr_row_idx Hidx) as [sid Hsid].
  apply split_ok_inv in Hsplit as (_ & _ & Hlen).
  destruct tokens as [|label fields]; [simpl in Hlen; lia|].
  rewrite Hsid. simpl. split; [|split].
  - intros Hne. apply Nat.eqb_neq in Hne. simpl in Hne. now rewrite Hne.
  - intros Heq Hlabel. apply Nat.eqb_eq in Heq. simpl in Heq. rewrite Heq. simpl.
    destruct (String.eqb_spec label sid) as [->|Hne]; [congruence|reflexivity].
  - intros Heq [= ->]. rewrite String.eqb_refl.
    pose proof Heq as Heqb. apply Nat.eqb_eq in Heqb. simpl in Heqb.
    rewrite Heqb. simpl. split.
    + intros e He. now rewrite He.
    + intros vals Hvals. rewrite Hvals. simpl.
      pose proof (asarray_float_length _ _ Hvals) as Hv.
      assert (Hvn : length vals = length sids) by (simpl in Heq; lia).
      split; [assumption|]. split; [reflexivity|].
      intros Hs Hwf. now apply (set_row_iter _ _ _ _ _ Hs).
Qed.

(** ** Arrays given by a function *)

Lemma tabulate_lookup_from (f : nat -> nat -> float) c s r i j :
  i < r -> j < c ->
  concat ((fun i => f i <$> seq 0 c) <$> seq s r) !! (i * c + j)
  = Some (f (s + i) j).
Proof.
  revert s i. induction r as [|r IH]; intros s i Hi Hj; [lia|].
  simpl. destruct i as [|i].
  - rewrite lookup_app_l by (rewrite length_fmap, length_seq; lia).
    rewrite list_lookup_fmap, lookup_seq_lt by lia.
    simpl. now rewrite Nat.add_0_r.
  - rewrite lookup_app_r by (rewrite length_fmap, length_seq; lia).
    rewrite length_fmap, length_seq.
    replace (S i * c + j - c) with (i * c + j) by lia.
    rewrite IH by lia. f_equal. f_equal. lia.
Qed.

Lemma tabulate_item r c f i j :
  i < r -> j < c -> Np.item (Np.tabulate r c f) c i j = f i j.
Proof.
  intros Hi Hj. unfold Np.item, Np.tabulate. simpl.
  now rewrite (tabulate_lookup_from f c 0 r i j Hi Hj).
Qed.

Lemma tabulate_zip_with (g : float -> float -> float) f1 f2 c (l : list nat) :
  zip_with g (concat ((fun i => f1 i <$> seq 0 c) <$> l))
             (concat ((fun i => f2 i <$> seq 0 c) <$> l))
  = concat ((fun i => (fun j => g (f1 i j) (f2 i j)) <$> seq 0 c) <$> l).
Proof.
  induction l as [|i l IH]; [reflexivity|].
  rewrite !fmap_cons. cbn [concat].
  rewrite zip_with_app by now rewrite !length_fmap.
  rewrite IH. f_equal.
  now rewrite zip_with_fmap_l, zip_with_fmap_r, zip_with_diag.
Qed.

(** ** Random matrices *)

Lemma unit_interval_not_nan x : unit_interval x -> F64.is_nan x = false.
Proof. intros [H _]. now destruct x. Qed.

Lemma eqb_refl x : F64.is_nan x = false -> F64.eqb x x = true.
Proof.
  unfold F64.eqb, SFeqb. destruct x as [s|s| |s m e]; simpl; try discriminate.
  - reflexivity.
  - now destruct s.
  - intros _. rewrite Z.compare_refl, Pos.compare_cont_refl. now destruct s.
Qed.

Lemma add_comm_zero x :
  F64.is_nan x = false ->
  F64.eqb (F64.add x F64.zero) (F64.add F64.zero x) = true.
Proof.
  destruct x as [s|s| |s m e]; simpl; try discriminate; intros _.
  - now destruct s.
  - now destruct s.
  - apply (eqb_refl (S754_finite s m e)). reflexivity.
Qed.

Lemma add_zero_comm x :
  F64.is_nan x = false ->
  F64.eqb (F64.add F64.zero x) (F64.add x F64.zero) = true.
Proof.
  destruct x as [s|s| |s m e]; simpl; try discriminate; intros _.
  - now destruct s.
  - now destruct s.
  - apply (eqb_refl (S754_finite s m e)). reflexivity.
Qed.

Lemma tabulate_ext r c f g :
  (forall i j, i < r -> j < c -> f i j = g i j) ->
  Np.tabulate r c f = Np.tabulate r c g.
Proof.
  intros Hfg. unfold Np.tabulate. f_equal. f_equal.
  apply list_fmap_ext. intros ki i Hi. apply lookup_seq in Hi as [-> Hi].
  apply list_fmap_ext. intros kj j Hj. apply lookup_seq in Hj as [-> Hj].
  now apply Hfg.
Qed.

Lemma transpose_tabulate n f :
  Np.transpose (Np.tabulate n n f)
  = Np.tabulate n n (fun i j => Np.item (Np.tabulate n n f) n j i).
Proof. reflexivity. Qed.

Lemma iadd_tabulate r c f g :
  Np.iadd (Np.tabulate r c f) (Np.tabulate r c g)
  = Np.tabulate r c (fun i j => F64.add (f i j) (g i j)).
Proof.
  unfold Np.iadd, Np.tabulate. cbn [shape flat]. f_equal.
  apply tabulate_zip_with.
Qed.

Lemma mirror_tabulate rand n :
  shape rand = [n; n] ->
  Np.iadd (Np.tril_below rand) (Np.transpose (Np.tril_below rand))
  = Np.tabulate n n (mirrored rand n).
Proof.
  intros Hs. unfold Np.tril_below. rewrite Hs.
  rewrite transpose_tabulate, iadd_tabulate.
  apply tabulate_ext. intros i j Hi Hj.
  now rewrite tabulate_item.
Qed.

Lemma item_lookup (a : ndarray) n i j :
  shape a = [n; n] -> Np.well_formed a -> i < n -> j < n ->
  flat a !! (i * n + j) = Some (Np.item a n i j).
Proof.
  unfold Np.well_formed, Np.item. intros Hs Hwf Hi Hj.
  rewrite Hs in Hwf. unfold Np.product in Hwf. simpl in Hwf.
  destruct (lookup_lt_is_Some_2 (flat a) (i * n + j)) as [x ->]; [nia|].
  reflexivity.
Qed.

Lemma mirrored_structure rand n :
  shape rand = [n; n] -> Np.well_formed rand ->
  Forall unit_interval (flat rand) ->
  distance_structure (Np.tabulate n n (mirrored rand n)).
Proof.
  intros Hs Hwf Hall. left. exists n. split; [reflexivity|].
  assert (Hnan : forall i j, i < n -> j < n ->
                   F64.is_nan (Np.item rand n i j) = false).
  { intros i j Hi Hj. apply unit_interval_not_nan.
    rewrite Forall_forall in Hall. apply Hall.
    apply list_elem_of_lookup. exists (i * n + j). now apply item_lookup. }
  split.
  - intros i j Hi Hj. rewrite !tabulate_item by assumption. unfold mirrored.
    destruct (Nat.lt_trichotomy i j) as [Hlt | [-> | Hgt]].
    + apply Nat.ltb_lt in Hlt as Hb. rewrite Hb.
      assert ((j <? i) = false) as -> by (apply Nat.ltb_ge; lia).
      apply add_zero_comm. now apply Hnan.
    + rewrite Nat.ltb_irrefl. reflexivity.
    + apply Nat.ltb_lt in Hgt as Hb. rewrite Hb.
      assert ((i <? j) = false) as -> by (apply Nat.ltb_ge; lia).
      apply add_comm_zero. now apply Hnan.
  - intros i Hi. rewrite tabulate_item by assumption. unfold mirrored.
    rewrite Nat.ltb_irrefl. reflexivity.
Qed.

Lemma str_of_nat_inj : Inj (=) (=) Py.str_of_nat.
Proof.
  intros n m Heq. unfold Py.str_of_nat in Heq.
  apply Unsigned.to_uint_inj.
  assert (Some (Nat.to_uint n) = Some (Nat.to_uint m)) as [= ?]; [|assumption].
  rewrite <- !NilEmpty.usu. now rewrite Heq.
Qed.

Lemma default_ids_NoDup n : NoDup (Py.str_of_nat <$> seq 1 n).
Proof. apply NoDup_fmap_2; [apply str_of_nat_inj | apply NoDup_seq]. Qed.

(** C10.  For [n >= 1], an empty sequence of labels is taken as no labels
    at all: the call does what the call without labels does, that is, it
    hands the constructor the labels ["1"], ..., [str(n)].  Whatever was
    drawn, the error about the number of labels is not raised; and with
    draws from [[0, 1)] nothing is raised and the matrix carries these
    labels. *)
Theorem random_distance_matrix_falsy_ids (rand : ndarray) (n : nat) :
  1 <= n -> shape rand = [n; n] ->
  random_distance_matrix rand n (Some []) = random_distance_matrix rand n None
  /\ random_distance_matrix rand n (Some [])
     = __init__ (Np.tabulate n n (mirrored rand n)) (Py.str_of_nat <$> seq 1 n)
  /\ random_distance_matrix rand n (Some [])
     <> Raise (DistanceMatrixError count_message)
  /\ (Np.well_formed rand -> Forall unit_interval (flat rand) ->
      exists dm,
        random_distance_matrix rand n (Some []) = Ok dm
        /\ sample_ids dm = Py.str_of_nat <$> seq 1 n
        /\ data dm = Np.tabulate n n (mirrored rand n)).
Proof.
  intros Hn Hs. split; [reflexivity|].
  assert (Hcall : random_distance_matrix rand n (Some [])
                  = __init__ (Np.tabulate n n (mirrored rand n))
                             (Py.str_of_nat <$> seq 1 n)).
  { unfold random_distance_matrix. now rewrite (mirror_tabulate rand n). }
  split; [exact Hcall|]. rewrite Hcall.
  assert (Hsize : 0 ∉ shape (Np.tabulate n n (mirrored rand n))).
  { simpl. rewrite !elem_of_cons, elem_of_nil. lia. }
  assert (Hcount : shape (Np.tabulate n n (mirrored rand n)) !! 0
                   = Some (length (Py.str_of_nat <$> seq 1 n))).
  { simpl. now rewrite length_fmap, length_seq. }
  assert (Hvalid : distance_structure (Np.tabulate n n (mirrored rand n)) ->
            __init__ (Np.tabulate n n (mirrored rand n))
                     (Py.str_of_nat <$> seq 1 n)
            = Ok {| _data := Np.tabulate n n (mirrored rand n);
                    _sample_ids := Py.str_of_nat <$> seq 1 n;
                    _sample_index :=
                      _index_list (Py.str_of_nat <$> seq 1 n) |}).
  { intros Hstruct. apply init_ok. split; [|reflexivity].
    apply validate_ok. auto using default_ids_NoDup. }
  split.
  - destruct (Np.is_valid_dm (Np.tabulate n n (mirrored rand n))) eqn:Hv.
    + apply is_valid_dm_spec in Hv; [|assumption]. now rewrite (Hvalid Hv).
    + apply is_valid_dm_false in Hv; [|assumption].
      rewrite (proj2 (init_raise _ _ _)
                 (validate_structure _ _ Hsize (default_ids_NoDup n) Hv)).
      intros [=].
  - intros Hwf Hall. eexists. split.
    + apply Hvalid. now apply mirrored_structure.
    + split; reflexivity.
Qed.

(** ** Writing and reading back *)

(** *** Text *)

Lemma append_nil_l (s : string) : EmptyString +:+ s = s.
Proof. reflexivity. Qed.

Lemma append_cons (c : ascii) (s t : string) :
  String c s +:+ t = String c (s +:+ t).
Proof. reflexivity. Qed.

Lemma append_length (s t : string) :
  String.length (s +:+ t) = String.length s + String.length t.
Proof. induction s as [|c s IH]; [reflexivity|]. rewrite append_cons. cbn. now rewrite IH. Qed.

Lemma append_nil_r (s : string) : s +:+ EmptyString = s.
Proof. induction s as [|c s IH]; [reflexivity|]. now rewrite append_cons, IH. Qed.

Lemma append_assoc (s t u : string) : (s +:+ t) +:+ u = s +:+ (t +:+ u).
Proof.
  induction s as [|c s IH]; [reflexivity|]. now rewrite !append_cons, IH.
Qed.

Lemma append_eq_nil (s t : string) :
  s +:+ t = EmptyString -> s = EmptyString /\ t = EmptyString.
Proof. destruct s; [auto | discriminate]. Qed.

Lemma occurs_app c s t : occurs c (s +:+ t) = occurs c s || occurs c t.
Proof.
  induction s as [|x s IH]; [reflexivity|].
  rewrite append_cons. simpl. now rewrite IH, orb_assoc.
Qed.

Lemma lstrip_length s : String.length (Py.lstrip s) <= String.length s.
Proof.
  induction s as [|c s IH]; simpl; [lia|].
  destruct (Py.isspace c); simpl; lia.
Qed.

Lemma rstrip_length s : String.length (Py.rstrip s) <= String.length s.
Proof.
  induction s as [|c s IH]; simpl; [lia|].
  destruct (Py.rstrip s); [destruct (Py.isspace c)|]; simpl in *; lia.
Qed.

Lemma lstrip_fixed s :
  String.length (Py.lstrip s) = String.length s -> Py.lstrip s = s.
Proof.
  destruct s as [|c s]; simpl; [reflexivity|].
  destruct (Py.isspace c); [|reflexivity].
  pose proof (lstrip_length s). intros. lia.
Qed.

Lemma strip_fixed s : Py.strip s = s -> Py.lstrip s = s /\ Py.rstrip s = s.
Proof.
  unfold Py.strip. intros Hs.
  assert (Hl : Py.lstrip s = s).
  { apply lstrip_fixed. pose proof (lstrip_length s).
    pose proof (rstrip_length (Py.lstrip s)). rewrite Hs in *. lia. }
  now rewrite Hl in Hs.
Qed.

Lemma lstrip_app s t :
  s <> EmptyString -> Py.lstrip s = s -> Py.lstrip (s +:+ t) = s +:+ t.
Proof.
  destruct s as [|c s]; [congruence|]. intros _. simpl. rewrite append_cons. simpl.
  destruct (Py.isspace c); [|reflexivity].
  pose proof (lstrip_length s). intros Heq.
  apply (f_equal String.length) in Heq. simpl in Heq. lia.
Qed.

Lemma rstrip_app_keep s t :
  Py.rstrip t <> EmptyString -> Py.rstrip (s +:+ t) = s +:+ Py.rstrip t.
Proof.
  intros Ht. induction s as [|c s IH]; [reflexivity|].
  rewrite !append_cons. simpl. rewrite IH.
  destruct (s +:+ Py.rstrip t) eqn:E; [|reflexivity].
  apply append_eq_nil in E as [_ E]. congruence.
Qed.

Lemma rstrip_app_drop s t :
  Py.rstrip t = EmptyString -> Py.rstrip (s +:+ t) = Py.rstrip s.
Proof.
  intros Ht. induction s as [|c s IH]; [assumption|].
  rewrite append_cons. simpl. now rewrite IH.
Qed.

Lemma strip_line s :
  s <> EmptyString -> Py.strip s = s -> Py.strip (s +:+ Py.LF) = s.
Proof.
  intros Hne Hs. apply strip_fixed in Hs as [Hl Hr]. unfold Py.strip.
  rewrite lstrip_app by assumption.
  now rewrite rstrip_app_drop.
Qed.

Lemma rstrip_app s t :
  t <> EmptyString -> Py.rstrip t = t -> Py.rstrip (s +:+ t) = s +:+ t.
Proof.
  intros Ht Hr. rewrite rstrip_app_keep by congruence. now rewrite Hr.
Qed.

Lemma append_neq_nil_r (s t : string) : t <> EmptyString -> s +:+ t <> EmptyString.
Proof. intros Ht E. now apply append_eq_nil in E as [_ E]. Qed.

Lemma append_neq_nil_l (s t : string) : s <> EmptyString -> s +:+ t <> EmptyString.
Proof. intros Hs E. now apply append_eq_nil in E as [E _]. Qed.

Lemma strip_app s m t :
  s <> EmptyString -> Py.strip s = s -> t <> EmptyString -> Py.strip t = t ->
  Py.strip (s +:+ m +:+ t) = s +:+ m +:+ t.
Proof.
  intros Hs Hss Ht Hst.
  apply strip_fixed in Hss as [Hl _]. apply strip_fixed in Hst as [_ Hr].
  unfold Py.strip. rewrite lstrip_app by assumption.
  apply rstrip_app; [now apply append_neq_nil_r | now apply rstrip_app].
Qed.

Lemma lstrip_all_space s t :
  all_space s = true -> Py.lstrip (s +:+ t) = Py.lstrip t.
Proof.
  induction s as [|c s IH]; [reflexivity|]. simpl all_space.
  intros [Hc Hs]%andb_true_iff. rewrite append_cons. cbn [Py.lstrip].
  rewrite Hc. now apply IH.
Qed.

Lemma rstrip_all_space s : all_space s = true -> Py.rstrip s = EmptyString.
Proof.
  induction s as [|c s IH]; [reflexivity|]. simpl all_space.
  intros [Hc Hs]%andb_true_iff. cbn [Py.rstrip]. now rewrite IH, Hc.
Qed.

Lemma rstrip_tail x s :
  Py.rstrip (String x s) = String x s -> Py.rstrip s = s.
Proof.
  cbn [Py.rstrip]. destruct (Py.rstrip s) as [|y r] eqn:E.
  - destruct (Py.isspace x); [discriminate|]. now intros [= <-].
  - now intros [= <-].
Qed.

Lemma all_space_app s t : all_space (s +:+ t) = true -> all_space s = true.
Proof.
  induction s as [|c s IH]; [reflexivity|]. rewrite append_cons. simpl.
  intros [Hc Hs]%andb_true_iff. rewrite Hc. now apply IH.
Qed.

(** *** Where the delimiter occurs *)

Lemma prefix_nil s : String.prefix EmptyString s = true.
Proof. now destruct s. Qed.

Lemma prefix_cons x d y s :
  String.prefix (String x d) (String y s)
  = Ascii.eqb x y && String.prefix d s.
Proof.
  cbn [String.prefix]. destruct (ascii_dec x y) as [->|Hne].
  - now rewrite Ascii.eqb_refl.
  - apply Ascii.eqb_neq in Hne. now rewrite Hne.
Qed.

Lemma prefix_app d t : String.prefix d (d +:+ t) = true.
Proof.
  induction d as [|x d IH]; [apply prefix_nil|].
  now rewrite append_cons, prefix_cons, Ascii.eqb_refl.
Qed.

(** A delimiter found at the start of [g +:+ t] lies within [g] or runs
    past its end. *)
Lemma prefix_split d g t :
  String.prefix d (g +:+ t) = true ->
  String.prefix d g = true \/ exists w, d = g +:+ w.
Proof.
  revert d. induction g as [|y g IH]; intros d; [right; now exists d|].
  destruct d as [|x d]; [left; reflexivity|].
  rewrite append_cons, !prefix_cons.
  intros [Hx Hd]%andb_true_iff. apply Ascii.eqb_eq in Hx as ->.
  destruct (IH d Hd) as [Hin | [w ->]].
  - left. now rewrite Ascii.eqb_refl.
  - right. now exists w.
Qed.

Lemma contains_prefix d s : contains d s = false -> String.prefix d s = false.
Proof. destruct s; simpl; now intros [? _]%orb_false_elim. Qed.

Lemma contains_tail d x s : contains d (String x s) = false -> contains d s = false.
Proof. simpl. now intros [_ ?]%orb_false_elim. Qed.

(** Inside a field no delimiter starts: it would lie within the field, or
    it would begin with the last character of the field, which is not white
    space. *)
Lemma field_no_match d f t :
  all_space d = true -> f <> EmptyString -> Py.rstrip f = f ->
  contains d f = false -> String.prefix d (f +:+ t) = false.
Proof.
  intros Hd Hf Hr Hc. destruct (String.prefix d (f +:+ t)) eqn:E; [|reflexivity].
  apply prefix_split in E as [E | [w ->]].
  - apply contains_prefix in Hc. congruence.
  - apply all_space_app, rstrip_all_space in Hd. congruence.
Qed.

Lemma split_from_skip d w rest :
  Py.split_from d (String.length w) (w +:+ rest) = Py.split_from d 0 rest.
Proof. induction w as [|x w IH]; [reflexivity | exact IH]. Qed.

Lemma split_from_last d f :
  contains d f = false -> Py.split_from d 0 f = [f].
Proof.
  induction f as [|x f IH]; [reflexivity|]. intros Hc.
  cbn [Py.split_from]. rewrite (contains_prefix _ _ Hc).
  now rewrite IH by now apply contains_tail in Hc.
Qed.

Lemma split_from_field d f rest :
  d <> EmptyString -> all_space d = true ->
  Py.rstrip f = f -> contains d f = false ->
  Py.split_from d 0 (f +:+ d +:+ rest) = f :: Py.split_from d 0 rest.
Proof.
  intros Hne Hd. induction f as [|x f IH]; intros Hr Hc.
  - rewrite append_nil_l. destruct d as [|y d]; [congruence|].
    rewrite append_cons. cbn [Py.split_from].
    rewrite <- append_cons, prefix_app. cbn [String.length Nat.sub].
    rewrite Nat.sub_0_r. now rewrite split_from_skip.
  - rewrite append_cons. cbn [Py.split_from]. rewrite <- append_cons.
    rewrite field_no_match by (assumption || discriminate).
    rewrite IH;
      [reflexivity | now apply rstrip_tail in Hr | now apply contains_tail in Hc].
Qed.

(** *** Fields joined by a delimiter *)

Lemma join_cons d s fields :
  fields <> [] -> Py.join d (s :: fields) = s +:+ d +:+ Py.join d fields.
Proof. destruct fields; [congruence | reflexivity]. Qed.

Lemma join_field d fields :
  occurs "010"%char d = false -> fields <> [] -> Forall (field d) fields ->
  Py.join d fields <> EmptyString
  /\ Py.strip (Py.join d fields) = Py.join d fields
  /\ occurs "010"%char (Py.join d fields) = false.
Proof.
  intros Hd Hne Hall.
  induction Hall as [|s fields (Hs & Hss & _ & Hlf) Hall IH]; [congruence|].
  destruct fields as [|t fields]; [simpl; auto|].
  rewrite join_cons by discriminate.
  destruct IH as (IHne & IHs & IHlf); [discriminate|].
  split; [now apply append_neq_nil_l|]. split; [now apply strip_app|].
  now rewrite !occurs_app, Hlf, IHlf, Hd.
Qed.

Lemma split_join d fields :
  d <> EmptyString -> all_space d = true ->
  fields <> [] -> Forall (field d) fields ->
  Py.split_from d 0 (Py.join d fields) = fields.
Proof.
  intros Hne Hd Hfields Hall.
  induction Hall as [|s fields (_ & Hs & Hc & _) Hall IH]; [congruence|].
  destruct fields as [|t fields]; [now apply split_from_last|].
  rewrite join_cons by discriminate.
  rewrite split_from_field;
    [|assumption | assumption | now apply strip_fixed in Hs | assumption].
  f_equal. now apply IH.
Qed.

(** *** Lines *)

Lemma readlines_line s rest :
  occurs "010"%char s = false ->
  Py.readlines (s +:+ Py.LF +:+ rest) = (s +:+ Py.LF) :: Py.readlines rest.
Proof.
  induction s as [|x s IH].
  - intros _. reflexivity.
  - simpl occurs. intros [Hx Hs]%orb_false_elim.
    rewrite !append_cons. cbn [Py.readlines]. rewrite Hx. now rewrite IH.
Qed.

Lemma readlines_text lines :
  Forall (fun line => occurs "010"%char line = false) lines ->
  Py.readlines (text_of lines) = (fun line => line +:+ Py.LF) <$> lines.
Proof.
  induction 1 as [|line lines Hline _ IH]; [reflexivity|].
  simpl. rewrite readlines_line by assumption. now rewrite IH.
Qed.

Lemma chunks_length count size l : length (Np.chunks count size l) = count.
Proof.
  revert l. induction count as [|count IH]; intros l; simpl; [reflexivity|].
  now rewrite IH.
Qed.

Lemma chunks_rows count size l :
  count * size <= length l ->
  Forall (fun row => length row = size) (Np.chunks count size l).
Proof.
  revert l. induction count as [|count IH]; intros l Hl; simpl; constructor.
  - rewrite length_take. lia.
  - apply IH. rewrite length_drop. simpl in Hl. lia.
Qed.

Lemma chunks_concat count size l :
  length l = count * size -> concat (Np.chunks count size l) = l.
Proof.
  revert l. induction count as [|count IH]; intros l Hl; simpl.
  - destruct l; [reflexivity | discriminate].
  - rewrite IH by (rewrite length_drop; simpl in Hl; lia).
    apply take_drop.
Qed.

Lemma chunks_Forall (P : float -> Prop) count size l :
  Forall P l -> Forall (Forall P) (Np.chunks count size l).
Proof.
  revert l. induction count as [|count IH]; intros l Hl; simpl; constructor.
  - now apply Forall_take.
  - apply IH. now apply Forall_drop.
Qed.

Lemma fill_flat n rows :
  forall k data,
    shape data = [n; n] -> length (flat data) = n * n ->
    Forall (fun row => length row = n) rows -> k + length rows <= n ->
    shape (fill data k rows) = [n; n]
    /\ flat (fill data k rows)
       = take (k * n) (flat data) ++ concat rows
         ++ drop ((k + length rows) * n) (flat data).
Proof.
  induction rows as [|row rows IH]; intros k data Hs Hlen Hrows Hk.
  - simpl. split; [assumption|]. rewrite Nat.add_0_r. now rewrite take_drop.
  - apply Forall_cons in Hrows as [Hrow Hrows]. simpl in Hk.
    assert (Hwf : Np.well_formed data).
    { unfold Np.well_formed, Np.product. rewrite Hs. simpl. lia. }
    pose proof (set_row_well_formed data n n k row Hs Hwf ltac:(lia) Hrow)
      as Hwf'.
    unfold Np.well_formed, Np.product in Hwf'.
    rewrite set_row_shape, Hs in Hwf'. simpl in Hwf'.
    destruct (IH (k + 1) (Np.set_row data k row)) as [Hshape Hflat];
      [now rewrite set_row_shape | lia | assumption | lia |].
    cbn [fill]. split; [assumption|]. rewrite Hflat.
    rewrite (set_row_flat data n n) by assumption.
    assert (Htake : length (take (k * n) (flat data)) = k * n)
      by (rewrite length_take; nia).
    rewrite (app_assoc (take (k * n) (flat data)) row).
    rewrite take_app_length' by (rewrite length_app; lia).
    rewrite drop_app_ge by (rewrite length_app; nia).
    rewrite length_app, Htake, Hrow, drop_drop.
    cbn [concat length]. rewrite <- !app_assoc.
    do 3 f_equal. f_equal. nia.
Qed.

Lemma buffer_eta (a : ndarray) : {| shape := shape a; flat := flat a |} = a.
Proof. now destruct a. Qed.

Lemma fill_empty (a : ndarray) n :
  shape a = [n; n] -> Np.well_formed a ->
  fill (Np.empty [n; n]) 0 (Np.iter a) = a.
Proof.
  intros Hs Hwf. unfold Np.well_formed, Np.product in Hwf.
  rewrite Hs in Hwf. simpl in Hwf. rewrite Nat.mul_1_r in Hwf.
  unfold Np.iter. rewrite Hs, product_row.
  destruct (fill_flat n (Np.chunks n n (flat a)) 0 (Np.empty [n; n]))
    as [Hshape Hflat].
  - reflexivity.
  - simpl. rewrite length_replicate. unfold Np.product. simpl. nia.
  - apply chunks_rows. lia.
  - rewrite chunks_length. lia.
  - rewrite <- (buffer_eta (fill _ _ _)), Hshape, Hflat.
    rewrite chunks_length, chunks_concat by lia. simpl.
    rewrite drop_ge, app_nil_r; [rewrite <- Hs; apply buffer_eta|].
    rewrite length_replicate. unfold Np.product. simpl. nia.
Qed.

(** *** Doubles and their texts *)

Lemma iter_pos_nat {A} (f : A -> A) p x :
  SpecFloat.iter_pos f p x = Nat.iter (Pos.to_nat p) f x.
Proof.
  revert x. induction p as [p IH|p IH|]; intros x; cbn [SpecFloat.iter_pos].
  - rewrite !IH, Pos2Nat.inj_xI. rewrite <- Nat.iter_add.
    replace (S (2 * Pos.to_nat p)) with (S (Pos.to_nat p + Pos.to_nat p)) by lia.
    now rewrite Nat.iter_succ_r.
  - rewrite !IH, Pos2Nat.inj_xO. rewrite <- Nat.iter_add. f_equal. lia.
  - reflexivity.
Qed.

Lemma shr_1_double (z : positive) :
  shr_1 {| shr_m := (2 * Zpos z)%Z; shr_r := false; shr_s := false |}
  = {| shr_m := Zpos z; shr_r := false; shr_s := false |}.
Proof. reflexivity. Qed.

Lemma shr_exact (n : nat) (z : positive) :
  Nat.iter n shr_1
    {| shr_m := (Zpos z * 2 ^ Z.of_nat n)%Z; shr_r := false; shr_s := false |}
  = {| shr_m := Zpos z; shr_r := false; shr_s := false |}.
Proof.
  induction n as [|n IH].
  - cbn [Nat.iter]. now rewrite Z.mul_1_r.
  - rewrite Nat.iter_succ_r.
    assert (Hpos : exists q, (Zpos z * 2 ^ Z.of_nat n)%Z = Zpos q).
    { destruct (Zpos z * 2 ^ Z.of_nat n)%Z as [|q|q] eqn:E; [lia | eauto | lia]. }
    destruct Hpos as [q Hq].
    replace (Zpos z * 2 ^ Z.of_nat (S n))%Z with (2 * Zpos q)%Z
      by (rewrite <- Hq, Nat2Z.inj_succ, Z.pow_succ_r; lia).
    rewrite shr_1_double, <- Hq. exact IH.
Qed.

Lemma digits2_log2 (m : positive) : Zpos (digits2_pos m) = (Z.log2 (Zpos m) + 1)%Z.
Proof.
  induction m as [m IH|m IH|]; cbn [digits2_pos]; [| |reflexivity].
  - rewrite Pos2Z.inj_succ, IH. destruct m; cbn; lia.
  - rewrite Pos2Z.inj_succ, IH. destruct m; cbn; lia.
Qed.

Lemma Zdigits2_shift (m : positive) (j : Z) :
  (0 <= j)%Z ->
  Zdigits2 (Zpos m * 2 ^ j)%Z = (Zpos (digits2_pos m) + j)%Z.
Proof.
  intros Hj.
  destruct (Zpos m * 2 ^ j)%Z as [|q|q] eqn:E; [lia | | lia].
  cbn [Zdigits2]. rewrite !digits2_log2, <- E.
  rewrite Z.log2_mul_pow2 by lia. lia.
Qed.

Lemma bounded_facts m e :
  bounded F64.prec F64.emax m e = true ->
  fexp F64.prec F64.emax (Zpos (digits2_pos m) + e)%Z = e
  /\ (e <= F64.emax - F64.prec)%Z
  /\ (Z.log2 (Zpos m) <= 52)%Z.
Proof.
  unfold bounded, canonical_mantissa. intros [Hc He]%andb_true_iff.
  apply Z.eqb_eq in Hc. apply Z.leb_le in He.
  split; [exact Hc|]. split; [exact He|].
  pose proof (digits2_log2 m). unfold fexp, emin, F64.prec, F64.emax in *. lia.
Qed.

(** Rounding an exact multiple of a double gives the double. *)
Lemma binary_round_aux_exact s m e j :
  bounded F64.prec F64.emax m e = true -> (0 <= j)%Z ->
  binary_round_aux F64.prec F64.emax s (Zpos m * 2 ^ j)%Z (e - j)%Z loc_Exact
  = S754_finite s m e.
Proof.
  intros Hb Hj. destruct (bounded_facts m e Hb) as (Hc & He & _).
  unfold binary_round_aux, shr_fexp.
  rewrite Zdigits2_shift by assumption.
  replace (Zpos (digits2_pos m) + j + (e - j))%Z
    with (Zpos (digits2_pos m) + e)%Z by lia.
  rewrite Hc. replace (e - (e - j))%Z with j by lia.
  cbn [shr_record_of_loc].
  assert (Hshr : shr {| shr_m := (Zpos m * 2 ^ j)%Z; shr_r := false; shr_s := false |}
                     (e - j)%Z j
                 = ({| shr_m := Zpos m; shr_r := false; shr_s := false |}, e)).
  { unfold shr. destruct j as [|p|p]; [| |lia].
    - f_equal; [f_equal; lia | lia].
    - f_equal; [|lia]. rewrite iter_pos_nat.
      rewrite <- (positive_nat_Z p). apply shr_exact. }
  rewrite Hshr. cbn [shr_m loc_of_shr_record round_nearest_even Zdigits2].
  rewrite Hc, Z.sub_diag. cbn [shr shr_record_of_loc shr_m].
  apply Z.leb_le in He. now rewrite He.
Qed.

(** Reading a decimal that is exactly a double gives the double. *)
Lemma of_decimal_exact s m e (M k : positive) :
  bounded F64.prec F64.emax m e = true ->
  (Zpos M * 2 ^ Z.max 0 (- e) = Zpos m * 10 ^ Zpos k * 2 ^ Z.max 0 e)%Z ->
  F64.of_decimal s (Zpos M) (Zneg k) = S754_finite s m e.
Proof.
  intros Hb Hval. destruct (bounded_facts m e Hb) as (_ & _ & Hlog).
  unfold F64.of_decimal. change (Z.pow_pos 10 k) with (10 ^ Zpos k)%Z.
  set (den := (10 ^ Zpos k)%Z) in *.
  set (shift := Z.max 0 (55 + Z.log2 den - Z.log2 (Zpos M))).
  assert (Hden : (0 < den)%Z) by (unfold den; lia).
  assert (Hshift : (0 <= shift)%Z) by (unfold shift; lia).
  assert (Hj : (0 <= shift + e)%Z).
  { destruct (Z.le_gt_cases 0 e) as [He|He]; [lia|].
    rewrite (Z.max_r 0 (- e)), (Z.max_l 0 e), Z.pow_0_r, Z.mul_1_r in Hval
      by lia.
    assert (Hl : (Z.log2 (Zpos M * 2 ^ (- e)) = - e + Z.log2 (Zpos M))%Z)
      by (apply Z.log2_mul_pow2; lia).
    pose proof (Z.log2_mul_above (Zpos m) den ltac:(lia) ltac:(lia)) as Hu.
    rewrite Hval in Hl. unfold shift. lia. }
  assert (Hnum : Z.shiftl (Zpos M) shift = (Zpos m * 2 ^ (shift + e) * den)%Z).
  { rewrite Z.shiftl_mul_pow2 by assumption.
    destruct (Z.le_gt_cases 0 e) as [He|He].
    - rewrite (Z.max_l 0 (- e)), (Z.max_r 0 e), Z.pow_0_r, Z.mul_1_r in Hval
        by lia.
      rewrite Hval, Z.pow_add_r by lia. ring.
    - rewrite (Z.max_r 0 (- e)), (Z.max_l 0 e), Z.pow_0_r, Z.mul_1_r in Hval
        by lia.
      replace shift with (- e + (shift + e))%Z at 1 by lia.
      rewrite Z.pow_add_r by lia. rewrite Z.mul_assoc, Hval. ring. }
  rewrite Hnum, Z.div_mul, Z.mod_mul by lia. cbn [Z.eqb].
  replace (- shift)%Z with (e - (shift + e))%Z by lia.
  now apply binary_round_aux_exact.
Qed.

(** *** Runs of digits *)

Lemma digit_of_range c d : F64.digit_of c = Some d -> (0 <= d <= 9)%Z.
Proof.
  unfold F64.digit_of.
  destruct (48 <=? nat_of_ascii c) eqn:Hlo; [|discriminate].
  destruct (nat_of_ascii c <=? 57) eqn:Hhi; [|discriminate].
  apply Nat.leb_le in Hlo, Hhi. intros [= <-]. lia.
Qed.

Lemma digit_plain c d : F64.digit_of c = Some d -> Py.isspace c = false.
Proof.
  unfold F64.digit_of, Py.isspace.
  destruct (48 <=? nat_of_ascii c) eqn:Hlo; [|discriminate].
  apply Nat.leb_le in Hlo. intros _.
  apply orb_false_iff. split; [apply Nat.eqb_neq; lia|].
  apply andb_false_iff. right. apply Nat.leb_gt. lia.
Qed.

Lemma read_digits_app t rest acc count :
  all_digits t = true ->
  F64.read_digits (t +:+ rest) acc count
  = F64.read_digits rest (decimal_value t acc) (count + String.length t).
Proof.
  revert acc count. induction t as [|c t IH]; intros acc count Ht.
  - rewrite append_nil_l. cbn [decimal_value String.length].
    now rewrite Nat.add_0_r.
  - cbn [all_digits] in Ht. rewrite append_cons.
    cbn [F64.read_digits decimal_value String.length].
    destruct (F64.digit_of c) as [d|]; [|discriminate].
    rewrite IH by assumption. f_equal. lia.
Qed.

Lemma read_digits_all t acc count :
  all_digits t = true ->
  F64.read_digits t acc count
  = (decimal_value t acc, count + String.length t, EmptyString).
Proof.
  intros Ht. pose proof (read_digits_app t EmptyString acc count Ht) as H.
  replace (t +:+ EmptyString) with t in H; [exact H|].
  clear. induction t as [|c t IH]; [reflexivity|].
  rewrite append_cons. now rewrite <- IH.
Qed.

Lemma decimal_value_acc t acc :
  all_digits t = true ->
  decimal_value t acc
  = (acc * 10 ^ Z.of_nat (String.length t) + decimal_value t 0)%Z.
Proof.
  revert acc. induction t as [|c t IH]; intros acc Ht.
  - cbn. lia.
  - cbn [all_digits] in Ht. cbn [decimal_value String.length].
    destruct (F64.digit_of c) as [d|]; [|discriminate].
    rewrite (IH (10 * acc + d)%Z), (IH (10 * 0 + d)%Z) by assumption.
    rewrite Nat2Z.inj_succ, Z.pow_succ_r by lia. ring.
Qed.

Lemma decimal_value_nonneg t acc :
  (0 <= acc)%Z -> (0 <= decimal_value t acc)%Z.
Proof.
  revert acc. induction t as [|c t IH]; intros acc Hacc; [exact Hacc|].
  cbn [decimal_value]. destruct (F64.digit_of c) as [d|] eqn:Hd; [|exact Hacc].
  apply IH. apply digit_of_range in Hd. lia.
Qed.

Lemma all_digits_app s t :
  all_digits (s +:+ t) = all_digits s && all_digits t.
Proof.
  induction s as [|c s IH]; [reflexivity|]. rewrite append_cons.
  cbn [all_digits].
  destruct (F64.digit_of c); [exact IH | reflexivity].
Qed.

Lemma decimal_value_app s t acc :
  all_digits s = true ->
  decimal_value (s +:+ t) acc = decimal_value t (decimal_value s acc).
Proof.
  revert acc. induction s as [|c s IH]; intros acc Hs; [reflexivity|].
  cbn [all_digits] in Hs. rewrite append_cons. cbn [decimal_value].
  destruct (F64.digit_of c); [now apply IH | discriminate].
Qed.

Lemma plain_app s t : plain (s +:+ t) = plain s && plain t.
Proof.
  induction s as [|c s IH]; [reflexivity|]. rewrite append_cons. cbn [plain].
  now rewrite IH, andb_assoc.
Qed.

Lemma all_digits_plain t : all_digits t = true -> plain t = true.
Proof.
  induction t as [|c t IH]; [reflexivity|]. cbn [all_digits plain].
  destruct (F64.digit_of c) as [d|] eqn:Hd; [|discriminate].
  intros Ht. now rewrite (digit_plain c d Hd), IH.
Qed.

(** *** The digits of a number *)

Ltac digit_by_computation :=
  cbn [NilEmpty.string_of_uint decimal_value all_digits];
  match goal with
  | |- context [F64.digit_of ?c] =>
      let v := eval vm_compute in (F64.digit_of c) in
      change (F64.digit_of c) with v
  end; cbv iota.

Lemma uint_all_digits (d : uint) :
  all_digits (NilEmpty.string_of_uint d) = true.
Proof. induction d; [reflexivity | digit_by_computation; assumption ..]. Qed.

Lemma of_uint_acc_value (d : uint) (acc : positive) :
  Zpos (Pos.of_uint_acc d acc)
  = decimal_value (NilEmpty.string_of_uint d) (Zpos acc).
Proof.
  revert acc. induction d; intros acc; cbn [Pos.of_uint_acc];
    [reflexivity | rewrite IHd; digit_by_computation; f_equal; lia ..].
Qed.

Lemma of_uint_value (d : uint) :
  Z.of_N (Pos.of_uint d) = decimal_value (NilEmpty.string_of_uint d) 0.
Proof.
  induction d; cbn [Pos.of_uint];
    [reflexivity | digit_by_computation; exact IHd | ..];
    cbn [Z.of_N]; rewrite of_uint_acc_value; digit_by_computation;
    reflexivity.
Qed.

Lemma nilzero_all_digits (d : uint) :
  all_digits (NilZero.string_of_uint d) = true
  /\ NilZero.string_of_uint d <> EmptyString
  /\ decimal_value (NilZero.string_of_uint d) 0 = Z.of_N (N.of_uint d).
Proof.
  destruct d; cbn [NilZero.string_of_uint];
    (split; [reflexivity || apply uint_all_digits|]);
    (split; [discriminate|]);
    try reflexivity; unfold N.of_uint; now rewrite of_uint_value.
Qed.

Lemma digits_spec (n : Z) :
  (0 <= n)%Z ->
  all_digits (F64.digits n) = true
  /\ F64.digits n <> EmptyString
  /\ decimal_value (F64.digits n) 0 = n.
Proof.
  intros Hn. unfold F64.digits.
  destruct (nilzero_all_digits (N.to_uint (Z.to_N n))) as (Hall & Hne & Hval).
  split; [exact Hall|]. split; [exact Hne|].
  rewrite Hval, DecimalN.Unsigned.of_to. lia.
Qed.

Lemma uint_head_value (d : uint) :
  d <> Nil -> (forall d', d <> D0 d') ->
  (10 ^ Z.of_nat (String.length (NilEmpty.string_of_uint d) - 1)
   <= decimal_value (NilEmpty.string_of_uint d) 0)%Z.
Proof.
  intros Hnil Hzero.
  destruct d as [|l|l|l|l|l|l|l|l|l|l]; [congruence | now contradiction (Hzero l) | ..];
    digit_by_computation; cbn [String.length];
    rewrite Nat.sub_succ, Nat.sub_0_r;
    rewrite decimal_value_acc by apply uint_all_digits;
    pose proof (decimal_value_nonneg (NilEmpty.string_of_uint l) 0 ltac:(lia));
    pose proof (Z.pow_pos_nonneg 10
                  (Z.of_nat (String.length (NilEmpty.string_of_uint l)))
                  ltac:(lia) ltac:(lia));
    nia.
Qed.

Lemma to_uint_normal (n : N) : unorm (N.to_uint n) = N.to_uint n.
Proof.
  rewrite <- (DecimalN.Unsigned.of_to n) at 2.
  now rewrite DecimalN.Unsigned.to_of.
Qed.

Lemma digits_length (n : Z) (k : nat) :
  (0 <= n < 10 ^ Z.of_nat k)%Z -> 1 <= k -> String.length (F64.digits n) <= k.
Proof.
  intros Hn Hk. destruct (digits_spec n ltac:(lia)) as (_ & _ & Hval).
  unfold F64.digits in *.
  pose proof (to_uint_normal (Z.to_N n)) as Hnorm.
  set (d := N.to_uint (Z.to_N n)) in *.
  unfold unorm in Hnorm. destruct (nzhead d) as [|l|l|l|l|l|l|l|l|l|l] eqn:Hhead.
  { rewrite <- Hnorm. cbn. exact Hk. }
  { now contradiction (DecimalFacts.nzhead_nonzero d l). }
  all: assert (Hd : NilZero.string_of_uint d = NilEmpty.string_of_uint d)
         by (rewrite <- Hnorm; reflexivity);
       rewrite Hd in *;
       assert (Hlow : (10 ^ Z.of_nat
                         (String.length (NilEmpty.string_of_uint d) - 1)
                       <= decimal_value (NilEmpty.string_of_uint d) 0)%Z)
         by (apply uint_head_value; rewrite <- Hnorm; discriminate);
       assert (Hlt : (Z.of_nat (String.length (NilEmpty.string_of_uint d) - 1)
                      < Z.of_nat k)%Z)
         by (apply (Z.pow_lt_mono_r_iff 10); lia);
       lia.
Qed.

Lemma zeros_spec (j : nat) :
  all_digits (F64.zeros j) = true
  /\ String.length (F64.zeros j) = j
  /\ forall acc, decimal_value (F64.zeros j) acc = (acc * 10 ^ Z.of_nat j)%Z.
Proof.
  induction j as [|j (Hall & Hlen & Hval)].
  - repeat split. intros acc. cbn. lia.
  - cbn [F64.zeros]. split; [|split].
    + digit_by_computation. exact Hall.
    + cbn [String.length]. now rewrite Hlen.
    + intros acc. digit_by_computation. rewrite Hval, Nat2Z.inj_succ.
      rewrite Z.pow_succ_r by lia. ring.
Qed.

Lemma drop_zeros_spec (t : string) :
  all_digits t = true ->
  all_digits (F64.drop_zeros t) = true
  /\ String.length (F64.drop_zeros t) <= String.length t
  /\ forall acc,
       (decimal_value (F64.drop_zeros t) acc
        * 10 ^ Z.of_nat (String.length t - String.length (F64.drop_zeros t))
        = decimal_value t acc)%Z.
Proof.
  induction t as [|c t IH]; intros Ht.
  { split; [reflexivity|]. split; [cbn; lia|]. intros acc. cbn. lia. }
  cbn [all_digits] in Ht. destruct (F64.digit_of c) as [d|] eqn:Hd; [|discriminate].
  destruct (IH Ht) as (Hall & Hlen & Hval). clear IH.
  cbn [F64.drop_zeros]. destruct (F64.drop_zeros t) as [|y r] eqn:Hdrop.
  - destruct (Ascii.eqb_spec c "0"%char) as [->|Hc].
    + split; [reflexivity|]. split; [cbn; lia|]. intros acc.
      injection Hd as <-. cbn [String.length decimal_value].
      change (F64.digit_of "0") with (Some 0%Z). cbv iota.
      rewrite <- Hval. cbn [decimal_value String.length].
      rewrite !Nat.sub_0_r, Nat2Z.inj_succ, Z.pow_succ_r by lia. ring.
    + split; [cbn [all_digits]; now rewrite Hd|].
      split; [cbn [String.length]; lia|]. intros acc.
      cbn [String.length decimal_value]. rewrite Hd.
      rewrite <- Hval. cbn [decimal_value String.length].
      now rewrite Nat.sub_succ, !Nat.sub_0_r.
  - split; [cbn [all_digits]; now rewrite Hd|].
    split; [cbn [String.length] in *; lia|]. intros acc.
    cbn [decimal_value]. rewrite Hd. rewrite <- Hval.
    cbn [String.length]. now rewrite Nat.sub_succ.
Qed.

(** *** Text without white space *)

Lemma plain_rstrip s : plain s = true -> Py.rstrip s = s.
Proof.
  induction s as [|c s IH]; [reflexivity|]. cbn [plain Py.rstrip].
  intros [Hc Hs]%andb_true_iff. rewrite (IH Hs).
  destruct s; [|reflexivity]. apply negb_true_iff in Hc. now rewrite Hc.
Qed.

Lemma plain_strip s : plain s = true -> Py.strip s = s.
Proof.
  intros Hs. unfold Py.strip.
  assert (Hl : Py.lstrip s = s).
  { destruct s as [|c s]; [reflexivity|]. cbn [plain] in Hs.
    apply andb_true_iff in Hs as [Hc _]. apply negb_true_iff in Hc.
    cbn [Py.lstrip]. now rewrite Hc. }
  rewrite Hl. now apply plain_rstrip.
Qed.

Lemma plain_occurs s : plain s = true -> occurs "010"%char s = false.
Proof.
  induction s as [|c s IH]; [reflexivity|]. cbn [plain occurs].
  intros [Hc Hs]%andb_true_iff. rewrite (IH Hs), orb_false_r.
  destruct (Ascii.eqb_spec c "010"%char) as [->|]; [discriminate | reflexivity].
Qed.

Lemma plain_contains d s :
  d <> EmptyString -> all_space d = true -> plain s = true ->
  contains d s = false.
Proof.
  intros Hd Hspace. destruct d as [|a d]; [congruence|].
  cbn [all_space] in Hspace. apply andb_true_iff in Hspace as [Ha _].
  induction s as [|c s IH]; [reflexivity|]. cbn [plain contains].
  intros [Hc Hs]%andb_true_iff. rewrite (IH Hs), orb_false_r.
  cbn [String.prefix]. destruct (ascii_dec a c) as [->|]; [|reflexivity].
  apply negb_true_iff in Hc. congruence.
Qed.

Lemma plain_field delimiter s :
  white_delimiter delimiter -> s <> EmptyString -> plain s = true ->
  field delimiter s.
Proof.
  intros (Hd & Hspace & _) Hs Hplain. split; [exact Hs|].
  split; [now apply plain_strip|].
  split; [now apply plain_contains | now apply plain_occurs].
Qed.

(** *** Reading a decimal text *)

Lemma digit_first c d rest :
  F64.digit_of c = Some d ->
  F64.read_sign (String c rest) = (false, String c rest)
  /\ String.eqb (Py.lowercase (String c rest)) "inf" = false
  /\ String.eqb (Py.lowercase (String c rest)) "infinity" = false
  /\ String.eqb (Py.lowercase (String c rest)) "nan" = false.
Proof.
  destruct c as [[] [] [] [] [] [] [] []]; intros Hd;
    try (vm_compute in Hd; discriminate); repeat split.
Qed.

Lemma of_string_decimal (sign : bool) (text ip fp : string) :
  Py.strip text = text ->
  F64.read_sign text = (sign, ip +:+ "." +:+ fp) ->
  all_digits ip = true -> ip <> EmptyString -> all_digits fp = true ->
  F64.of_string text
  = Some (F64.of_decimal sign (decimal_value fp (decimal_value ip 0))
                         (0 - Z.of_nat (String.length fp))).
Proof.
  intros Hstrip Hsign Hip Hne Hfp. unfold F64.of_string.
  rewrite Hstrip, Hsign.
  destruct ip as [|c ip']; [congruence|]. rewrite append_cons.
  cbn [all_digits] in Hip.
  destruct (F64.digit_of c) as [d|] eqn:Hd; [|discriminate].
  destruct (digit_first c d (ip' +:+ "." +:+ fp) Hd) as (_ & H1 & H2 & H3).
  rewrite H1, H2, H3. cbn [orb].
  rewrite <- append_cons.
  rewrite read_digits_app by (cbn [all_digits]; now rewrite Hd).
  rewrite append_cons, append_nil_l.
  cbn [F64.read_digits].
  change (F64.digit_of ".") with (@None Z). cbv iota.
  rewrite read_digits_all by assumption.
  cbn [String.length Nat.add F64.read_exponent]. reflexivity.
Qed.

(** *** The exact decimal text of a double *)

(** The fraction [to_decimal] writes for [F] out of [10 ^ K]. *)
Lemma fraction_text (F : Z) (K : nat) :
  (0 <= F < 10 ^ Z.of_nat K)%Z -> 1 <= K ->
  let frac := F64.zeros (K - String.length (F64.digits F)) +:+ F64.digits F in
  exists fp,
    match F64.drop_zeros frac with EmptyString => "0" | r => r end = fp
    /\ all_digits fp = true
    /\ 1 <= String.length fp <= K
    /\ forall acc,
         (decimal_value fp acc * 10 ^ Z.of_nat (K - String.length fp)
          = acc * 10 ^ Z.of_nat K + F)%Z.
Proof.
  intros HF HK frac.
  destruct (digits_spec F ltac:(lia)) as (Hall & _ & Hval).
  pose proof (digits_length F K HF HK) as Hlen.
  destruct (zeros_spec (K - String.length (F64.digits F))) as (Hz & Hzl & Hzv).
  assert (Hfrac : all_digits frac = true)
    by (unfold frac; now rewrite all_digits_app, Hz, Hall).
  assert (Hfl : String.length frac = K)
    by (unfold frac; rewrite append_length, Hzl; lia).
  assert (Hfv : forall acc,
            decimal_value frac acc = (acc * 10 ^ Z.of_nat K + F)%Z).
  { intros acc. unfold frac. rewrite decimal_value_app, Hzv by assumption.
    rewrite decimal_value_acc, Hval by assumption.
    rewrite <- Z.mul_assoc, <- Z.pow_add_r by lia.
    replace (Z.of_nat (K - String.length (F64.digits F))
             + Z.of_nat (String.length (F64.digits F)))%Z
      with (Z.of_nat K) by lia.
    reflexivity. }
  destruct (drop_zeros_spec frac Hfrac) as (Hdall & Hdlen & Hdval).
  rewrite Hfl in Hdlen, Hdval.
  destruct (F64.drop_zeros frac) as [|y r] eqn:Hdrop.
  - exists "0". split; [reflexivity|]. split; [reflexivity|].
    split; [cbn; lia|]. intros acc.
    pose proof (Hdval acc) as H0. rewrite Hfv in H0.
    cbn [decimal_value String.length] in H0 |- *.
    change (F64.digit_of "0") with (Some 0%Z). cbv iota.
    rewrite Nat.sub_0_r in H0.
    assert (E : (10 ^ Z.of_nat K = 10 * 10 ^ Z.of_nat (K - 1))%Z).
    { rewrite <- Z.pow_succ_r by lia. f_equal. lia. }
    assert (HF0 : F = 0%Z) by lia.
    rewrite HF0, E. ring.
  - exists (String y r). split; [reflexivity|]. split; [exact Hdall|].
    split; [cbn [String.length] in *; lia|]. intros acc.
    now rewrite Hdval, Hfv.
Qed.

Lemma to_decimal_text (s : bool) (m : positive) (e : Z) :
  exists ip fp (M k : positive),
    F64.to_decimal (S754_finite s m e)
    = (if s then "-" else EmptyString) +:+ ip +:+ "." +:+ fp
    /\ all_digits ip = true /\ ip <> EmptyString /\ all_digits fp = true
    /\ decimal_value fp (decimal_value ip 0) = Zpos M
    /\ (0 - Z.of_nat (String.length fp))%Z = Zneg k
    /\ (Zpos M * 2 ^ Z.max 0 (- e)
        = Zpos m * 10 ^ Zpos k * 2 ^ Z.max 0 e)%Z.
Proof.
  destruct e as [|p|p].
  - destruct (digits_spec (Zpos m * 2 ^ 0) ltac:(lia)) as (Hall & Hne & Hval).
    exists (F64.digits (Zpos m * 2 ^ 0)), "0", (10 * m)%positive, 1%positive.
    split; [reflexivity|]. split; [exact Hall|]. split; [exact Hne|].
    split; [reflexivity|]. split; [|split; [reflexivity|]].
    + cbn [decimal_value]. change (F64.digit_of "0") with (Some 0%Z). cbv iota.
      rewrite Hval. lia.
    + change (Z.max 0 (- 0)) with 0%Z. change (Z.max 0 0) with 0%Z.
      rewrite Z.pow_0_r, Z.pow_1_r. lia.
  - assert (Hpos : (0 < Zpos m * 2 ^ Zpos p)%Z) by lia.
    destruct (Zpos m * 2 ^ Zpos p)%Z as [|I|I] eqn:HI; [lia | | lia].
    destruct (digits_spec (Zpos I) ltac:(lia)) as (Hall & Hne & Hval).
    exists (F64.digits (Zpos I)), "0", (10 * I)%positive, 1%positive.
    split; [cbn [F64.to_decimal]; now rewrite HI|].
    split; [exact Hall|]. split; [exact Hne|].
    split; [reflexivity|]. split; [|split; [reflexivity|]].
    + cbn [decimal_value]. change (F64.digit_of "0") with (Some 0%Z). cbv iota.
      rewrite Hval. lia.
    + rewrite Z.max_l, Z.max_r, Z.pow_0_r, Z.pow_1_r by lia.
      rewrite Pos2Z.inj_mul, <- HI. ring.
  - cbn [F64.to_decimal].
    change (Z.pow_pos 5 p) with (5 ^ Zpos p)%Z.
    change (Z.pow_pos 10 p) with (10 ^ Zpos p)%Z.
    set (scaled := (Zpos m * 5 ^ Zpos p)%Z).
    set (unit := (10 ^ Zpos p)%Z).
    assert (Hunit : (0 < unit)%Z) by (unfold unit; lia).
    assert (Hscaled : (0 < scaled)%Z) by (unfold scaled; lia).
    pose proof (Z.div_mod scaled unit ltac:(lia)) as Hdm.
    pose proof (Z.mod_pos_bound scaled unit Hunit) as HF.
    assert (HI : (0 <= scaled / unit)%Z) by (apply Z.div_pos; lia).
    set (F := (scaled mod unit)%Z) in *. set (I := (scaled / unit)%Z) in *.
    assert (HK : Z.of_nat (Pos.to_nat p) = Zpos p) by apply positive_nat_Z.
    destruct (fraction_text F (Pos.to_nat p)) as (fp & -> & Hfp & Hlen & Hfv).
    { rewrite HK. exact HF. }
    { lia. }
    destruct (digits_spec I HI) as (Hall & Hne & Hval).
    specialize (Hfv I). rewrite HK in Hfv.
    set (nf := String.length fp) in *.
    set (V := decimal_value fp I) in *.
    assert (Hshift : (0 < 10 ^ Z.of_nat (Pos.to_nat p - nf))%Z) by lia.
    assert (HV : (V * 10 ^ Z.of_nat (Pos.to_nat p - nf) = scaled)%Z).
    { subst V. rewrite Hfv. fold unit. lia. }
    assert (HVpos : (0 < V)%Z) by nia.
    destruct V as [|M|M] eqn:EV; [lia | | lia].
    exists (F64.digits I), fp, M, (Pos.of_nat nf).
    split; [reflexivity|]. split; [exact Hall|]. split; [exact Hne|].
    split; [exact Hfp|]. split; [rewrite Hval; exact EV|].
    assert (Hk : Zpos (Pos.of_nat nf) = Z.of_nat nf).
    { rewrite <- (Nat2Pos.id nf) at 2 by lia. now rewrite positive_nat_Z. }
    split; [lia|].
    rewrite Z.max_r, Z.max_l, Z.pow_0_r, Z.mul_1_r, Hk by lia.
    change (- Zneg p)%Z with (Zpos p).
    apply (Z.mul_reg_r _ _ (10 ^ Z.of_nat (Pos.to_nat p - nf))%Z); [lia|].
    rewrite <- (Z.mul_assoc (Zpos m)), <- Z.pow_add_r by lia.
    replace (Z.of_nat nf + Z.of_nat (Pos.to_nat p - nf))%Z with (Zpos p) by lia.
    replace (Zpos M * 2 ^ Zpos p * 10 ^ Z.of_nat (Pos.to_nat p - nf))%Z
      with (Zpos M * 10 ^ Z.of_nat (Pos.to_nat p - nf) * 2 ^ Zpos p)%Z by ring.
    rewrite HV. unfold scaled.
    replace 10%Z with (5 * 2)%Z at 1 by reflexivity.
    rewrite Z.pow_mul_l. ring.
Qed.

Lemma to_decimal_reads_back (x : float) :
  finite_double x ->
  plain (F64.to_decimal x) = true
  /\ F64.to_decimal x <> EmptyString
  /\ F64.of_string (F64.to_decimal x) = Some x.
Proof.
  intros [Hfin Hvalid].
  destruct x as [s|s| |s m e]; try discriminate.
  { destruct s; repeat split; discriminate. }
  cbn [valid_binary] in Hvalid.
  destruct (to_decimal_text s m e)
    as (ip & fp & M & k & -> & Hip & Hne & Hfp & HM & Hk & Hval).
  assert (Hplain : plain ((if s then "-" else EmptyString)
                          +:+ ip +:+ "." +:+ fp) = true).
  { rewrite !plain_app, (all_digits_plain ip), (all_digits_plain fp)
      by assumption. now destruct s. }
  split; [exact Hplain|]. split.
  { destruct s; [discriminate|]. rewrite append_nil_l.
    destruct ip; [congruence | discriminate]. }
  rewrite (of_string_decimal s _ ip fp).
  - rewrite HM, Hk. f_equal. now apply of_decimal_exact.
  - now apply plain_strip.
  - destruct s; [reflexivity|]. rewrite append_nil_l.
    destruct ip as [|c ip']; [congruence|]. rewrite append_cons.
    cbn [all_digits] in Hip.
    destruct (F64.digit_of c) as [d|] eqn:Hd; [|discriminate].
    now destruct (digit_first c d (ip' +:+ "." +:+ fp) Hd) as (-> & _).
  - exact Hip.
  - exact Hne.
  - exact Hfp.
Qed.

(** The exact decimal text carries every finite double. *)
Lemma to_decimal_faithful (delimiter : string) (x : float) :
  white_delimiter delimiter -> finite_double x ->
  faithful F64.to_decimal delimiter x.
Proof.
  intros Hd Hx. destruct (to_decimal_reads_back x Hx) as (Hplain & Hne & Hread).
  split; [now apply plain_field | exact Hread].
Qed.

Section RoundTrip.

Variable astype_str : float -> string.
Variable delimiter : string.

Lemma to_file_rows_text rows out_f :
  fold_left
    (fun out_f '(sid, vals) =>
       let out_f := out_f +:+ sid in
       let out_f := out_f +:+ delimiter in
       let out_f := out_f +:+ Py.join delimiter (astype_str <$> vals) in
       out_f +:+ Py.LF)
    rows out_f
  = out_f +:+ text_of (row_text astype_str delimiter <$> rows).
Proof.
  revert out_f. induction rows as [|[sid vals] rows IH]; intros out_f.
  - simpl. now rewrite append_nil_r.
  - cbn [fold_left]. rewrite IH, fmap_cons. cbn [text_of fold_right].
    unfold row_text. cbn [fst snd]. now rewrite !append_assoc.
Qed.

(** What [to_file] writes to an empty stream: the header line, then one
    line for each label and its row. *)
Lemma to_file_text (M : DistanceMatrix) :
  to_file astype_str M EmptyString delimiter
  = text_of (Py.join delimiter (EmptyString :: sample_ids M)
             :: (row_text astype_str delimiter
                   <$> zip (sample_ids M) (Np.iter (data M)))).
Proof.
  unfold to_file, _format_sample_ids.
  rewrite to_file_rows_text. simpl. now rewrite !append_assoc.
Qed.

Lemma row_text_join sid vals :
  vals <> [] ->
  row_text astype_str delimiter (sid, vals)
  = Py.join delimiter (sid :: (astype_str <$> vals)).
Proof.
  intros Hv. unfold row_text. cbn [fst snd]. symmetry. apply join_cons.
  now destruct vals.
Qed.

Lemma asarray_faithful vals :
  Forall (faithful astype_str delimiter) vals ->
  asarray_float (astype_str <$> vals) = Ok vals.
Proof.
  induction 1 as [|x vals [_ Hx] _ IH]; [reflexivity|].
  rewrite fmap_cons. cbn [asarray_float]. now rewrite Hx, IH.
Qed.

Lemma faithful_fields vals :
  Forall (faithful astype_str delimiter) vals ->
  Forall (field delimiter) (astype_str <$> vals).
Proof.
  intros Hall. apply Forall_fmap. eapply Forall_impl; [exact Hall|].
  now intros x [Hx _].
Qed.

Lemma startswith_join s fields p :
  s <> EmptyString ->
  Py.startswith (Py.join delimiter (s :: fields)) (String p EmptyString)
  = Py.startswith s (String p EmptyString).
Proof.
  intros Hs. destruct s as [|x s]; [congruence|].
  destruct fields as [|t fields]; [reflexivity|].
  rewrite join_cons by discriminate. rewrite append_cons.
  unfold Py.startswith. now rewrite !prefix_cons, !prefix_nil.
Qed.

Hypothesis delimiter_white : white_delimiter delimiter.

(** *** The header line *)

Lemma header_strip ids :
  ids <> [] -> Forall (field delimiter) ids ->
  Py.strip (Py.join delimiter (EmptyString :: ids) +:+ Py.LF)
  = Py.join delimiter ids.
Proof.
  intros Hne Hall. destruct delimiter_white as (_ & Hspace & Hlf).
  rewrite join_cons by assumption.
  destruct (join_field delimiter ids Hlf Hne Hall) as (Hj & Hs & _).
  rewrite append_nil_l, append_assoc. unfold Py.strip.
  rewrite lstrip_all_space by assumption.
  exact (strip_line _ Hj Hs).
Qed.

Lemma header_found ids rest :
  Forall (field delimiter) ids ->
  (exists first others,
      ids = first :: others /\ Py.startswith first "#" = false) ->
  _parse_sample_ids
    ((Py.join delimiter (EmptyString :: ids) +:+ Py.LF) :: rest) delimiter
  = Ok (ids, rest).
Proof.
  intros Hall (first & others & -> & Hfirst).
  pose proof delimiter_white as (Hne & Hspace & Hlf).
  unfold _parse_sample_ids. cbn [find_header].
  rewrite header_strip by (assumption || discriminate).
  destruct (join_field delimiter (first :: others) Hlf) as (Hj & _);
    [discriminate | assumption |].
  apply truthy_true in Hj. rewrite Hj.
  pose proof (Forall_inv Hall) as (Hfirst' & _).
  rewrite startswith_join, Hfirst by assumption. cbn [negb andb].
  rewrite split_ok by assumption.
  rewrite split_join; [reflexivity | assumption .. | discriminate | assumption].
Qed.

Lemma header_no_lf ids :
  ids <> [] -> Forall (field delimiter) ids ->
  occurs "010"%char (Py.join delimiter (EmptyString :: ids)) = false.
Proof.
  intros Hne Hall. destruct delimiter_white as (_ & _ & Hlf).
  rewrite join_cons by assumption.
  destruct (join_field delimiter ids Hlf Hne Hall) as (_ & _ & Hj).
  now rewrite !occurs_app, Hj, Hlf.
Qed.

(** *** The data lines *)

Lemma row_strip sid vals :
  field delimiter sid -> vals <> [] ->
  Forall (faithful astype_str delimiter) vals ->
  Py.strip (row_text astype_str delimiter (sid, vals) +:+ Py.LF)
  = row_text astype_str delimiter (sid, vals)
  /\ row_text astype_str delimiter (sid, vals) <> EmptyString
  /\ split (row_text astype_str delimiter (sid, vals)) delimiter
     = Ok (sid :: (astype_str <$> vals))
  /\ occurs "010"%char (row_text astype_str delimiter (sid, vals)) = false.
Proof.
  intros Hsid Hne Hvals. pose proof delimiter_white as (Hd & Hspace & Hlf).
  rewrite row_text_join by assumption.
  assert (Hall : Forall (field delimiter) (sid :: (astype_str <$> vals)))
    by (constructor; [assumption | now apply faithful_fields]).
  assert (Hcons : sid :: (astype_str <$> vals) <> []) by discriminate.
  destruct (join_field delimiter _ Hlf Hcons Hall) as (Hj & Hs & Hjlf).
  split; [now apply strip_line|]. split; [assumption|].
  split; [|assumption].
  rewrite split_ok by assumption. now rewrite split_join.
Qed.

(** The loop of [from_file] over the lines [to_file] wrote for [rows],
    entered at row [k]. *)
Lemma rows_loop ids n rows :
  length ids = n -> 0 < n ->
  forall k data,
    (forall j sid vals, rows !! j = Some (sid, vals) ->
       ids !! (k + j) = Some sid /\ length vals = n
       /\ field delimiter sid
       /\ Forall (faithful astype_str delimiter) vals) ->
    from_file_rows ids delimiter
      ((fun line => line +:+ Py.LF)
         <$> (row_text astype_str delimiter <$> rows)) data k
    = Ok (fill data k rows.*2, k + length rows).
Proof.
  intros Hids Hn. induction rows as [|[sid vals] rows IH]; intros k data Hrows.
  - simpl. now rewrite Nat.add_0_r.
  - destruct (Hrows 0 sid vals eq_refl) as (Hk & Hlen & Hsid & Hvals).
    rewrite Nat.add_0_r in Hk.
    assert (Hne : vals <> [])
      by (destruct vals; [simpl in Hlen; lia | discriminate]).
    destruct (row_strip sid vals Hsid Hne Hvals)
      as (Hstrip & Htext & Hsplit & _).
    rewrite !fmap_cons. cbn [from_file_rows]. rewrite Hstrip.
    apply truthy_true in Htext. rewrite Htext. cbn [negb].
    unfold from_file_row. rewrite Hsplit.
    apply lookup_lt_Some in Hk as Hlt. rewrite Hids in Hlt.
    apply Nat.leb_gt in Hlt as Hleb. rewrite Hids, Hleb. simpl.
    rewrite length_fmap, Hlen, Nat.add_1_r, Nat.eqb_refl. simpl.
    rewrite Hk, String.eqb_refl, asarray_faithful by assumption. simpl.
    rewrite IH.
    + f_equal. f_equal. lia.
    + intros j sid' vals' Hj. specialize (Hrows (S j) sid' vals' Hj).
      now replace (k + 1 + j) with (k + S j) by lia.
Qed.

(** What the module relies on numpy for when it writes: the text of a
    finite double is a field, and reads back as the same double. *)
Hypothesis astype_str_faithful :
  forall x, finite_double x -> faithful astype_str delimiter x.


End RoundTrip.

(** ** The example of the docstring *)

Lemma example_matrix_constructed : constructed example_matrix.
Proof. exists example_buffer, ["a"; "b"]. vm_compute. reflexivity. Qed.

(** C7.  The three lines of the example parse, with the tab as delimiter,
    to the 2 by 2 matrix labelled [a], [b] whose buffer is [[0, 1], [1, 0]]. *)
Theorem from_file_example :
  from_file (Py.readlines example_text) Py.TAB
  = Ok {| _data := {| shape := [2; 2];
                      flat := [F64.zero; F64.one; F64.one; F64.zero] |};
          _sample_ids := ["a"; "b"];
          _sample_index := _index_list ["a"; "b"] |}.
Proof.
  assert (Hlines : Py.readlines example_text =
            [Py.TAB +:+ "a" +:+ Py.TAB +:+ "b" +:+ Py.LF;
             "a" +:+ Py.TAB +:+ "0.0" +:+ Py.TAB +:+ "1.0" +:+ Py.LF;
             "b" +:+ Py.TAB +:+ "1.0" +:+ Py.TAB +:+ "0.0" +:+ Py.LF])
    by reflexivity.
  rewrite Hlines.
  assert (Hheader : forall rest,
            _parse_sample_ids
              ((Py.TAB +:+ "a" +:+ Py.TAB +:+ "b" +:+ Py.LF) :: rest) Py.TAB
            = Ok (["a"; "b"], rest)) by reflexivity.
  rewrite (from_file_unfold _ _ _ _ (Hheader _)).
  assert (Hrows :
            from_file_rows ["a"; "b"] Py.TAB
              ["a" +:+ Py.TAB +:+ "0.0" +:+ Py.TAB +:+ "1.0" +:+ Py.LF;
               "b" +:+ Py.TAB +:+ "1.0" +:+ Py.TAB +:+ "0.0" +:+ Py.LF]
              (Np.empty [2; 2]) 0
            = Ok (example_buffer, 2)) by (vm_compute; reflexivity).
  cbn [length]. rewrite Hrows. cbn [mbind result_bind Nat.eqb negb].
  apply init_ok. split; [|reflexivity].
  apply validate_ok. split; [|split; [|split]].
  - cbn [shape example_buffer]. rewrite !elem_of_cons, elem_of_nil. lia.
  - apply NoDup_cons. split; [|apply NoDup_singleton].
    rewrite elem_of_cons, elem_of_nil. intuition discriminate.
  - apply is_valid_dm_spec; [|reflexivity].
    cbn [shape example_buffer]. rewrite !elem_of_cons, elem_of_nil. lia.
  - reflexivity.
Qed.

(** ** What the text format cannot carry *)


Lemma readlines_head x s :
  Ascii.eqb x "010"%char = false ->
  exists line lines, Py.readlines (String x s) = String x line :: lines.
Proof.
  intros Hx. cbn [Py.readlines]. rewrite Hx.
  destruct (Py.readlines s); eauto.
Qed.

Lemma rstrip_head x s :
  Py.isspace x = false -> Py.rstrip (String x s) = String x (Py.rstrip s).
Proof. intros Hx. cbn [Py.rstrip]. destruct (Py.rstrip s); now rewrite ?Hx. Qed.

Lemma comma_lines (v : string) :
  exists line lines,
    Py.readlines (text_of [",a"; "a," +:+ v])
    = (",a" +:+ Py.LF) :: String "a" (String "," line) :: lines.
Proof.
  cbn [text_of fold_right]. rewrite (readlines_line ",a") by reflexivity.
  change ("a," +:+ v) with (String "a" (String "," v)). rewrite !append_cons.
  destruct (readlines_head "," (v +:+ Py.LF +:+ EmptyString) eq_refl)
    as (line & lines & Hline).
  exists line, lines. f_equal. cbn [Py.readlines] in Hline |- *.
  rewrite Hline. reflexivity.
Qed.

Lemma comma_split (rest : string) :
  Py.split_from "," 0 (String "a" (String "," rest))
  = "a" :: Py.split_from "," 0 rest.
Proof. cbn [Py.split_from]. rewrite !prefix_cons, !prefix_nil. reflexivity. Qed.

Lemma comma_row_refused (line : string) (lines : list string) :
  exists e,
    from_file ((",a" +:+ Py.LF) :: String "a" (String "," line) :: lines) ","
    = Raise e.
Proof.
  rewrite (from_file_unfold _ "," ["" ; "a"]
             (String "a" (String "," line) :: lines)) by reflexivity.
  assert (Hstrip : Py.strip (String "a" (String "," line))
                   = String "a" (String "," (Py.rstrip line))).
  { unfold Py.strip. cbn [Py.lstrip].
    change (Py.isspace "a") with false. cbn iota.
    now rewrite !rstrip_head by reflexivity. }
  rewrite from_file_rows_nonblank by (unfold blank; now rewrite Hstrip).
  rewrite Hstrip. unfold from_file_row. cbn [length Nat.leb].
  rewrite split_ok by discriminate.
  rewrite comma_split.
  cbn [mbind result_bind length].
  destruct (S (length _) =? 2 + 1); cbn [negb]; [|eauto].
  cbn [lookup list_lookup].
  change (("a" =? "")%string) with false. cbn iota. eauto.
Qed.

(** With a comma as delimiter the header [,a] of a 1 by 1 matrix is read as
    two labels, the empty one and [a]; whatever text the buffer gives its
    entry, the data line is then refused. *)
Lemma roundtrip_comma_raises (astype_str : float -> string) :
  exists e,
    from_file (Py.readlines (to_file astype_str unit_matrix EmptyString ","))
              "," = Raise e.
Proof.
  rewrite to_file_text.
  destruct (comma_lines (astype_str F64.zero)) as (line & lines & Hlines).
  change (Py.readlines _) with
    (Py.readlines (text_of [",a"; "a," +:+ astype_str F64.zero])).
  rewrite Hlines. apply comma_row_refused.
Qed.

(** A first label that begins with [#] makes a comment of the header, and
    of its own line: no header is found. *)
Lemma roundtrip_hash_label_raises :
  from_file (Py.readlines (to_file F64.to_decimal hashed_matrix EmptyString Py.TAB))
            Py.TAB
  = Raise MissingHeaderError.
Proof. vm_compute. reflexivity. Qed.

(** The single row the constructor lets through is written as a line of two
    entries under a header of one label, which [from_file] refuses. *)
Lemma roundtrip_single_row_raises :
  from_file
    (Py.readlines (to_file F64.to_decimal single_row_matrix EmptyString Py.TAB))
    Py.TAB
  = Raise (DistanceMatrixFormatError (row_length_message 1)).
Proof. vm_compute. reflexivity. Qed.

(** ** Shape, size, transposition, copies *)

Lemma tabulate_length r c f : length (flat (Np.tabulate r c f)) = r * c.
Proof.
  unfold Np.tabulate. cbn [flat]. generalize 0 at 2.
  induction r as [|r IH]; intros s; [reflexivity|].
  cbn [seq fmap list_fmap concat]. rewrite length_app, length_fmap, length_seq.
  cbn [fmap] in IH. rewrite IH. lia.
Qed.

Lemma constructed_shape M :
  constructed M ->
  exists cols, dm_shape M = [num_samples M; cols] /\ 1 <= cols
    /\ (cols = num_samples M \/ num_samples M = 1).
Proof.
  intros HM. apply constructed_facts in HM as (_ & (cols & Hs & Hc & Hsq) & _).
  exists cols. auto.
Qed.

Lemma set_sample_ids_count M ids' :
  constructed M -> num_samples (set_sample_ids M ids').1 = num_samples M.
Proof.
  intros HM. destruct (constructed_shape M HM) as (cols & Hs & _).
  unfold set_sample_ids.
  destruct (_validate (data M) ids') as [[]|e] eqn:Hv; [|reflexivity].
  apply validate_ok in Hv as (_ & _ & _ & Hrows).
  unfold dm_shape in Hs. rewrite Hs in Hrows. cbn in Hrows.
  injection Hrows as Hrows. unfold num_samples, sample_ids in *. cbn. congruence.
Qed.

(** X1.  An instance has at least one sample and as many rows; with two
    samples or more it is square, its shape the number of samples twice and
    its size the square of that number; with one sample it is a single row,
    of one entry or of more, and its size is the length of the row.
    Assigning labels, accepted or refused, leaves the number of samples as
    it is. *)
Theorem shape_of_instance (M : DistanceMatrix) :
  constructed M ->
  1 <= num_samples M
  /\ (exists cols, dm_shape M = [num_samples M; cols] /\ 1 <= cols
        /\ (cols = num_samples M \/ num_samples M = 1)
        /\ size M = num_samples M * cols)
  /\ (2 <= num_samples M ->
      dm_shape M = [num_samples M; num_samples M]
      /\ size M = num_samples M * num_samples M)
  /\ forall ids', num_samples (set_sample_ids M ids').1 = num_samples M.
Proof.
  intros HM. pose proof (constructed_facts M HM) as (_ & _ & _ & Hn).
  assert (Hsize : forall cols, dm_shape M = [num_samples M; cols] ->
                    size M = num_samples M * cols).
  { intros cols Hs. unfold size, ndarray_size, Np.product.
    unfold dm_shape in Hs. rewrite Hs. cbn. lia. }
  split; [exact Hn|]. split; [|split].
  - destruct (constructed_shape M HM) as (cols & Hs & Hc & Hsq).
    exists cols. auto.
  - intros H2. pose proof (constructed_square M HM H2) as Hs. auto.
  - intros ids'. now apply set_sample_ids_count.
Qed.

(** A square array with the structure is symmetric. *)
Lemma structure_square D n :
  distance_structure D -> shape D = [n; n] ->
  forall i j, i < n -> j < n ->
    F64.eqb (Np.item D n i j) (Np.item D n j i) = true.
Proof.
  intros [(n' & Hs' & Hsym & _)|(cols & Hs' & Hsym & _)] Hs;
    rewrite Hs in Hs'; injection Hs' as Hrows Hcols; subst.
  - exact Hsym.
  - intros i j Hi Hj. replace i with 0 by lia. replace j with 0 by lia.
    apply Hsym; lia.
Qed.

Lemma transpose_equal (a : ndarray) n :
  shape a = [n; n] -> Np.well_formed a ->
  (forall i j, i < n -> j < n ->
     F64.eqb (Np.item a n i j) (Np.item a n j i) = true) ->
  Np.array_equal (Np.transpose a) a = true.
Proof.
  intros Hs Hwf Hsym. apply array_equal_spec.
  unfold Np.transpose. rewrite Hs. split; [reflexivity|].
  assert (Hlen : length (flat a) = n * n).
  { unfold Np.well_formed, Np.product in Hwf. rewrite Hs in Hwf.
    cbn in Hwf. lia. }
  apply Forall2_same_length_lookup. split.
  - now rewrite tabulate_length.
  - intros k x y Hx Hy. apply lookup_lt_Some in Hy as Hk. rewrite Hlen in Hk.
    assert (Hn : n <> 0) by lia.
    assert (Hi : k / n < n) by (apply Nat.Div0.div_lt_upper_bound; lia).
    assert (Hj : k mod n < n) by now apply Nat.mod_upper_bound.
    assert (Hk' : k = k / n * n + k mod n).
    { rewrite (Nat.div_mod_eq k n) at 1. lia. }
    rewrite Hk' in Hx, Hy. unfold Np.tabulate in Hx. cbn [flat] in Hx.
    rewrite (tabulate_lookup_from _ n 0 n) in Hx by assumption.
    rewrite (item_lookup a n) in Hy by assumption.
    injection Hx as <-. injection Hy as <-. cbn [Nat.add]. now apply Hsym.
Qed.

(** X2.  [M.T] and [M.transpose()] are [M] itself.  The transposed buffer
    equals the buffer, element by element, exactly when the instance is
    square, as every instance with two samples or more is. *)
Theorem transpose_is_noop (M : DistanceMatrix) :
  constructed M -> Np.well_formed (data M) ->
  T M = M /\ transpose M = M
  /\ (Np.array_equal (Np.transpose (data (T M))) (data M) = true <->
      dm_shape M = [num_samples M; num_samples M])
  /\ (2 <= num_samples M ->
      Np.array_equal (Np.transpose (data (T M))) (data M) = true).
Proof.
  intros HM Hwf. split; [reflexivity|]. split; [reflexivity|].
  pose proof (constructed_facts M HM) as (_ & (cols & Hs & _) & Hstruct & _).
  assert (Hsquare : dm_shape M = [num_samples M; num_samples M] ->
            Np.array_equal (Np.transpose (data (T M))) (data M) = true).
  { intros Hsq. apply (transpose_equal (data M) (num_samples M));
      [exact Hsq | exact Hwf | now apply structure_square]. }
  split; [split; [|exact Hsquare]|].
  - intros Heq. apply array_equal_spec in Heq as [Heq _].
    change (data (T M)) with (data M) in Heq.
    unfold Np.transpose in Heq. unfold dm_shape, num_samples.
    rewrite !Hs in Heq. cbn [shape Np.tabulate] in Heq.
    injection Heq as Hcols _. rewrite Hs. now rewrite Hcols.
  - intros H2. apply Hsquare, constructed_square; assumption.
Qed.

(** *** Equality among instances *)

Lemma eqb_true x y :
  F64.eqb x y = true <->
  (F64.is_nan x = false /\ x = y)
  \/ (exists s t, x = S754_zero s /\ y = S754_zero t).
Proof.
  split.
  - destruct x as [s|s| |s m e], y as [t|t| |t m' e']; cbn;
      try discriminate; try (destruct s; discriminate);
      try (destruct t; discriminate).
    + intros _. right. eauto.
    + destruct s, t; try discriminate; auto.
    + unfold F64.eqb, SFeqb. cbn.
      destruct s, t; try discriminate;
        (destruct (e ?= e')%Z eqn:He; try discriminate;
         destruct (Pos.compare_cont Eq m m') eqn:Hm; try discriminate;
         intros _; apply Z.compare_eq in He; apply Pos.compare_eq in Hm;
         subst; auto).
  - intros [[Hnan <-] | (s & t & -> & ->)]; [now apply eqb_refl | reflexivity].
Qed.

Lemma eqb_sym x y : F64.eqb x y = F64.eqb y x.
Proof.
  destruct (F64.eqb x y) eqn:Hxy, (F64.eqb y x) eqn:Hyx; try reflexivity.
  - apply eqb_true in Hxy as [[Hnan <-] | (s & t & -> & ->)];
      [now rewrite eqb_refl in Hyx | discriminate].
  - apply eqb_true in Hyx as [[Hnan <-] | (s & t & -> & ->)];
      [now rewrite eqb_refl in Hxy | discriminate].
Qed.

Lemma eqb_trans x y z :
  F64.eqb x y = true -> F64.eqb y z = true -> F64.eqb x z = true.
Proof.
  rewrite !eqb_true.
  intros [[Hx <-] | (s & t & -> & ->)] [[Hy <-] | (s' & t' & Hs & ->)]; eauto.
Qed.

Lemma all_eqb_sym xs ys : Np.all_eqb xs ys = Np.all_eqb ys xs.
Proof.
  revert ys. induction xs as [|x xs IH]; intros [|y ys]; try reflexivity.
  cbn. now rewrite eqb_sym, IH.
Qed.

Lemma all_eqb_trans xs ys zs :
  Np.all_eqb xs ys = true -> Np.all_eqb ys zs = true ->
  Np.all_eqb xs zs = true.
Proof.
  revert ys zs. induction xs as [|x xs IH]; intros [|y ys] [|z zs]; cbn;
    try discriminate; try reflexivity.
  rewrite !andb_true_iff. intros [Hxy Hxs] [Hyz Hys].
  split; [now apply (eqb_trans x y z) | now apply (IH ys)].
Qed.

Lemma decide_eq_sym {A : Type} `{EqDecision A} (x y : A) :
  bool_decide (x = y) = bool_decide (y = x).
Proof. apply bool_decide_ext. split; congruence. Qed.

Lemma eq_instances a b :
  __eq__ a (as_object b) =
  Ok (bool_decide (dm_shape a = dm_shape b)
      && bool_decide (sample_ids a = sample_ids b)
      && Np.array_equal (data a) (data b)).
Proof.
  rewrite eq_unfold. unfold shape_test, sample_ids_test, data_test.
  cbn [as_object getattr_shape getattr_sample_ids getattr_data
       mbind result_bind ne not_array_equal].
  do 2 (case_bool_decide; cbn [negb andb]; [|reflexivity]).
  now rewrite negb_involutive.
Qed.

Lemma eq_reflexive M :
  constructed M -> Np.well_formed (data M) -> __eq__ M (as_object M) = Ok true.
Proof.
  intros HM Hwf.
  apply (eq_native_iff M (as_object M) _ _ _ eq_refl eq_refl eq_refl).
  split; [reflexivity|]. split; [reflexivity|]. split; [reflexivity|].
  apply Forall2_same_length_lookup. split; [reflexivity|].
  intros j x y Hx Hy. rewrite Hx in Hy. injection Hy as <-.
  apply eqb_refl.
  pose proof (constructed_facts M HM) as (_ & _ & Hstruct & _).
  pose proof (structure_excludes_nan (data M) Hwf Hstruct) as Hnan.
  rewrite Forall_lookup in Hnan. eauto.
Qed.

(** X3.  Between instances [==] never raises, does not depend on the side
    an instance stands on, and passes along chains; an instance equals
    itself; and [!=] is its negation. *)
Theorem eq_is_equivalence (a b c : DistanceMatrix) :
  (exists equal, __eq__ a (as_object b) = Ok equal
     /\ __ne__ a (as_object b) = Ok (negb equal))
  /\ __eq__ a (as_object b) = __eq__ b (as_object a)
  /\ (__eq__ a (as_object b) = Ok true -> __eq__ b (as_object c) = Ok true ->
      __eq__ a (as_object c) = Ok true)
  /\ (constructed a -> Np.well_formed (data a) ->
      __eq__ a (as_object a) = Ok true).
Proof.
  split; [|split; [|split]].
  - unfold __ne__. rewrite eq_instances. eauto.
  - rewrite !eq_instances. f_equal. unfold Np.array_equal.
    rewrite (all_eqb_sym (flat (data a))).
    now rewrite (decide_eq_sym (dm_shape a)), (decide_eq_sym (sample_ids a)),
      (decide_eq_sym (shape (data a))).
  - rewrite !eq_instances. intros [= Hab] [= Hbc]. f_equal.
    apply andb_true_iff in Hab as [Hab Hd1], Hbc as [Hbc Hd2].
    apply andb_true_iff in Hab as [Hs1 Hi1], Hbc as [Hs2 Hi2].
    apply bool_decide_eq_true in Hs1, Hi1, Hs2, Hi2.
    unfold Np.array_equal in *.
    apply andb_true_iff in Hd1 as [Hd1 He1], Hd2 as [Hd2 He2].
    apply bool_decide_eq_true in Hd1, Hd2.
    rewrite !andb_true_iff, !bool_decide_eq_true.
    repeat split; try congruence. now apply (all_eqb_trans _ (flat (data b))).
  - apply eq_reflexive.
Qed.

Lemma constructed_eta M :
  constructed M ->
  {| _data := data M; _sample_ids := sample_ids M;
     _sample_index := _index_list (sample_ids M) |} = M.
Proof.
  intros HM. apply constructed_valid in HM as [_ Hindex].
  destruct M as [d ids index]. cbn in *. now rewrite Hindex.
Qed.

(** X4.  Copying an instance raises nothing: the copy has the buffer and
    the labels of the original, and the two compare equal. *)
Theorem copy_is_equal (M : DistanceMatrix) :
  constructed M -> Np.well_formed (data M) ->
  exists M',
    copy M = Ok M'
    /\ data M' = data M /\ sample_ids M' = sample_ids M
    /\ constructed M'
    /\ __eq__ M (as_object M') = Ok true
    /\ __ne__ M (as_object M') = Ok false.
Proof.
  intros HM Hwf. exists M.
  assert (Hcopy : copy M = Ok M).
  { unfold copy, ndarray_copy, deepcopy. rewrite buffer_eta.
    apply init_ok. split; [now apply constructed_valid|].
    symmetry. now apply constructed_eta. }
  pose proof (eq_reflexive M HM Hwf) as Heq.
  repeat split; try assumption. unfold __ne__. now rewrite Heq.
Qed.

(** ** The label index *)

Lemma index_from_last k (l : list string) m i x :
  l !! i = Some x -> (forall j, i < j -> l !! j <> Some x) ->
  index_from k l m !! x = Some (k + i).
Proof.
  revert k m i. induction l as [|y l IH]; intros k m i Hi Hlast; [discriminate|].
  rewrite index_from_cons. destruct i as [|i]; cbn in Hi.
  - injection Hi as ->. rewrite index_from_notin.
    + rewrite lookup_insert_eq. f_equal. lia.
    + intros [j Hj]%list_elem_of_lookup. apply (Hlast (S j)); [lia | exact Hj].
  - rewrite (IH (S k) _ i Hi).
    + f_equal. lia.
    + intros j Hj. apply (Hlast (S j)). lia.
Qed.

Lemma last_occurrence (l : list string) x :
  x ∈ l -> exists i, l !! i = Some x /\ forall j, i < j -> l !! j <> Some x.
Proof.
  induction l as [|y l IH]; [now intros ?%elem_of_nil|].
  intros Hx. destruct (decide (x ∈ l)) as [Hin|Hnin].
  - destruct (IH Hin) as (i & Hi & Hlast). exists (S i). split; [exact Hi|].
    intros [|j] Hj; [lia|]. apply Hlast. lia.
  - apply elem_of_cons in Hx as [->|Hx]; [|contradiction].
    exists 0. split; [reflexivity|].
    intros [|j] Hj; [lia|]. cbn. intros Hl. apply Hnin.
    apply list_elem_of_lookup. eauto.
Qed.

(** X5.  The index built from a sequence of labels holds exactly the labels
    of the sequence, each with the position of its last occurrence. *)
Theorem index_list_last_occurrence (l : list string) (x : string) :
  (forall i, _index_list l !! x = Some i <->
     l !! i = Some x /\ forall j, i < j -> l !! j <> Some x)
  /\ (_index_list l !! x = None <-> x ∉ l).
Proof.
  assert (Hfound : forall i, l !! i = Some x ->
            (forall j, i < j -> l !! j <> Some x) ->
            _index_list l !! x = Some i).
  { intros i Hi Hlast. exact (index_from_last 0 l ∅ i x Hi Hlast). }
  split.
  - intros i. split; [|intros [Hi Hlast]; now apply Hfound].
    intros Hindex. destruct (decide (x ∈ l)) as [Hin|Hnin].
    + destruct (last_occurrence l x Hin) as (i' & Hi' & Hlast).
      rewrite (Hfound i' Hi' Hlast) in Hindex. injection Hindex as <-. auto.
    + rewrite index_list_notin in Hindex by assumption. discriminate.
  - split; [|apply index_list_notin].
    intros Hnone Hin. destruct (last_occurrence l x Hin) as (i & Hi & Hlast).
    rewrite (Hfound i Hi Hlast) in Hnone. discriminate.
Qed.

(** ** Labels replaced and restored *)

Lemma set_sample_ids_ok M ids' :
  constructed M -> NoDup ids' -> length ids' = num_samples M ->
  set_sample_ids M ids' =
  ({| _data := data M; _sample_ids := ids';
      _sample_index := _index_list ids' |}, None).
Proof.
  intros HM Hnd Hlen.
  pose proof (constructed_facts M HM) as (_ & (cols & Hs & _) & Hst & Hn).
  apply constructed_valid in HM as [Hv _].
  apply validate_ok in Hv as (H0 & _).
  assert (Hv' : _validate (data M) ids' = Ok tt).
  { apply validate_ok. repeat split; try assumption.
    rewrite Hs. cbn. f_equal. now rewrite Hlen. }
  unfold set_sample_ids. now rewrite Hv'.
Qed.

(** X6.  Assigning to an instance the labels it has changes nothing; and
    after any accepted assignment, assigning the former labels gives the
    former instance back. *)
Theorem set_sample_ids_restores (M : DistanceMatrix) (ids' : list string) :
  constructed M ->
  set_sample_ids M (sample_ids M) = (M, None)
  /\ (NoDup ids' -> length ids' = num_samples M ->
      (set_sample_ids M ids').2 = None
      /\ set_sample_ids (set_sample_ids M ids').1 (sample_ids M) = (M, None)).
Proof.
  intros HM. pose proof (constructed_facts M HM) as (Hnd & _).
  assert (Hsame : set_sample_ids M (sample_ids M) = (M, None)).
  { rewrite set_sample_ids_ok by (assumption || reflexivity).
    now rewrite constructed_eta. }
  split; [exact Hsame|]. intros Hnd' Hlen.
  rewrite (set_sample_ids_ok M ids') by assumption. split; [reflexivity|].
  cbn [fst]. rewrite set_sample_ids_ok.
  - cbn. f_equal. now apply constructed_eta.
  - exists (data M), ids'. apply init_ok. split; [|reflexivity].
    pose proof (set_sample_ids_constructed M ids' HM) as Hc.
    rewrite (set_sample_ids_ok M ids') in Hc by assumption.
    now apply constructed_valid in Hc as [Hv _].
  - exact Hnd.
  - unfold num_samples, sample_ids. cbn. now rewrite Hlen.
Qed.

(** X7.  After an accepted assignment of labels, the new label at a
    position selects what the old label at that position selected, and an
    old label that is not among the new ones is no longer found. *)
Theorem getitem_follows_labels {view : Type}
        (ndarray_getitem : ndarray -> pyindex -> result view)
        (M : DistanceMatrix) (ids' : list string) :
  constructed M -> NoDup ids' -> length ids' = num_samples M ->
  (forall i old new,
     sample_ids M !! i = Some old -> ids' !! i = Some new ->
     __getitem__ view ndarray_getitem (set_sample_ids M ids').1 (IndexStr new)
     = __getitem__ view ndarray_getitem M (IndexStr old))
  /\ (forall old, old ∉ ids' ->
      __getitem__ view ndarray_getitem (set_sample_ids M ids').1 (IndexStr old)
      = Raise (MissingSampleIDError (missing_id_message old))).
Proof.
  intros HM Hnd' Hlen. pose proof (constructed_facts M HM) as (Hnd & _).
  rewrite (set_sample_ids_ok M ids') by assumption. cbn [fst].
  pose proof HM as [_ Hindex]%constructed_valid.
  unfold __getitem__. cbn [_sample_index]. rewrite Hindex. split.
  - intros i old new Hold Hnew.
    rewrite (index_list_lookup _ i new Hnd' Hnew).
    now rewrite (index_list_lookup _ i old Hnd Hold).
  - intros old Hold. now rewrite (index_list_notin _ old Hold).
Qed.

(** ** Reading: the header *)

Lemma find_header_skip skipped dm_f :
  Forall (fun line => blank line \/ comment line) skipped ->
  find_header (skipped ++ dm_f) = find_header dm_f.
Proof.
  induction 1 as [|line skipped Hline _ IH]; [reflexivity|].
  cbn [app find_header]. destruct Hline as [Hb | Hc].
  - unfold blank in Hb. rewrite Hb. exact IH.
  - unfold comment in Hc. rewrite Hc, andb_false_r. exact IH.
Qed.

Lemma find_header_here header rest :
  ~ blank header -> ~ comment header ->
  find_header (header :: rest) = (Some (Py.strip header), rest).
Proof.
  unfold blank, comment. intros Hb Hc. cbn [find_header].
  apply truthy_true in Hb. rewrite Hb.
  now destruct (Py.startswith (Py.strip header) "#").
Qed.

Lemma find_header_some dm_f h rest :
  find_header dm_f = (Some h, rest) ->
  exists skipped header,
    dm_f = skipped ++ header :: rest
    /\ Forall (fun line => blank line \/ comment line) skipped
    /\ ~ blank header /\ ~ comment header /\ h = Py.strip header.
Proof.
  induction dm_f as [|line dm_f IH]; [discriminate|]. cbn [find_header].
  destruct (Py.truthy (Py.strip line)) eqn:Ht; cbn [andb].
  - destruct (Py.startswith (Py.strip line) "#") eqn:Hc; cbn [negb].
    + intros (skipped & header & -> & Hall & Hrest)%IH.
      exists (line :: skipped), header. split; [reflexivity|].
      split; [constructor; [right; exact Hc | exact Hall] | exact Hrest].
    + intros [= <- <-]. exists [], line. split; [reflexivity|].
      split; [constructor|]. unfold blank, comment.
      apply truthy_true in Ht. rewrite Hc. auto.
  - intros (skipped & header & -> & Hall & Hrest)%IH.
    exists (line :: skipped), header. split; [reflexivity|].
    split; [|exact Hrest]. constructor; [|exact Hall].
    left. unfold blank. now destruct (Py.strip line).
Qed.

Lemma find_header_exists dm_f :
  Exists (fun line => ~ blank line /\ ~ comment line) dm_f ->
  exists h rest, find_header dm_f = (Some h, rest).
Proof.
  induction dm_f as [|line dm_f IH]; [intros H; inversion H|].
  intros H. cbn [find_header].
  destruct (Py.truthy (Py.strip line) && negb (Py.startswith (Py.strip line) "#"))
    eqn:E; [eauto|].
  apply IH. inversion H as [? ? [Hb Hc]|]; subst; [|assumption].
  unfold blank, comment in *. apply truthy_true in Hb. rewrite Hb in E.
  destruct (Py.startswith (Py.strip line) "#"); [contradiction | discriminate].
Qed.

Lemma parse_sample_ids_here delimiter skipped header rest :
  delimiter <> EmptyString ->
  Forall (fun line => blank line \/ comment line) skipped ->
  ~ blank header -> ~ comment header ->
  _parse_sample_ids (skipped ++ header :: rest) delimiter
  = Ok (Py.split_from delimiter 0 (Py.strip header), rest).
Proof.
  intros Hd Hall Hb Hc. unfold _parse_sample_ids.
  rewrite find_header_skip, find_header_here by assumption.
  now rewrite split_ok.
Qed.

Lemma parse_sample_ids_inv delimiter dm_f sids rest :
  _parse_sample_ids dm_f delimiter = Ok (sids, rest) ->
  delimiter <> EmptyString
  /\ exists skipped header,
       dm_f = skipped ++ header :: rest
       /\ Forall (fun line => blank line \/ comment line) skipped
       /\ ~ blank header /\ ~ comment header
       /\ sids = Py.split_from delimiter 0 (Py.strip header)
       /\ 1 <= length sids.
Proof.
  unfold _parse_sample_ids.
  destruct (find_header dm_f) as [[h|] rest1] eqn:Hf; [|discriminate].
  destruct delimiter as [|c delimiter]; [discriminate|].
  cbn. intros [= <- <-]. split; [discriminate|].
  apply find_header_some in Hf as (skipped & header & -> & Hall & Hb & Hc & ->).
  exists skipped, header. repeat split; try assumption.
  apply split_from_length.
Qed.

(** X8.  The header is the first line that is neither blank nor a comment:
    the labels are the fields of that line, stripped, and the reader is left
    just behind it. *)
Theorem parse_sample_ids_header (delimiter : string) :
  delimiter <> EmptyString ->
  (forall skipped header rest,
     Forall (fun line => blank line \/ comment line) skipped ->
     ~ blank header -> ~ comment header ->
     _parse_sample_ids (skipped ++ header :: rest) delimiter
     = Ok (Py.split_from delimiter 0 (Py.strip header), rest))
  /\ (forall dm_f sids rest,
      _parse_sample_ids dm_f delimiter = Ok (sids, rest) ->
      exists skipped header,
        dm_f = skipped ++ header :: rest
        /\ Forall (fun line => blank line \/ comment line) skipped
        /\ ~ blank header /\ ~ comment header
        /\ sids = Py.split_from delimiter 0 (Py.strip header)
        /\ 1 <= length sids).
Proof.
  intros Hd. split.
  - intros skipped header rest. now apply parse_sample_ids_here.
  - intros dm_f sids rest Hp. now apply parse_sample_ids_inv in Hp as [_ Hp].
Qed.

(** X9.  Blank lines and comments before the header are passed over:
    removing them from the head of the stream changes nothing. *)
Theorem from_file_skips_before_header (delimiter : string)
        (skipped dm_f : list string) :
  Forall (fun line => blank line \/ comment line) skipped ->
  from_file (skipped ++ dm_f) delimiter = from_file dm_f delimiter.
Proof.
  intros Hall. unfold from_file, _parse_sample_ids.
  now rewrite find_header_skip.
Qed.

(** X10.  With the empty string as delimiter nothing is ever read: the
    header is missing, or it cannot be split. *)
Theorem from_file_empty_delimiter (dm_f : list string) :
  (Forall (fun line => blank line \/ comment line) dm_f ->
   from_file dm_f EmptyString = Raise MissingHeaderError)
  /\ (Exists (fun line => ~ blank line /\ ~ comment line) dm_f ->
      from_file dm_f EmptyString = Raise (ValueError "empty separator")).
Proof.
  unfold from_file, _parse_sample_ids. split.
  - intros Hall. now rewrite find_header_none.
  - intros (h & rest & ->)%find_header_exists. reflexivity.
Qed.

(** ** Reading: the rows *)

Lemma from_file_row_ok sids delimiter line data idx data' idx' :
  from_file_row sids delimiter line data idx = Ok (data', idx') ->
  idx < length sids
  /\ exists label fields vals,
       Py.split_from delimiter 0 line = label :: fields
       /\ sids !! idx = Some label
       /\ asarray_float fields = Ok vals
       /\ length vals = length sids
       /\ data' = Np.set_row data idx vals /\ idx' = idx + 1.
Proof.
  unfold from_file_row. intros Hrow.
  destruct (length sids <=? idx) eqn:Hle; [discriminate|].
  apply Nat.leb_gt in Hle. split; [exact Hle|].
  destruct (split line delimiter) as [tokens|e] eqn:Hsplit; [|discriminate].
  apply split_ok_inv in Hsplit as (_ & -> & _).
  cbn [mbind result_bind] in Hrow.
  destruct (length (Py.split_from delimiter 0 line) =? length sids + 1) eqn:Hn;
    [|discriminate].
  apply Nat.eqb_eq in Hn. cbn [negb] in Hrow.
  destruct (Py.split_from delimiter 0 line) as [|label fields]; [discriminate|].
  change ((label :: fields) !! 0) with (Some label) in Hrow.
  destruct (sids !! idx) as [sid|] eqn:Hsid; [|discriminate].
  destruct (String.eqb_spec label sid) as [->|]; [|discriminate].
  cbn [tail] in Hrow.
  destruct (asarray_float fields) as [vals|e] eqn:Hvals; [|discriminate].
  cbn in Hrow. injection Hrow as <- <-.
  exists sid, fields, vals. repeat split; try reflexivity; try assumption.
  apply asarray_float_length in Hvals. cbn [length] in Hn. lia.
Qed.

Lemma asarray_float_raise tokens e :
  asarray_float tokens = Raise e ->
  exists t, t ∈ tokens
    /\ e = ValueError ("could not convert string to float: " +:+ t).
Proof.
  induction tokens as [|t ts IH]; [discriminate|]. cbn [asarray_float].
  destruct (F64.of_string t).
  - destruct (asarray_float ts) as [xs|e1]; [discriminate|].
    cbn. intros [= <-]. destruct (IH eq_refl) as (t1 & Hin & ->).
    exists t1. split; [now right | reflexivity].
  - intros [= <-]. exists t. split; [now left | reflexivity].
Qed.

Lemma from_file_row_raise sids delimiter line data idx e :
  from_file_row sids delimiter line data idx = Raise e ->
  raised_by_reader e.
Proof.
  unfold from_file_row. intros Hrow.
  destruct (length sids <=? idx) eqn:Hle.
  { injection Hrow as <-. cbn. auto. }
  apply Nat.leb_gt in Hle.
  destruct delimiter as [|c delimiter]; [injection Hrow as <-; cbn; auto|].
  cbn [split mbind result_bind] in Hrow.
  destruct (negb _) in Hrow.
  { injection Hrow as <-. cbn. right. exists (idx + 1). split; [lia | reflexivity]. }
  pose proof (split_from_length (String c delimiter) 0 line) as Hlen.
  destruct (Py.split_from (String c delimiter) 0 line) as [|label fields];
    [cbn in Hlen; lia|].
  change ((label :: fields) !! 0) with (Some label) in Hrow.
  destruct (lookup_lt_is_Some_2 sids idx Hle) as [sid Hsid].
  rewrite Hsid in Hrow. destruct (String.eqb label sid).
  - cbn [tail] in Hrow.
    destruct (asarray_float fields) as [vals|e1] eqn:Hvals; [discriminate|].
    cbn in Hrow. injection Hrow as <-.
    apply asarray_float_raise in Hvals as (t & _ & ->). cbn. eauto.
  - injection Hrow as <-. exact I.
Qed.

(** What the loop has done when it ends without an exception: each line
    that is not blank has given one row. *)
Lemma from_file_rows_ok sids delimiter dm_f :
  forall data idx data1 idx1,
    from_file_rows sids delimiter dm_f data idx = Ok (data1, idx1) ->
    idx <= length sids ->
    exists rows,
      data1 = fill data idx rows
      /\ idx1 = idx + length rows /\ idx1 <= length sids
      /\ length rows = length (List.filter nonblank dm_f)
      /\ Forall (fun row => length row = length sids) rows
      /\ forall i line,
           List.filter nonblank dm_f !! i = Some line ->
           exists label fields vals,
             Py.split_from delimiter 0 (Py.strip line) = label :: fields
             /\ sids !! (idx + i) = Some label
             /\ asarray_float fields = Ok vals
             /\ rows !! i = Some vals.
Proof.
  induction dm_f as [|line dm_f IH]; intros data idx data1 idx1 Hrows Hidx.
  - injection Hrows as <- <-. exists []. cbn.
    repeat split; try lia; [constructor | discriminate].
  - cbn [from_file_rows] in Hrows. cbn [List.filter].
    assert (Hnb : nonblank line = Py.truthy (Py.strip line)) by reflexivity.
    rewrite Hnb. clear Hnb.
    destruct (Py.truthy (Py.strip line)) eqn:Ht; cbn [negb] in Hrows.
    + destruct (from_file_row sids delimiter (Py.strip line) data idx)
        as [[data2 idx2]|e] eqn:Hrow; [|discriminate].
      cbn [mbind result_bind] in Hrows.
      apply from_file_row_ok in Hrow
        as (Hlt & label & fields & vals & Hsplit & Hsid & Hvals & Hlen & -> & ->).
      destruct (IH _ _ _ _ Hrows ltac:(lia))
        as (rows & -> & -> & Hle & Hcount & Hall & Hlines).
      exists (vals :: rows). cbn [fill length].
      split; [reflexivity|]. split; [lia|]. split; [lia|].
      split; [now rewrite Hcount|]. split; [now constructor|].
      intros [|i] line1 Hline1.
      * injection Hline1 as <-. exists label, fields, vals.
        rewrite Nat.add_0_r. auto.
      * destruct (Hlines i line1 Hline1)
          as (label1 & fields1 & vals1 & H1 & H2 & H3 & H4).
        exists label1, fields1, vals1.
        replace (idx + S i) with (idx + 1 + i) by lia. auto.
    + now apply IH.
Qed.

Lemma from_file_rows_raise sids delimiter dm_f :
  forall data idx e,
    from_file_rows sids delimiter dm_f data idx = Raise e ->
    raised_by_reader e.
Proof.
  induction dm_f as [|line dm_f IH]; intros data idx e Hrows; [discriminate|].
  cbn [from_file_rows] in Hrows.
  destruct (negb (Py.truthy (Py.strip line))); [now apply IH in Hrows|].
  destruct (from_file_row sids delimiter (Py.strip line) data idx)
    as [[data2 idx2]|e1] eqn:Hrow; cbn [mbind result_bind] in Hrows.
  - now apply IH in Hrows.
  - injection Hrows as <-. now apply from_file_row_raise in Hrow.
Qed.

Lemma chunks_of_concat (rows : list (list float)) size :
  Forall (fun row => length row = size) rows ->
  Np.chunks (length rows) size (concat rows) = rows.
Proof.
  induction 1 as [|row rows Hrow _ IH]; [reflexivity|].
  cbn [length Np.chunks concat].
  rewrite take_app_length' by lia.
  rewrite drop_app_length' by lia. now rewrite IH.
Qed.

(** The buffer [from_file] hands to the constructor when it has read as
    many rows as there are labels. *)
Lemma fill_rows n (rows : list (list float)) :
  length rows = n -> Forall (fun row => length row = n) rows ->
  shape (fill (Np.empty [n; n]) 0 rows) = [n; n]
  /\ Np.iter (fill (Np.empty [n; n]) 0 rows) = rows.
Proof.
  intros Hlen Hall.
  destruct (fill_flat n rows 0 (Np.empty [n; n])) as [Hshape Hflat];
    [reflexivity | | assumption | lia |].
  { cbn. rewrite length_replicate. unfold Np.product. cbn. lia. }
  split; [exact Hshape|]. unfold Np.iter. rewrite Hshape, product_row, Hflat.
  cbn [Nat.mul take app]. rewrite drop_ge, app_nil_r.
  - rewrite <- Hlen at 1. now apply chunks_of_concat.
  - cbn. rewrite length_replicate. unfold Np.product. cbn. nia.
Qed.

(** X11.  A matrix that [from_file] returns passed the checks of the
    constructor; its labels are the fields of the header; the lines after
    the header that are not blank are as many as the labels; and the line of
    each rank begins with the label of that rank, its other fields being,
    once converted, the row of that rank in the buffer. *)
Theorem from_file_decodes (dm_f : list string) (delimiter : string)
        (M : DistanceMatrix) :
  from_file dm_f delimiter = Ok M ->
  constructed M
  /\ exists skipped header body,
       dm_f = skipped ++ header :: body
       /\ Forall (fun line => blank line \/ comment line) skipped
       /\ ~ blank header /\ ~ comment header
       /\ sample_ids M = Py.split_from delimiter 0 (Py.strip header)
       /\ length (List.filter nonblank body) = num_samples M
       /\ forall i line,
            List.filter nonblank body !! i = Some line ->
            exists label fields vals,
              Py.split_from delimiter 0 (Py.strip line) = label :: fields
              /\ sample_ids M !! i = Some label
              /\ asarray_float fields = Ok vals
              /\ Np.iter (data M) !! i = Some vals.
Proof.
  intros Hfile.
  destruct (_parse_sample_ids dm_f delimiter) as [[sids body]|e] eqn:Hp;
    [|unfold from_file in Hfile; now rewrite Hp in Hfile].
  rewrite (from_file_unfold _ _ _ _ Hp) in Hfile.
  destruct (parse_sample_ids_inv _ _ _ _ Hp)
    as (Hd & skipped & header & -> & Hall & Hb & Hc & Hsids & Hn).
  destruct (from_file_rows sids delimiter body _ 0) as [[buffer idx]|e] eqn:Hrows;
    [|discriminate].
  cbn [mbind result_bind] in Hfile.
  destruct (Nat.eqb_spec idx (length sids)) as [->|]; [|discriminate].
  cbn [negb] in Hfile.
  apply from_file_rows_ok in Hrows
    as (rows & -> & Hidx & _ & Hcount & Hlens & Hlines); [|lia].
  cbn [Nat.add] in Hidx.
  destruct (fill_rows (length sids) rows) as [_ Hiter]; [congruence | assumption |].
  split; [now exists (fill (Np.empty [length sids; length sids]) 0 rows), sids|].
  apply init_ok in Hfile as [_ ->].
  exists skipped, header, body. unfold num_samples, sample_ids, data.
  cbn [_sample_ids _data]. repeat split; try assumption; [congruence|].
  intros i line Hline. rewrite Hiter.
  destruct (Hlines i line Hline) as (label & fields & vals & H1 & H2 & H3 & H4).
  exists label, fields, vals. auto.
Qed.

Lemma validate_square_raise buffer ids n e :
  shape buffer = [n; n] -> length ids = n -> 1 <= n ->
  _validate buffer ids = Raise e ->
  e = DistanceMatrixError unique_message
  \/ e = DistanceMatrixError structure_message.
Proof.
  intros Hs Hlen Hn. unfold _validate. rewrite Hs.
  rewrite bool_decide_eq_false_2
    by (rewrite !elem_of_cons, elem_of_nil; lia).
  destruct (negb _); [intros [= <-]; auto|].
  destruct (negb _); [intros [= <-]; auto|].
  cbn. rewrite Hlen, Nat.eqb_refl. discriminate.
Qed.

(** X12.  The exceptions [from_file] raises: the header is missing; the
    delimiter is empty or a field is no number ([ValueError]); a line too
    many, or a line with the wrong number of fields, the row named from 1;
    a label out of place; fewer rows than labels; and, from the constructor,
    labels that repeat or a buffer that is not symmetric and hollow.  The
    constructor's complaints about an empty buffer or about the number of
    labels, and an index out of range, never come out of it. *)
Theorem from_file_raises_only (dm_f : list string) (delimiter : string)
        (e : exn) :
  from_file dm_f delimiter = Raise e -> raised_by_reader e.
Proof.
  intros Hfile. unfold from_file in Hfile.
  destruct (_parse_sample_ids dm_f delimiter) as [[sids body]|e1] eqn:Hp.
  2:{ cbn in Hfile. injection Hfile as <-. unfold _parse_sample_ids in Hp.
      destruct (find_header dm_f) as [[h|] ?]; [|injection Hp as <-; exact I].
      destruct delimiter; [injection Hp as <-; cbn; auto | discriminate]. }
  cbn [mbind result_bind] in Hfile.
  destruct (parse_sample_ids_inv _ _ _ _ Hp) as (_ & _ & _ & _ & _ & _ & _ & _ & Hn).
  destruct (from_file_rows sids delimiter body _ 0) as [[buffer idx]|e1] eqn:Hrows.
  2:{ cbn in Hfile. injection Hfile as <-.
      now apply from_file_rows_raise in Hrows. }
  cbn [mbind result_bind] in Hfile.
  apply from_file_rows_ok in Hrows
    as (rows & -> & Hidx & Hle & _ & Hlens & _); [|lia].
  cbn [Nat.add] in Hidx.
  destruct (Nat.eqb_spec idx (length sids)) as [Heq|Hne]; cbn [negb] in Hfile.
  - apply init_raise in Hfile.
    destruct (fill_rows (length sids) rows) as [Hshape _];
      [congruence | assumption |].
    destruct (validate_square_raise _ _ _ _ Hshape eq_refl Hn Hfile) as [-> | ->];
      cbn; auto.
  - injection Hfile as <-. cbn. lia.
Qed.

Lemma first_field_hash delimiter s :
  delimiter <> EmptyString -> Py.startswith delimiter "#" = false ->
  Py.startswith s "#" = true ->
  exists field fields,
    Py.split_from delimiter 0 s = field :: fields
    /\ Py.startswith field "#" = true.
Proof.
  intros Hd Hdh Hs. destruct s as [|c s]; [discriminate|].
  destruct delimiter as [|y delimiter]; [congruence|].
  unfold Py.startswith in *. rewrite prefix_cons in Hdh, Hs.
  rewrite prefix_nil, andb_true_r in Hdh, Hs.
  apply Ascii.eqb_eq in Hs as <-.
  cbn [Py.split_from]. rewrite prefix_cons.
  rewrite Ascii.eqb_sym, Hdh. cbn [andb].
  destruct (Py.split_from (String y delimiter) 0 s) as [|field fields];
    eexists _, _; (split; [reflexivity|]);
    now rewrite prefix_cons, Ascii.eqb_refl, prefix_nil.
Qed.

(** X13.  A comment is a comment before the header only.  After it, a line
    that begins with [#] is taken for a row, and since no label begins with
    [#] the call fails. *)
Theorem from_file_comment_after_header (dm_f : list string)
        (delimiter : string) (sids body : list string) :
  _parse_sample_ids dm_f delimiter = Ok (sids, body) ->
  Py.startswith delimiter "#" = false ->
  Forall (fun sid => Py.startswith sid "#" = false) sids ->
  Exists comment body ->
  exists e, from_file dm_f delimiter = Raise e.
Proof.
  intros Hp Hdh Hsids (line & Hin & Hline)%Exists_exists.
  apply list_elem_of_split in Hin as (before & after & ->).
  destruct (parse_sample_ids_inv _ _ _ _ Hp) as [Hd _].
  rewrite (from_file_unfold _ _ _ _ Hp), from_file_rows_app.
  destruct (from_file_rows sids delimiter before _ 0) as [[buffer idx]|e];
    [|eauto].
  cbn [mbind result_bind]. unfold comment in Hline.
  assert (Hnb : ~ blank line).
  { unfold blank. intros Hb. now rewrite Hb in Hline. }
  rewrite from_file_rows_nonblank by assumption.
  assert (Hrow : exists e, from_file_row sids delimiter (Py.strip line) buffer idx
                           = Raise e); [|destruct Hrow as [e ->]; eauto].
  unfold from_file_row. destruct (length sids <=? idx); [eauto|].
  rewrite split_ok by assumption. cbn [mbind result_bind].
  destruct (negb _); [eauto|].
  destruct (first_field_hash delimiter (Py.strip line) Hd Hdh Hline)
    as (field & fields & -> & Hfield).
  change ((field :: fields) !! 0) with (Some field).
  destruct (sids !! idx) as [sid|] eqn:Hsid; [|eauto].
  destruct (String.eqb_spec field sid) as [->|]; [|eauto].
  rewrite Forall_lookup in Hsids. specialize (Hsids idx sid Hsid). congruence.
Qed.

(** ** Writing *)

Lemma occurs_join c d fields :
  occurs c d = false -> Forall (fun f => occurs c f = false) fields ->
  occurs c (Py.join d fields) = false.
Proof.
  intros Hd. induction 1 as [|f fields Hf Hall IH]; [reflexivity|].
  destruct fields as [|g fields]; [exact Hf|].
  rewrite join_cons by discriminate. now rewrite !occurs_app, Hf, Hd, IH.
Qed.

(** X14.  [to_file] adds to the stream and touches nothing that is already
    there.  When no label, no text of an entry and not the delimiter holds
    a line feed, what it adds is one line more than there are samples: the
    header, which begins with the delimiter, and then for each sample its
    label, the delimiter, and the entries of its row joined by the
    delimiter. *)
Theorem to_file_appends_lines (astype_str : float -> string)
        (M : DistanceMatrix) (delimiter : string) :
  (forall out_f,
     to_file astype_str M out_f delimiter
     = out_f +:+ to_file astype_str M EmptyString delimiter)
  /\ (constructed M ->
      occurs "010"%char delimiter = false ->
      Forall (fun sid => occurs "010"%char sid = false) (sample_ids M) ->
      Forall (fun x => occurs "010"%char (astype_str x) = false)
             (flat (data M)) ->
      exists rows,
        Py.readlines (to_file astype_str M EmptyString delimiter)
        = (delimiter +:+ Py.join delimiter (sample_ids M) +:+ Py.LF) :: rows
        /\ length rows = num_samples M
        /\ forall i sid vals,
             sample_ids M !! i = Some sid ->
             Np.iter (data M) !! i = Some vals ->
             rows !! i
             = Some (sid +:+ delimiter
                     +:+ Py.join delimiter (astype_str <$> vals) +:+ Py.LF)).
Proof.
  split.
  - intros out_f. unfold to_file, _format_sample_ids.
    rewrite !to_file_rows_text. now rewrite append_nil_l, !append_assoc.
  - intros HM Hd Hids Hvals.
    pose proof (constructed_facts M HM) as (_ & (cols & Hshape & _) & _ & Hn).
    set (n := length (sample_ids M)) in *.
    assert (Hiter : Np.iter (data M) = Np.chunks n cols (flat (data M))).
    { unfold Np.iter. now rewrite Hshape, product_row. }
    assert (Hne : sample_ids M <> []).
    { intros E. unfold n in Hn. rewrite E in Hn. cbn in Hn. lia. }
    set (rows := zip (sample_ids M) (Np.iter (data M))).
    assert (Hrows : forall i sid vals, rows !! i = Some (sid, vals) ->
              occurs "010"%char (row_text astype_str delimiter (sid, vals))
              = false).
    { intros i sid vals [Hsid Hrow]%lookup_zip_Some.
      unfold row_text. cbn [fst snd].
      rewrite Forall_lookup in Hids. rewrite !occurs_app, (Hids i sid Hsid), Hd.
      apply occurs_join; [exact Hd|]. apply Forall_fmap.
      rewrite Hiter in Hrow.
      pose proof (chunks_Forall _ n cols _ Hvals) as Hall.
      rewrite Forall_lookup in Hall. exact (Hall i vals Hrow). }
    exists ((fun line => line +:+ Py.LF)
              <$> (row_text astype_str delimiter <$> rows)).
    split; [|split].
    + rewrite to_file_text. fold rows. rewrite readlines_text.
      * rewrite fmap_cons. f_equal.
        rewrite join_cons by assumption.
        now rewrite append_nil_l, append_assoc.
      * constructor.
        -- rewrite join_cons by assumption. rewrite append_nil_l, occurs_app, Hd.
           now apply occurs_join.
        -- apply Forall_fmap, Forall_lookup. intros i [sid vals] Hi.
           exact (Hrows i sid vals Hi).
    + rewrite !length_fmap. unfold rows.
      rewrite length_zip, Hiter, chunks_length. fold n.
      unfold num_samples. fold n. lia.
    + intros i sid vals Hsid Hrow. rewrite !list_lookup_fmap.
      assert (Hi : rows !! i = Some (sid, vals))
        by (apply lookup_zip_Some; auto).
      rewrite Hi. cbn. unfold row_text. cbn [fst snd].
      now rewrite !append_assoc.
Qed.

(** ** Random matrices with labels, and their entries *)

Lemma add_zero_r x :
  F64.is_nan x = false -> F64.eqb (F64.add x F64.zero) x = true.
Proof.
  intros Hnan. destruct x as [s|s| |s m e]; [| | discriminate |].
  - now destruct s.
  - now destruct s.
  - now apply eqb_refl.
Qed.

Lemma add_zero_l x :
  F64.is_nan x = false -> F64.eqb (F64.add F64.zero x) x = true.
Proof.
  intros Hnan. destruct x as [s|s| |s m e]; [| | discriminate |].
  - now destruct s.
  - now destruct s.
  - now apply eqb_refl.
Qed.

Lemma unit_interval_zero s : unit_interval (S754_zero s).
Proof. split; reflexivity. Qed.

Lemma unit_interval_finite x :
  unit_interval x ->
  (exists s, x = S754_zero s) \/ (exists s m e, x = S754_finite s m e).
Proof.
  intros [H0 H1]. destruct x as [s|s| |s m e]; [eauto | | discriminate | eauto 6].
  destruct s; discriminate.
Qed.

Lemma unit_interval_add_r x :
  unit_interval x -> unit_interval (F64.add x F64.zero).
Proof.
  intros Hx.
  destruct (unit_interval_finite x Hx) as [[s ->] | (s & m & e & ->)].
  - destruct s; apply unit_interval_zero.
  - exact Hx.
Qed.

Lemma unit_interval_add_l x :
  unit_interval x -> unit_interval (F64.add F64.zero x).
Proof.
  intros Hx.
  destruct (unit_interval_finite x Hx) as [[s ->] | (s & m & e & ->)].
  - destruct s; apply unit_interval_zero.
  - exact Hx.
Qed.

Lemma tabulate_Forall (P : float -> Prop) r c f :
  (forall i j, i < r -> j < c -> P (f i j)) ->
  Forall P (flat (Np.tabulate r c f)).
Proof.
  intros Hf. unfold Np.tabulate. cbn [flat].
  apply Forall_concat, Forall_fmap, Forall_seq. intros i Hi. cbn.
  apply Forall_fmap, Forall_seq. intros j Hj. cbn. apply Hf; lia.
Qed.

Lemma rand_item rand n i j :
  shape rand = [n; n] -> Np.well_formed rand ->
  Forall unit_interval (flat rand) -> i < n -> j < n ->
  unit_interval (Np.item rand n i j).
Proof.
  intros Hs Hwf Hall Hi Hj. rewrite Forall_forall in Hall. apply Hall.
  apply list_elem_of_lookup. exists (i * n + j). now apply item_lookup.
Qed.

Lemma random_call rand n ids :
  shape rand = [n; n] -> ids <> [] ->
  random_distance_matrix rand n (Some ids)
  = __init__ (Np.tabulate n n (mirrored rand n)) ids.
Proof.
  intros Hs Hids. unfold random_distance_matrix.
  rewrite (mirror_tabulate rand n Hs). now destruct ids.
Qed.

(** X15.  With labels given, and draws from [[0, 1)], the generator
    returns a matrix carrying these labels when they are distinct and as
    many as the samples asked for; labels that repeat, or in another
    number, are refused with the constructor's messages. *)
Theorem random_distance_matrix_labels (rand : ndarray) (n : nat)
        (ids : list string) :
  1 <= n -> shape rand = [n; n] -> Np.well_formed rand ->
  Forall unit_interval (flat rand) -> ids <> [] ->
  (~ NoDup ids ->
     random_distance_matrix rand n (Some ids)
     = Raise (DistanceMatrixError unique_message))
  /\ (NoDup ids -> length ids <> n ->
      random_distance_matrix rand n (Some ids)
      = Raise (DistanceMatrixError count_message))
  /\ (NoDup ids -> length ids = n ->
      exists dm,
        random_distance_matrix rand n (Some ids) = Ok dm
        /\ sample_ids dm = ids /\ dm_shape dm = [n; n]).
Proof.
  intros Hn Hs Hwf Hall Hids. rewrite (random_call rand n ids Hs Hids).
  assert (Hsize : 0 ∉ shape (Np.tabulate n n (mirrored rand n))).
  { cbn. rewrite !elem_of_cons, elem_of_nil. lia. }
  pose proof (mirrored_structure rand n Hs Hwf Hall) as Hstruct.
  split; [|split].
  - intros Hdup. now apply init_raise, validate_unique.
  - intros Hnd Hlen. apply init_raise, validate_count; try assumption.
    cbn. congruence.
  - intros Hnd Hlen.
    exists {| _data := Np.tabulate n n (mirrored rand n); _sample_ids := ids;
              _sample_index := _index_list ids |}.
    split; [|split; reflexivity].
    apply init_ok. split; [|reflexivity]. apply validate_ok.
    repeat split; try assumption. cbn. now rewrite Hlen.
Qed.

(** X16.  Asked for no sample at all, the generator fails, whatever the
    labels: the buffer is empty. *)
Theorem random_distance_matrix_no_sample (rand : ndarray)
        (ids : option (list string)) :
  shape rand = [0; 0] ->
  random_distance_matrix rand 0 ids = Raise (DistanceMatrixError size_message).
Proof.
  intros Hs. unfold random_distance_matrix. apply init_raise, validate_size.
  unfold Np.iadd, Np.tril_below. rewrite Hs. cbn. now left.
Qed.

(** X17.  With draws from [[0, 1)] the generator succeeds, and the matrix
    is the lower triangle of the draws mirrored: below the diagonal an
    entry equals the draw at its place, above it the draw at the mirrored
    place, on the diagonal it is zero; every entry lies in [[0, 1)]. *)
Theorem random_distance_matrix_entries (rand : ndarray) (n : nat) :
  1 <= n -> shape rand = [n; n] -> Np.well_formed rand ->
  Forall unit_interval (flat rand) ->
  exists dm,
    random_distance_matrix rand n None = Ok dm
    /\ Np.well_formed (data dm)
    /\ (forall i j, j < i -> i < n ->
          F64.eqb (Np.item (data dm) n i j) (Np.item rand n i j) = true
          /\ F64.eqb (Np.item (data dm) n j i) (Np.item rand n i j) = true)
    /\ (forall i, i < n -> Np.item (data dm) n i i = F64.zero)
    /\ Forall unit_interval (flat (data dm)).
Proof.
  intros Hn Hs Hwf Hall.
  assert (Hcall : random_distance_matrix rand n None
                  = __init__ (Np.tabulate n n (mirrored rand n))
                             (Py.str_of_nat <$> seq 1 n)).
  { unfold random_distance_matrix. now rewrite (mirror_tabulate rand n Hs). }
  exists {| _data := Np.tabulate n n (mirrored rand n);
            _sample_ids := Py.str_of_nat <$> seq 1 n;
            _sample_index := _index_list (Py.str_of_nat <$> seq 1 n) |}.
  split.
  { rewrite Hcall. apply init_ok. split; [|reflexivity]. apply validate_ok.
    split; [cbn; rewrite !elem_of_cons, elem_of_nil; lia|].
    split; [apply default_ids_NoDup|].
    split; [now apply mirrored_structure|].
    cbn. now rewrite length_fmap, length_seq. }
  unfold data. cbn [_data].
  assert (Hitem : forall i j, i < n -> j < n ->
            unit_interval (Np.item rand n i j))
    by (intros; now apply rand_item).
  split; [|split; [|split]].
  - unfold Np.well_formed. rewrite tabulate_length.
    unfold Np.product. cbn. lia.
  - intros i j Hji Hi. rewrite !tabulate_item by lia. unfold mirrored.
    assert ((j <? i) = true) as -> by (apply Nat.ltb_lt; lia).
    assert ((i <? j) = false) as -> by (apply Nat.ltb_ge; lia).
    pose proof (unit_interval_not_nan _ (Hitem i j Hi ltac:(lia))) as Hnan.
    split; [now apply add_zero_r | now apply add_zero_l].
  - intros i Hi. rewrite tabulate_item by lia. unfold mirrored.
    now rewrite Nat.ltb_irrefl.
  - apply tabulate_Forall. intros i j Hi Hj. unfold mirrored.
    destruct (Nat.lt_trichotomy i j) as [Hlt | [-> | Hgt]].
    + assert ((j <? i) = false) as -> by (apply Nat.ltb_ge; lia).
      assert ((i <? j) = true) as -> by (apply Nat.ltb_lt; lia).
      apply unit_interval_add_l. now apply Hitem.
    + rewrite Nat.ltb_irrefl. split; reflexivity.
    + assert ((j <? i) = true) as -> by (apply Nat.ltb_lt; lia).
      assert ((i <? j) = false) as -> by (apply Nat.ltb_ge; lia).
      apply unit_interval_add_r. now apply Hitem.
Qed.

(** ** Printing the labels *)

Lemma prefix_inv p s :
  String.prefix p s = true -> exists t, s = p +:+ t.
Proof.
  revert s. induction p as [|a p IH]; intros s; [now exists s|].
  destruct s as [|b s]; [discriminate|]. rewrite prefix_cons.
  intros [Hab Hp]%andb_true_iff. apply Ascii.eqb_eq in Hab as ->.
  destruct (IH s Hp) as [t ->]. now exists t.
Qed.

Lemma substring_split k s :
  exists t, s = String.substring 0 k s +:+ t.
Proof.
  revert s. induction k as [|k IH]; intros s.
  - exists s. now destruct s.
  - destruct s as [|c s]; [now exists EmptyString|].
    destruct (IH s) as [t Ht]. exists t. cbn. rewrite append_cons. now f_equal.
Qed.

Lemma substring_length k s :
  String.length (String.substring 0 k s) = Nat.min k (String.length s).
Proof.
  revert s. induction k as [|k IH]; intros s; [now destruct s|].
  destruct s as [|c s]; [reflexivity|]. cbn. now rewrite IH.
Qed.

Lemma join_head d c f fields :
  Py.join d (String c f :: fields) = String c (Py.join d (f :: fields)).
Proof. now destruct fields. Qed.

(** Cutting a text at a delimiter and joining the pieces with it gives the
    text back. *)
Lemma join_split_bounded d n :
  d <> EmptyString ->
  forall s, String.length s <= n -> Py.join d (Py.split_from d 0 s) = s.
Proof.
  intros Hd. induction n as [|n IH]; intros s Hn.
  - destruct s; [reflexivity | cbn in Hn; lia].
  - destruct s as [|c s]; [reflexivity|]. cbn [Py.split_from].
    destruct (String.prefix d (String c s)) eqn:Hp.
    + apply prefix_inv in Hp as [t Ht].
      destruct d as [|y d]; [congruence|].
      rewrite append_cons in Ht. injection Ht as <- ->.
      cbn [String.length Nat.sub]. rewrite Nat.sub_0_r, split_from_skip.
      pose proof (split_from_length (String c d) 0 t) as Hlen.
      rewrite join_cons by (destruct (Py.split_from _ 0 t); [cbn in Hlen; lia | discriminate]).
      rewrite append_nil_l, IH; [now rewrite append_cons|].
      cbn [String.length] in Hn. rewrite append_length in Hn. lia.
    + cbn [String.length] in Hn. specialize (IH s ltac:(lia)).
      pose proof (split_from_length d 0 s) as Hlen.
      destruct (Py.split_from d 0 s) as [|f fields]; [cbn in Hlen; lia|].
      now rewrite join_head, IH.
Qed.

Lemma join_split d s :
  d <> EmptyString -> Py.join d (Py.split_from d 0 s) = s.
Proof. intros Hd. now apply (join_split_bounded d (String.length s)). Qed.

Lemma join_last d (fields : list string) last :
  fields <> [] ->
  Py.join d (fields ++ [last]) = Py.join d fields +:+ d +:+ last.
Proof.
  induction fields as [|f fields IH]; [congruence|]. intros _.
  destruct fields as [|g fields]; [reflexivity|].
  change ((f :: g :: fields) ++ [last]) with (f :: ((g :: fields) ++ [last])).
  rewrite join_cons by discriminate. rewrite IH by discriminate.
  rewrite (join_cons d f (g :: fields)) by discriminate.
  now rewrite !append_assoc.
Qed.

Lemma slice_to_nonneg s (stop : Z) :
  (0 <= stop)%Z -> slice_to s stop = String.substring 0 (Z.to_nat stop) s.
Proof.
  intros Hstop. unfold slice_to.
  now destruct (Z.ltb_spec stop 0); [lia|].
Qed.

Lemma pprint_full (M : DistanceMatrix) (max_chars : Z)
      (delimiter suffix : string) :
  (Z.of_nat (String.length (Py.join delimiter (sample_ids M))) <= max_chars)%Z ->
  _pprint_sample_ids M max_chars delimiter suffix
  = Ok (Py.join delimiter (sample_ids M)).
Proof.
  intros Hle. unfold _pprint_sample_ids.
  now destruct (Z.ltb_spec max_chars
                  (Z.of_nat (String.length (Py.join delimiter (sample_ids M)))));
    [lia|].
Qed.

Lemma pprint_cut (M : DistanceMatrix) (max_chars : Z)
      (delimiter suffix : string) :
  (0 <= max_chars)%Z ->
  (max_chars < Z.of_nat (String.length (Py.join delimiter (sample_ids M))))%Z ->
  delimiter <> EmptyString ->
  exists shown,
    _pprint_sample_ids M max_chars delimiter suffix
    = Ok (shown +:+ delimiter +:+ suffix)
    /\ String.length shown <= Z.to_nat max_chars
    /\ (shown = EmptyString
        \/ String.prefix (shown +:+ delimiter)
                         (Py.join delimiter (sample_ids M)) = true).
Proof.
  unfold _pprint_sample_ids.
  set (sids_str := Py.join delimiter (sample_ids M)).
  intros H0 Hlt Hd.
  destruct (Z.ltb_spec max_chars (Z.of_nat (String.length sids_str))); [|lia].
  rewrite split_ok by assumption. cbn [mbind result_bind].
  rewrite slice_to_nonneg by lia.
  set (cut := String.substring 0 (Z.to_nat (max_chars + 1)) sids_str).
  exists (Py.join delimiter (removelast (Py.split_from delimiter 0 cut))).
  split; [reflexivity|].
  pose proof (split_from_length delimiter 0 cut) as Hlen.
  pose proof (join_split delimiter cut Hd) as Hjoin.
  assert (Hpieces : Py.split_from delimiter 0 cut <> [])
    by (destruct (Py.split_from delimiter 0 cut); [cbn in Hlen; lia | discriminate]).
  rewrite (app_removelast_last EmptyString Hpieces) in Hjoin.
  destruct (removelast (Py.split_from delimiter 0 cut)) as [|f fields] eqn:Hinit.
  { split; [cbn; lia | now left]. }
  rewrite join_last in Hjoin by discriminate.
  assert (Hcut : String.length cut = Z.to_nat max_chars + 1).
  { unfold cut. rewrite substring_length. lia. }
  split.
  - rewrite <- Hjoin, !append_length in Hcut.
    assert (1 <= String.length delimiter)
      by (destruct delimiter; [congruence | cbn; lia]).
    lia.
  - right.
    destruct (substring_split (Z.to_nat (max_chars + 1)) sids_str) as [t Ht].
    fold cut in Ht. rewrite Ht, <- Hjoin, !append_assoc, <- append_assoc.
    apply prefix_app.
Qed.

(** X18.  The labels are printed joined by the delimiter, in full when
    that takes no more than [max_chars] characters.  Otherwise the first
    [max_chars + 1] characters are cut at their last delimiter and the
    suffix is put after it: what is shown of the labels is at most
    [max_chars] characters long, and it is nothing at all when no delimiter
    occurs among those first characters.  An empty delimiter raises
    [ValueError], but only when there is something to cut. *)
Theorem pprint_sample_ids_cuts (M : DistanceMatrix) (max_chars : Z)
        (delimiter suffix : string) :
  ((Z.of_nat (String.length (Py.join delimiter (sample_ids M))) <= max_chars)%Z ->
   _pprint_sample_ids M max_chars delimiter suffix
   = Ok (Py.join delimiter (sample_ids M)))
  /\ ((max_chars < Z.of_nat (String.length (Py.join delimiter (sample_ids M))))%Z ->
      delimiter = EmptyString ->
      _pprint_sample_ids M max_chars delimiter suffix
      = Raise (ValueError "empty separator"))
  /\ ((0 <= max_chars)%Z ->
      (max_chars < Z.of_nat (String.length (Py.join delimiter (sample_ids M))))%Z ->
      delimiter <> EmptyString ->
      exists shown,
        _pprint_sample_ids M max_chars delimiter suffix
        = Ok (shown +:+ delimiter +:+ suffix)
        /\ String.length shown <= Z.to_nat max_chars
        /\ (shown = EmptyString
            \/ String.prefix (shown +:+ delimiter)
                             (Py.join delimiter (sample_ids M)) = true)).
Proof.
  split; [apply pprint_full|]. split; [|apply pprint_cut].
  intros Hlt ->. unfold _pprint_sample_ids.
  now destruct (Z.ltb_spec max_chars
                  (Z.of_nat (String.length (Py.join EmptyString (sample_ids M)))));
    [|lia].
Qed.

(** X19.  Printing an instance raises nothing.  The text begins with the
    dimensions of the buffer, the number of samples and the length of a
    row, which with two samples or more is the number of samples again; the
    labels follow, on at most 85 characters; then the text of the buffer. *)
Theorem str_of_instance (ndarray_str : ndarray -> string)
        (M : DistanceMatrix) :
  constructed M ->
  exists cols sids,
    dm_shape M = [num_samples M; cols]
    /\ (2 <= num_samples M -> cols = num_samples M)
    /\ _pprint_sample_ids M 80 ", " "..." = Ok sids
    /\ String.length sids <= 85
    /\ __str__ ndarray_str M
       = Ok (Py.str_of_nat (num_samples M) +:+ "x"
             +:+ Py.str_of_nat cols
             +:+ " distance matrix" +:+ Py.LF +:+ "Sample IDs:" +:+ Py.LF
             +:+ sids +:+ Py.LF +:+ "Data:" +:+ Py.LF
             +:+ ndarray_str (data M)).
Proof.
  intros HM. destruct (constructed_shape M HM) as (cols & Hshape & _ & Hsq).
  assert (Hsids : exists sids,
            _pprint_sample_ids M 80 ", " "..." = Ok sids
            /\ String.length sids <= 85).
  { destruct (Z.le_gt_cases
                (Z.of_nat (String.length (Py.join ", " (sample_ids M)))) 80)
      as [Hle | Hgt].
    - eexists. split; [now apply pprint_full | lia].
    - destruct (pprint_cut M 80 ", " "...") as (shown & -> & Hlen & _);
        [lia | lia | discriminate |].
      eexists. split; [reflexivity|]. rewrite !append_length. cbn. lia. }
  destruct Hsids as (sids & Hsids & Hlen). exists cols, sids.
  split; [exact Hshape|]. split; [intros H2; lia|].
  split; [exact Hsids|]. split; [exact Hlen|].
  unfold __str__. rewrite Hshape, Hsids. reflexivity.
Qed.

(** ** White space at the ends of a line *)

Lemma lstrip_idem s : Py.lstrip (Py.lstrip s) = Py.lstrip s.
Proof.
  induction s as [|c s IH]; [reflexivity|]. cbn [Py.lstrip].
  destruct (Py.isspace c) eqn:Hc; [exact IH|]. cbn [Py.lstrip]. now rewrite Hc.
Qed.

Lemma rstrip_idem s : Py.rstrip (Py.rstrip s) = Py.rstrip s.
Proof.
  induction s as [|c s IH]; [reflexivity|]. cbn [Py.rstrip].
  destruct (Py.rstrip s) as [|y r] eqn:Hr.
  - destruct (Py.isspace c) eqn:Hc; [reflexivity|]. cbn [Py.rstrip]. now rewrite Hc.
  - change (Py.rstrip (String c (String y r)))
      with (match Py.rstrip (String y r) with
            | EmptyString =>
                if Py.isspace c then EmptyString else String c EmptyString
            | r1 => String c r1
            end).
    now rewrite IH.
Qed.

Lemma lstrip_rstrip s : Py.lstrip (Py.rstrip s) = Py.rstrip (Py.lstrip s).
Proof.
  induction s as [|c s IH]; [reflexivity|]. cbn [Py.lstrip Py.rstrip].
  destruct (Py.isspace c) eqn:Hc.
  - destruct (Py.rstrip s) as [|y r] eqn:Hr.
    + now rewrite <- IH.
    + cbn [Py.lstrip]. now rewrite Hc.
  - cbn [Py.rstrip]. destruct (Py.rstrip s); cbn [Py.lstrip]; now rewrite Hc.
Qed.

Lemma strip_idem s : Py.strip (Py.strip s) = Py.strip s.
Proof.
  unfold Py.strip. now rewrite lstrip_rstrip, lstrip_idem, rstrip_idem.
Qed.

Lemma find_header_stripped dm_f dm_f1 :
  Forall2 (fun line line1 => Py.strip line = Py.strip line1) dm_f dm_f1 ->
  (find_header dm_f).1 = (find_header dm_f1).1
  /\ Forall2 (fun line line1 => Py.strip line = Py.strip line1)
             (find_header dm_f).2 (find_header dm_f1).2.
Proof.
  induction 1 as [|line line1 dm_f dm_f1 Hline Hall IH];
    [split; [reflexivity | constructor]|].
  cbn [find_header]. rewrite <- Hline.
  now destruct (Py.truthy (Py.strip line)
                && negb (Py.startswith (Py.strip line) "#")).
Qed.

Lemma from_file_rows_stripped sids delimiter dm_f dm_f1 :
  Forall2 (fun line line1 => Py.strip line = Py.strip line1) dm_f dm_f1 ->
  forall data idx,
    from_file_rows sids delimiter dm_f data idx
    = from_file_rows sids delimiter dm_f1 data idx.
Proof.
  induction 1 as [|line line1 dm_f dm_f1 Hline Hall IH]; intros data idx;
    [reflexivity|].
  cbn [from_file_rows]. rewrite <- Hline.
  destruct (negb (Py.truthy (Py.strip line))); [apply IH|].
  destruct (from_file_row sids delimiter (Py.strip line) data idx)
    as [[data1 idx1]|e]; [apply IH | reflexivity].
Qed.

(** X20.  Of each line only what is left when the white space at its two
    ends is taken off is read: two streams whose lines agree up to such
    white space are read alike, and a stream is read like the stream of
    its stripped lines. *)
Theorem from_file_ignores_padding (delimiter : string) (dm_f : list string) :
  (forall dm_f1,
     Forall2 (fun line line1 => Py.strip line = Py.strip line1) dm_f dm_f1 ->
     from_file dm_f delimiter = from_file dm_f1 delimiter)
  /\ from_file (Py.strip <$> dm_f) delimiter = from_file dm_f delimiter.
Proof.
  assert (Hsame : forall l l1,
            Forall2 (fun line line1 => Py.strip line = Py.strip line1) l l1 ->
            from_file l delimiter = from_file l1 delimiter).
  { intros l l1 Hall. unfold from_file, _parse_sample_ids.
    destruct (find_header_stripped l l1 Hall) as [Hhead Hrest].
    destruct (find_header l) as [header body], (find_header l1) as [header1 body1].
    cbn [fst snd] in Hhead, Hrest. subst header1.
    destruct header as [header|]; [|reflexivity].
    destruct (split header delimiter) as [sids|e]; [|reflexivity].
    cbn [mbind result_bind].
    now rewrite (from_file_rows_stripped sids delimiter body body1 Hrest). }
  split; [apply Hsame|]. apply Hsame.
  apply Forall2_fmap_l, Forall_Forall2_diag, Forall_forall.
  intros line _. apply strip_idem.
Qed.

(** ** The theorems at work on the examples *)

Ltac decide_by_computation :=
  apply (bool_decide_unpack _); vm_compute; exact I.

Ltac each_element :=
  repeat match goal with |- Forall _ _ => constructor end.

Ltac field_by_computation :=
  split; [vm_compute; discriminate | repeat split; vm_compute; reflexivity].


Lemma init_checks_in_order_witness :
  __init__ {| shape := [0; 0]; flat := [] |} []
    = Raise (DistanceMatrixError size_message)
  /\ __init__ unit_buffer ["a"; "a"]
    = Raise (DistanceMatrixError unique_message)
  /\ __init__ {| shape := [1; 2]; flat := [F64.zero; F64.one] |} ["a"]
    = Raise (DistanceMatrixError structure_message)
  /\ __init__ unit_buffer ["a"; "b"]
    = Raise (DistanceMatrixError count_message)
  /\ __init__ unit_buffer ["a"] = Ok unit_matrix.
Proof.
  split; [|split; [|split; [|split]]].
  - apply (init_checks_in_order {| shape := [0; 0]; flat := [] |} []).
    decide_by_computation.
  - apply (init_checks_in_order unit_buffer ["a"; "a"]);
      decide_by_computation.
  - apply (init_checks_in_order
             {| shape := [1; 2]; flat := [F64.zero; F64.one] |} ["a"]);
      [decide_by_computation | decide_by_computation |].
    apply is_valid_dm_false; [decide_by_computation | reflexivity].
  - apply (init_checks_in_order unit_buffer ["a"; "b"]);
      [decide_by_computation | decide_by_computation | | discriminate].
    apply is_valid_dm_spec; [decide_by_computation | reflexivity].
  - apply (init_checks_in_order unit_buffer ["a"]);
      [decide_by_computation | decide_by_computation | | reflexivity].
    apply is_valid_dm_spec; [decide_by_computation | reflexivity].
Defined.

Lemma init_rejects_nan_witness :
  (exists msg, __init__ nan_buffer ["a"; "b"] = Raise (DistanceMatrixError msg))
  /\ Forall (fun x => F64.is_nan x = false) (flat (data example_matrix)).
Proof.
  split.
  - apply (init_rejects_nan nan_buffer ["a"; "b"]); [reflexivity|].
    exists F64.nan. split; [|reflexivity].
    apply list_elem_of_In. right. left. reflexivity.
  - apply (init_rejects_nan example_buffer ["a"; "b"]); [reflexivity|].
    vm_compute. reflexivity.
Defined.

Lemma eq_characterization_witness :
  __eq__ example_matrix (as_object example_matrix) = Ok true
  /\ __eq__ example_matrix
       {| getattr_shape := Ok (Native [2; 2]);
          getattr_sample_ids := Raise (AttributeError "sample_ids");
          getattr_data := Ok (Native example_buffer) |} = Ok false
  /\ __eq__ example_matrix list_labelled = Ok false
  /\ (forall e, __eq__ example_matrix array_shaped = Raise e ->
      shape_test example_matrix array_shaped = Raise e).
Proof.
  split; [|split; [|split]].
  - destruct (eq_characterization example_matrix (as_object example_matrix))
      as (_ & Hnative & _).
    apply (Hnative [2; 2] ["a"; "b"] example_buffer); try reflexivity.
    split; [reflexivity|]. split; [reflexivity|]. split; [reflexivity|].
    repeat constructor.
  - apply (eq_characterization example_matrix); simpl; auto.
    right. left. eexists. reflexivity.
  - destruct (eq_characterization example_matrix list_labelled)
      as (Htrue & _ & Hquiet & _).
    destruct Hquiet as [[equal Hequal] _]; [exact I | exact I | exact I |].
    destruct equal; [|exact Hequal].
    apply Htrue in Hequal as (_ & Hids & _). discriminate.
  - intros e He.
    destruct (eq_characterization example_matrix array_shaped)
      as (_ & _ & _ & Hraise).
    destruct (Hraise e He) as (_ & [Hs | [Hi | Hd]]);
      [exact Hs | discriminate | discriminate].
Defined.

Lemma from_file_stream_errors_witness :
  from_file ["# comment" +:+ Py.LF; Py.LF] Py.TAB = Raise MissingHeaderError
  /\ from_file (Py.readlines (example_text +:+ "c" +:+ Py.LF)) Py.TAB
     = Raise (DistanceMatrixFormatError extra_rows_message)
  /\ from_file [Py.TAB +:+ "a" +:+ Py.TAB +:+ "b" +:+ Py.LF; Py.LF] Py.TAB
     = Raise (MissingDataError 0 2).
Proof.
  destruct (from_file_stream_errors Py.TAB)
    as (Hheader & Hextra & _ & Hnone & _).
  split; [|split].
  - apply Hheader. each_element; [right | left]; reflexivity.
  - apply (Hextra _ ["a"; "b"]
             ["a" +:+ Py.TAB +:+ "0.0" +:+ Py.TAB +:+ "1.0" +:+ Py.LF;
              "b" +:+ Py.TAB +:+ "1.0" +:+ Py.TAB +:+ "0.0" +:+ Py.LF]
             ("c" +:+ Py.LF) [] example_buffer).
    + reflexivity.
    + vm_compute. reflexivity.
    + discriminate.
  - apply (Hnone _ ["a"; "b"] [Py.LF]); [reflexivity|].
    each_element; reflexivity.
Defined.

Lemma from_file_row_checks_witness :
  from_file_rows ["a"; "b"] Py.TAB
    ["a" +:+ Py.TAB +:+ "0.0" +:+ Py.TAB +:+ "1.0" +:+ Py.LF]
    (Np.empty [2; 2]) 0
  = Ok ({| shape := [2; 2];
           flat := [F64.zero; F64.one; F64.zero; F64.zero] |}, 1).
Proof.
  destruct (from_file_row_checks ["a"; "b"] Py.TAB
              ("a" +:+ Py.TAB +:+ "0.0" +:+ Py.TAB +:+ "1.0" +:+ Py.LF) []
              (Np.empty [2; 2]) 0 ["a"; "0.0"; "1.0"])
    as (_ & _ & Hrow).
  - discriminate.
  - repeat constructor.
  - reflexivity.
  - destruct (Hrow eq_refl eq_refl) as [_ Hstore].
    destruct (Hstore [F64.zero; F64.one] eq_refl) as (_ & -> & _).
    reflexivity.
Defined.

Lemma getitem_dispatch_witness :
  __getitem__ (list float) row_getitem example_matrix (IndexStr "b")
  = Ok [F64.one; F64.zero]
  /\ __getitem__ (list float) row_getitem example_matrix (IndexStr "c")
     = Raise (MissingSampleIDError
                "The sample ID 'c' is not in the distance matrix.").
Proof.
  destruct (getitem_dispatch row_getitem example_matrix
              example_matrix_constructed) as (Hlabel & Hmissing & _).
  split.
  - rewrite (Hlabel 1 "b" eq_refl). reflexivity.
  - apply Hmissing. decide_by_computation.
Defined.

Lemma set_sample_ids_atomic_witness :
  set_sample_ids unit_matrix ["b"]
  = ({| _data := unit_buffer; _sample_ids := ["b"];
        _sample_index := _index_list ["b"] |}, None)
  /\ set_sample_ids unit_matrix ["b"; "c"]
     = (unit_matrix, Some (DistanceMatrixError count_message)).
Proof.
  split.
  - apply (set_sample_ids_atomic unit_matrix ["b"] unit_matrix_constructed);
      [decide_by_computation | reflexivity].
  - apply (set_sample_ids_atomic unit_matrix ["b"; "c"] unit_matrix_constructed);
      [decide_by_computation | discriminate].
Defined.

Lemma random_distance_matrix_falsy_ids_witness :
  random_distance_matrix rand_example 2 (Some [])
  = random_distance_matrix rand_example 2 None
  /\ exists dm,
       random_distance_matrix rand_example 2 (Some []) = Ok dm
       /\ sample_ids dm = ["1"; "2"]
       /\ data dm
          = {| shape := [2; 2]; flat := [F64.zero; half; half; F64.zero] |}.
Proof.
  destruct (random_distance_matrix_falsy_ids rand_example 2)
    as (Hsame & _ & _ & Hdrawn); [lia | reflexivity |].
  split; [exact Hsame|].
  destruct Hdrawn as (dm & Hdm & Hids & Hdata);
    [reflexivity | each_element; split; reflexivity |].
  exists dm. rewrite Hids, Hdata. auto.
Defined.

Lemma shape_of_instance_witness :
  1 <= num_samples example_matrix
  /\ dm_shape example_matrix = [2; 2]
  /\ size example_matrix = 4
  /\ num_samples (set_sample_ids example_matrix ["x"; "y"; "z"]).1 = 2
  /\ exists cols, dm_shape single_row_matrix = [1; cols]
       /\ size single_row_matrix = 1 * cols.
Proof.
  destruct (shape_of_instance example_matrix example_matrix_constructed)
    as (Hn & _ & Hsquare & Hkeep).
  destruct Hsquare as [Hshape Hsize]; [cbn; lia|].
  split; [exact Hn|]. split; [exact Hshape|]. split; [exact Hsize|].
  split; [exact (Hkeep ["x"; "y"; "z"])|].
  destruct (shape_of_instance single_row_matrix single_row_constructed)
    as (_ & (cols & Hrow & _ & _ & Hsize') & _).
  exists cols. split; [exact Hrow | exact Hsize'].
Defined.

Lemma transpose_is_noop_witness :
  T example_matrix = example_matrix
  /\ transpose example_matrix = example_matrix
  /\ Np.array_equal (Np.transpose (data (T example_matrix)))
                    (data example_matrix) = true
  /\ Np.array_equal (Np.transpose (data (T single_row_matrix)))
                    (data single_row_matrix) <> true.
Proof.
  destruct (transpose_is_noop example_matrix example_matrix_constructed)
    as (HT & Htranspose & _ & Hequal); [reflexivity|].
  split; [exact HT|]. split; [exact Htranspose|].
  split; [apply Hequal; cbn; lia|].
  destruct (transpose_is_noop single_row_matrix single_row_constructed)
    as (_ & _ & Hiff & _); [reflexivity|].
  intros Heq. apply Hiff in Heq. discriminate.
Defined.

Lemma eq_is_equivalence_witness :
  __eq__ example_matrix (as_object unit_matrix)
  = __eq__ unit_matrix (as_object example_matrix)
  /\ __eq__ example_matrix (as_object example_matrix) = Ok true.
Proof.
  split.
  - apply (eq_is_equivalence example_matrix unit_matrix example_matrix).
  - destruct (eq_is_equivalence example_matrix example_matrix example_matrix)
      as (_ & _ & Htrans & Hrefl).
    apply Htrans; apply Hrefl;
      (exact example_matrix_constructed || reflexivity).
Defined.

Lemma copy_is_equal_witness :
  exists M',
    copy example_matrix = Ok M'
    /\ data M' = data example_matrix
    /\ sample_ids M' = sample_ids example_matrix
    /\ constructed M'
    /\ __eq__ example_matrix (as_object M') = Ok true
    /\ __ne__ example_matrix (as_object M') = Ok false.
Proof.
  apply (copy_is_equal example_matrix example_matrix_constructed).
  reflexivity.
Defined.

Lemma index_list_last_occurrence_witness :
  _index_list ["a"; "b"; "a"] !! "a" = Some 2
  /\ _index_list ["a"; "b"; "a"] !! "c" = None.
Proof.
  destruct (index_list_last_occurrence ["a"; "b"; "a"] "a") as [Hlast _].
  destruct (index_list_last_occurrence ["a"; "b"; "a"] "c") as [_ Hnone].
  split.
  - apply Hlast. split; [reflexivity|].
    intros [|[|[|j]]] Hj; try lia; discriminate.
  - apply Hnone. decide_by_computation.
Defined.

Lemma set_sample_ids_restores_witness :
  set_sample_ids example_matrix ["a"; "b"] = (example_matrix, None)
  /\ (set_sample_ids example_matrix ["x"; "y"]).2 = None
  /\ set_sample_ids (set_sample_ids example_matrix ["x"; "y"]).1 ["a"; "b"]
     = (example_matrix, None).
Proof.
  destruct (set_sample_ids_restores example_matrix ["x"; "y"]
              example_matrix_constructed) as [Hsame Hback].
  split; [exact Hsame|]. apply Hback; [decide_by_computation | reflexivity].
Defined.

Lemma getitem_follows_labels_witness :
  __getitem__ (list float) row_getitem
    (set_sample_ids example_matrix ["x"; "y"]).1 (IndexStr "y")
  = __getitem__ (list float) row_getitem example_matrix (IndexStr "b")
  /\ __getitem__ (list float) row_getitem
       (set_sample_ids example_matrix ["x"; "y"]).1 (IndexStr "b")
     = Raise (MissingSampleIDError (missing_id_message "b")).
Proof.
  destruct (getitem_follows_labels row_getitem example_matrix ["x"; "y"]
              example_matrix_constructed) as [Hnew Hold];
    [decide_by_computation | reflexivity |].
  split.
  - apply (Hnew 1 "b" "y"); reflexivity.
  - apply Hold. decide_by_computation.
Defined.

Lemma parse_sample_ids_header_witness :
  _parse_sample_ids commented_lines Py.TAB
  = Ok (["a"; "b"],
        ["a" +:+ Py.TAB +:+ "0.0" +:+ Py.TAB +:+ "1.0" +:+ Py.LF;
         "b" +:+ Py.TAB +:+ "1.0" +:+ Py.TAB +:+ "0.0" +:+ Py.LF])
  /\ exists skipped header,
       commented_lines
       = skipped ++ header
           :: ["a" +:+ Py.TAB +:+ "0.0" +:+ Py.TAB +:+ "1.0" +:+ Py.LF;
               "b" +:+ Py.TAB +:+ "1.0" +:+ Py.TAB +:+ "0.0" +:+ Py.LF]
       /\ Forall (fun line => blank line \/ comment line) skipped
       /\ ~ blank header /\ ~ comment header
       /\ ["a"; "b"] = Py.split_from Py.TAB 0 (Py.strip header)
       /\ 1 <= length ["a"; "b"].
Proof.
  destruct (parse_sample_ids_header Py.TAB) as [Hhere Hinv]; [discriminate|].
  assert (Hparse : _parse_sample_ids commented_lines Py.TAB
            = Ok (["a"; "b"],
                  ["a" +:+ Py.TAB +:+ "0.0" +:+ Py.TAB +:+ "1.0" +:+ Py.LF;
                   "b" +:+ Py.TAB +:+ "1.0" +:+ Py.TAB +:+ "0.0" +:+ Py.LF])).
  { apply (Hhere ["# distances" +:+ Py.LF; Py.LF]
                 (Py.TAB +:+ "a" +:+ Py.TAB +:+ "b" +:+ Py.LF)).
    - each_element; [right | left]; reflexivity.
    - unfold blank. vm_compute. discriminate.
    - unfold comment. vm_compute. discriminate. }
  split; [exact Hparse | exact (Hinv _ _ _ Hparse)].
Defined.

Lemma from_file_skips_before_header_witness :
  from_file (["# distances" +:+ Py.LF; Py.LF] ++ Py.readlines example_text)
            Py.TAB
  = from_file (Py.readlines example_text) Py.TAB.
Proof.
  apply (from_file_skips_before_header Py.TAB).
  each_element; [right | left]; reflexivity.
Defined.

Lemma from_file_empty_delimiter_witness :
  from_file ["# distances" +:+ Py.LF; Py.LF] EmptyString
  = Raise MissingHeaderError
  /\ from_file commented_lines EmptyString
     = Raise (ValueError "empty separator").
Proof.
  split.
  - apply (from_file_empty_delimiter ["# distances" +:+ Py.LF; Py.LF]).
    each_element; [right | left]; reflexivity.
  - apply (from_file_empty_delimiter commented_lines).
    do 2 apply Exists_cons_tl. apply Exists_cons_hd.
    split; [unfold blank | unfold comment]; vm_compute; discriminate.
Defined.

Lemma from_file_decodes_witness :
  constructed example_matrix
  /\ exists skipped header body,
       commented_lines = skipped ++ header :: body
       /\ Forall (fun line => blank line \/ comment line) skipped
       /\ ~ blank header /\ ~ comment header
       /\ sample_ids example_matrix
          = Py.split_from Py.TAB 0 (Py.strip header)
       /\ length (List.filter nonblank body) = num_samples example_matrix
       /\ forall i line,
            List.filter nonblank body !! i = Some line ->
            exists label fields vals,
              Py.split_from Py.TAB 0 (Py.strip line) = label :: fields
              /\ sample_ids example_matrix !! i = Some label
              /\ asarray_float fields = Ok vals
              /\ Np.iter (data example_matrix) !! i = Some vals.
Proof.
  apply (from_file_decodes commented_lines Py.TAB example_matrix).
  vm_compute. reflexivity.
Defined.

Lemma from_file_raises_only_witness :
  from_file short_lines Py.TAB = Raise (MissingDataError 1 2)
  /\ raised_by_reader (MissingDataError 1 2).
Proof.
  assert (Hshort : from_file short_lines Py.TAB = Raise (MissingDataError 1 2))
    by (vm_compute; reflexivity).
  split; [exact Hshort|].
  exact (from_file_raises_only short_lines Py.TAB _ Hshort).
Defined.

Lemma from_file_comment_after_header_witness :
  exists e, from_file interrupted_lines Py.TAB = Raise e.
Proof.
  apply (from_file_comment_after_header interrupted_lines Py.TAB ["a"; "b"]
           ["a" +:+ Py.TAB +:+ "0.0" +:+ Py.TAB +:+ "1.0" +:+ Py.LF;
            "# note" +:+ Py.LF;
            "b" +:+ Py.TAB +:+ "1.0" +:+ Py.TAB +:+ "0.0" +:+ Py.LF]).
  - reflexivity.
  - reflexivity.
  - each_element; reflexivity.
  - apply Exists_cons_tl, Exists_cons_hd. reflexivity.
Defined.

Lemma to_file_appends_lines_witness :
  to_file F64.to_decimal example_matrix ("# distances" +:+ Py.LF) Py.TAB
  = ("# distances" +:+ Py.LF)
    +:+ to_file F64.to_decimal example_matrix EmptyString Py.TAB
  /\ exists rows,
       Py.readlines (to_file F64.to_decimal example_matrix EmptyString Py.TAB)
       = (Py.TAB +:+ Py.join Py.TAB (sample_ids example_matrix) +:+ Py.LF)
         :: rows
       /\ length rows = num_samples example_matrix
       /\ forall i sid vals,
            sample_ids example_matrix !! i = Some sid ->
            Np.iter (data example_matrix) !! i = Some vals ->
            rows !! i
            = Some (sid +:+ Py.TAB
                    +:+ Py.join Py.TAB (F64.to_decimal <$> vals) +:+ Py.LF).
Proof.
  destruct (to_file_appends_lines F64.to_decimal example_matrix Py.TAB)
    as [Happend Hlines].
  split; [exact (Happend _)|].
  apply Hlines.
  - exact example_matrix_constructed.
  - reflexivity.
  - each_element; reflexivity.
  - each_element; vm_compute; reflexivity.
Defined.

Lemma random_distance_matrix_labels_witness :
  random_distance_matrix rand_example 2 (Some ["a"; "a"])
  = Raise (DistanceMatrixError unique_message)
  /\ random_distance_matrix rand_example 2 (Some ["a"])
     = Raise (DistanceMatrixError count_message)
  /\ exists dm,
       random_distance_matrix rand_example 2 (Some ["a"; "b"]) = Ok dm
       /\ sample_ids dm = ["a"; "b"] /\ dm_shape dm = [2; 2].
Proof.
  assert (Hdraws : Forall unit_interval (flat rand_example))
    by (each_element; split; reflexivity).
  destruct (random_distance_matrix_labels rand_example 2 ["a"; "a"])
    as (Hdup & _); [lia | reflexivity | reflexivity | exact Hdraws | discriminate |].
  destruct (random_distance_matrix_labels rand_example 2 ["a"])
    as (_ & Hcount & _);
    [lia | reflexivity | reflexivity | exact Hdraws | discriminate |].
  destruct (random_distance_matrix_labels rand_example 2 ["a"; "b"])
    as (_ & _ & Hok);
    [lia | reflexivity | reflexivity | exact Hdraws | discriminate |].
  split; [apply Hdup; decide_by_computation|].
  split; [apply Hcount; [decide_by_computation | cbn; lia]|].
  apply Hok; [decide_by_computation | reflexivity].
Defined.

Lemma random_distance_matrix_no_sample_witness :
  random_distance_matrix empty_buffer 0 None
  = Raise (DistanceMatrixError size_message)
  /\ random_distance_matrix empty_buffer 0 (Some ["a"])
     = Raise (DistanceMatrixError size_message).
Proof.
  split.
  - apply (random_distance_matrix_no_sample empty_buffer None). reflexivity.
  - apply (random_distance_matrix_no_sample empty_buffer (Some ["a"])).
    reflexivity.
Defined.

Lemma random_distance_matrix_entries_witness :
  exists dm,
    random_distance_matrix rand_example 2 None = Ok dm
    /\ Np.well_formed (data dm)
    /\ (forall i j, j < i -> i < 2 ->
          F64.eqb (Np.item (data dm) 2 i j) (Np.item rand_example 2 i j) = true
          /\ F64.eqb (Np.item (data dm) 2 j i) (Np.item rand_example 2 i j)
             = true)
    /\ (forall i, i < 2 -> Np.item (data dm) 2 i i = F64.zero)
    /\ Forall unit_interval (flat (data dm)).
Proof.
  apply (random_distance_matrix_entries rand_example 2);
    [lia | reflexivity | reflexivity |].
  each_element; split; reflexivity.
Defined.

Lemma pprint_sample_ids_cuts_witness :
  _pprint_sample_ids example_matrix 80 ", " "..." = Ok "a, b"
  /\ _pprint_sample_ids example_matrix 2 EmptyString "..."
     = Ok "ab"
  /\ _pprint_sample_ids example_matrix 1 EmptyString "..."
     = Raise (ValueError "empty separator")
  /\ exists shown,
       _pprint_sample_ids example_matrix 3 ", " "..."
       = Ok (shown +:+ ", " +:+ "...")
       /\ String.length shown <= 3
       /\ (shown = EmptyString \/ String.prefix (shown +:+ ", ") "a, b" = true).
Proof.
  split; [|split; [|split]].
  - apply (pprint_sample_ids_cuts example_matrix 80 ", " "...").
    vm_compute. discriminate.
  - apply (pprint_sample_ids_cuts example_matrix 2 EmptyString "...").
    vm_compute. discriminate.
  - apply (pprint_sample_ids_cuts example_matrix 1 EmptyString "...");
      reflexivity.
  - apply (pprint_sample_ids_cuts example_matrix 3 ", " "...");
      [lia | reflexivity | discriminate].
Defined.

Lemma str_of_instance_witness :
  exists cols sids,
    dm_shape example_matrix = [num_samples example_matrix; cols]
    /\ (2 <= num_samples example_matrix -> cols = num_samples example_matrix)
    /\ _pprint_sample_ids example_matrix 80 ", " "..." = Ok sids
    /\ String.length sids <= 85
    /\ __str__ (fun a => Py.join " " (F64.to_decimal <$> flat a))
               example_matrix
       = Ok (Py.str_of_nat (num_samples example_matrix) +:+ "x"
             +:+ Py.str_of_nat cols
             +:+ " distance matrix" +:+ Py.LF +:+ "Sample IDs:" +:+ Py.LF
             +:+ sids +:+ Py.LF +:+ "Data:" +:+ Py.LF
             +:+ Py.join " " (F64.to_decimal <$> flat (data example_matrix))).
Proof.
  apply (str_of_instance (fun a => Py.join " " (F64.to_decimal <$> flat a))
           example_matrix example_matrix_constructed).
Defined.

Lemma from_file_ignores_padding_witness :
  from_file short_lines Py.TAB = from_file padded_lines Py.TAB
  /\ from_file (Py.strip <$> short_lines) Py.TAB
     = from_file short_lines Py.TAB.
Proof.
  destruct (from_file_ignores_padding Py.TAB short_lines) as [Hsame Hstrip].
  split; [|exact Hstrip].
  apply Hsame. repeat constructor.
Defined.
